(** * MKVToolNix bot: a shallow embedding of [bot.py]

    The development follows the layout of the program:

    - [Py] and [PathLib]: the few operations of Python's [str] and of
      [pathlib.PurePosixPath] that [bot.py] calls.  File names and tool
      reports are modelled as ASCII strings (every character below 128):
      on those, [lower], [strip], [split] and [splitlines] below agree
      with CPython.  [PathLib] follows CPython 3.8 to 3.13
      ([suffix] and [stem] cut at the last dot [i] of the final
      component when [0 < i < len(name) - 1]).
    - the constants [SUPPORTED_EXTENSIONS] and [LANGUAGE_CODES];
    - the session store [user_sessions] and the handlers of
      [MKVToolNixBot], as state-passing functions that return what was
      sent to the chat next to the new store;
    - the three tool wrappers [get_mkv_tracks], [extract_tracks] and
      [mux_files], with the child process and the file system as
      arguments;
    - the [progress] closure of [download_file].

    Handlers run one at a time, each to completion.  They are given twice.
    First as they run when every call they await returns: a call into the
    chat transport ([reply_text], [answer], [edit_text]) is recorded as an
    output, [os.makedirs] and the start of a child process succeed.  Then,
    in [Raising], with each of these calls able to raise, as the
    environment [env] of the update decides; [raising_handle_returning]
    shows that the two agree where nothing raises.  Likewise [progress] is
    the closure where the clock of the event loop can be read, and
    [progress_call] the closure in any thread.  What a download or a child
    process yields is an argument of the handler that uses it. *)

From Stdlib Require Import ZArith List Ascii Bool Lia QArith DecimalString.
From stdpp Require Import base gmap list strings.

Local Open Scope Z_scope.

(** ** Python strings *)

Module Py.

Definition lower_char (c : ascii) : ascii :=
  let n := nat_of_ascii c in
  if ((65 <=? n) && (n <=? 90))%nat then ascii_of_nat (n + 32) else c.

Definition upper_char (c : ascii) : ascii :=
  let n := nat_of_ascii c in
  if ((97 <=? n) && (n <=? 122))%nat then ascii_of_nat (n - 32) else c.

(** [str.lower] *)
Fixpoint lower (s : string) : string :=
  match s with
  | EmptyString => EmptyString
  | String c s' => String (lower_char c) (lower s')
  end.

(** [str.capitalize]: first character upper-cased, the rest lower-cased. *)
Definition capitalize (s : string) : string :=
  match s with
  | EmptyString => EmptyString
  | String c s' => String (upper_char c) (lower s')
  end.

(** [len] *)
Fixpoint len (s : string) : Z :=
  match s with
  | EmptyString => 0
  | String _ s' => 1 + len s'
  end.

(** [str.isspace] on one ASCII character: 9..13, 28..31 and 32. *)
Definition isspace (c : ascii) : bool :=
  let n := nat_of_ascii c in
  (((9 <=? n) && (n <=? 13)) || ((28 <=? n) && (n <=? 32)))%nat.

Fixpoint lstrip (s : string) : string :=
  match s with
  | EmptyString => EmptyString
  | String c s' => if isspace c then lstrip s' else s
  end.

Fixpoint rstrip (s : string) : string :=
  match s with
  | EmptyString => EmptyString
  | String c s' =>
      match rstrip s' with
      | EmptyString => if isspace c then EmptyString else String c EmptyString
      | r => String c r
      end
  end.

(** [str.strip()] *)
Definition strip (s : string) : string := rstrip (lstrip s).

(** [str.startswith] *)
Fixpoint startswith (s p : string) : bool :=
  match p, s with
  | EmptyString, _ => true
  | String _ _, EmptyString => false
  | String a p', String b s' => if decide (a = b) then startswith s' p' else false
  end.

(** [s.endswith(c)] for a one-character [c]. *)
Fixpoint endswith (s : string) (c : ascii) : bool :=
  match s with
  | EmptyString => false
  | String a EmptyString => bool_decide (a = c)
  | String _ s' => endswith s' c
  end.

(** [p in s] for strings: [p] occurs in [s] as a substring. *)
Fixpoint contains (p s : string) : bool :=
  startswith s p ||
  match s with
  | EmptyString => false
  | String _ s' => contains p s'
  end.

(** [s.split(sep)] for a one-character separator. *)
Fixpoint split (sep : ascii) (s : string) : list string :=
  match s with
  | EmptyString => [EmptyString]
  | String c s' =>
      if decide (c = sep) then EmptyString :: split sep s'
      else match split sep s' with
           | x :: xs => String c x :: xs
           | [] => [String c EmptyString]
           end
  end.

(** [s.rfind(c)]: index of the last occurrence, [-1] when there is none. *)
Fixpoint rfind (c : ascii) (s : string) : Z :=
  match s with
  | EmptyString => -1
  | String a s' =>
      let r := rfind c s' in
      if 0 <=? r then 1 + r else if decide (a = c) then 0 else -1
  end.

(** [s[:i]] and [s[i:]] for [0 <= i]. *)
Fixpoint take (i : nat) (s : string) : string :=
  match i, s with
  | S i', String c s' => String c (take i' s')
  | _, _ => EmptyString
  end.

Fixpoint drop (i : nat) (s : string) : string :=
  match i, s with
  | S i', String _ s' => drop i' s'
  | _, _ => s
  end.

(** [x in l] for a list of strings. *)
Definition in_list (x : string) (l : list string) : bool :=
  bool_decide (x ∈ l).

(** Truthiness of a string: non-empty. *)
Definition truthy (s : string) : bool :=
  match s with EmptyString => false | _ => true end.

End Py.

(** ** [pathlib.PurePosixPath] *)

Module PathLib.

(** [Path(p).name]: the last component of [p] once empty components and
    single dots are dropped; empty when nothing is left. *)
Definition name (p : string) : string :=
  List.last
    (List.filter (fun x => negb (bool_decide (x = "")) && negb (bool_decide (x = ".")))
                 (Py.split "/" p))
    "".

(** [Path(p).suffix] *)
Definition suffix (p : string) : string :=
  let n := name p in
  let i := Py.rfind "." n in
  if (0 <? i) && (i <? Py.len n - 1) then Py.drop (Z.to_nat i) n else "".

(** [Path(p).stem] *)
Definition stem (p : string) : string :=
  let n := name p in
  let i := Py.rfind "." n in
  if (0 <? i) && (i <? Py.len n - 1) then Py.take (Z.to_nat i) n else n.

End PathLib.

(** ** Constants *)

Definition SUPPORTED_EXTENSIONS : list (string * list string) :=
  [ ("video", [".mkv"; ".mp4"; ".avi"; ".webm"; ".mov"]);
    ("audio", [".aac"; ".ac3"; ".dts"; ".mp3"; ".opus"; ".flac"; ".wav"]);
    ("subtitles", [".srt"; ".ass"; ".ssa"; ".vtt"; ".pgs"; ".sub"]) ].

Definition LANGUAGE_CODES : list (string * list string) :=
  [ ("hi", ["hi"; "hin"; "hindi"]);
    ("en", ["en"; "eng"; "english"]);
    ("ta", ["ta"; "tam"; "tamil"]);
    ("bn", ["bn"; "ben"; "bengali"]);
    ("mr", ["mr"; "mar"; "marathi"]);
    ("gu", ["gu"; "guj"; "gujarati"]);
    ("kn", ["kn"; "kan"; "kannada"]);
    ("ml", ["ml"; "mal"; "malayalam"]);
    ("te", ["te"; "tel"; "telugu"]);
    ("pa", ["pa"; "pan"; "punjabi"]);
    ("or", ["or"; "ori"; "odia"]);
    ("as", ["as"; "asm"; "assamese"]);
    ("ne", ["ne"; "nep"; "nepali"]);
    ("sa", ["sa"; "san"; "sanskrit"]);
    ("ur", ["ur"; "urd"; "urdu"]) ].

(** ** File classifier *)

(** The inner loop of [detect_language]: is some variant of the list one of
    the parts? *)
Fixpoint any_variant_in (variants parts : list string) : bool :=
  match variants with
  | [] => false
  | variant :: rest =>
      if Py.in_list variant parts then true else any_variant_in rest parts
  end.

(** The outer loop of [detect_language], over the items of the table in
    their order. *)
Fixpoint first_language (table : list (string * list string)) (parts : list string)
  : option string :=
  match table with
  | [] => None
  | (lang_code, variants) :: rest =>
      if any_variant_in variants parts then Some lang_code
      else first_language rest parts
  end.

Definition language_parts (filename : string) : list string :=
  Py.split "." (PathLib.stem (Py.lower filename)).

Definition detect_language (filename : string) : option string :=
  first_language LANGUAGE_CODES (language_parts filename).

(** ** Telegram messages, as far as the bot reads them *)

Module Telegram.

(** A [Document], [Video] or [Audio] attachment; both attributes are
    optional in the transport's types. *)
Record media := { file_name : option string; file_size : option Z }.

(** A [Message]: the sender ([message.from_user.id]) and the three
    attachment attributes, each [None] or an attachment. *)
Record Message := {
  from_user : Z;
  document : option media;
  video : option media;
  audio : option media
}.

End Telegram.

(** ** Sessions *)

(** An entry of [session['files']]. *)
Record staged_file := {
  message : Telegram.Message;
  file_name : string;
  file_type : string;
  file_ext : string;
  language : option string
}.

(** A value of [user_sessions]. *)
Record session := {
  files : list staged_file;
  current_operation : option string;
  processing : bool
}.

(** ** What the bot sends *)

(** An inline keyboard: rows of buttons, a button being its label and its
    callback data. *)
Definition keyboard : Type := list (list (string * string)).

Inductive effect : Type :=
| reply_text (text : string) (reply_markup : option keyboard)
| answer (text : string)
| edit_text (text : string) (reply_markup : option keyboard).

(** ** Handlers as computations over [user_sessions] *)

Definition exn : Type := string.

(** A computation reads and writes the session store, appends to what was
    sent, and returns or raises. *)
Definition M (A : Type) : Type :=
  gmap Z session -> gmap Z session * list effect * (exn + A).

Definition ret {A} (a : A) : M A := fun s => (s, [], inr a).

Definition bind {A B} (m : M A) (k : A -> M B) : M B := fun s =>
  match m s with
  | (s1, out1, inl e) => (s1, out1, inl e)
  | (s1, out1, inr a) =>
      match k a s1 with
      | (s2, out2, r) => (s2, out1 ++ out2, r)
      end
  end.

#[global] Instance M_ret : MRet M := @ret.
#[global] Instance M_bind : MBind M := fun A B k m => bind m k.

Definition raise {A} (e : exn) : M A := fun s => (s, [], inl e).

(** A call into the transport that returns; [Raising.send] is the call
    that may raise. *)
Definition send (e : effect) : M unit := fun s => (s, [e], inr tt).

Definition user_sessions : M (gmap Z session) := fun s => (s, [], inr s).
Definition set_user_sessions (s' : gmap Z session) : M unit := fun _ => (s', [], inr tt).

(** [try: body except Exception as e: handler e] *)
Definition try_except (body : M unit) (handler : exn -> M unit) : M unit := fun s =>
  match body s with
  | (s1, out1, inl e) =>
      match handler e s1 with
      | (s2, out2, r) => (s2, out1 ++ out2, r)
      end
  | r => r
  end.

(** [user_sessions[user_id]] *)
Definition session_of (user_id : Z) : M session :=
  s ← user_sessions;
  match s !! user_id with
  | Some session => mret session
  | None => raise "KeyError"
  end.

(** [del user_sessions[user_id]] *)
Definition del_session (user_id : Z) : M unit :=
  s ← user_sessions;
  match s !! user_id with
  | Some _ => set_user_sessions (delete user_id s)
  | None => raise "KeyError"
  end.

Definition nl : string := String (ascii_of_nat 10) EmptyString.

Definition str (z : Z) : string := DecimalString.NilZero.string_of_int (Z.to_int z).

(** ** The environment of the tool wrappers *)

(** A child process once [communicate()] has returned; the two streams are
    already decoded. *)
Record completed := { returncode : Z; stdout : string; stderr : string }.

(** What the handlers cannot decide by themselves:
    - [fetch message download_path]: the transport's download and the
      figures computed after it (lines 486 to 507); it raises (the download,
      [os.path.getsize], or the division by a zero duration), or yields the
      path of the file and the text of the closing progress edit;
    - [exec command]: the child process started with that argument vector,
      run to its exit;
    - [path_exists]: [os.path.exists] once the child process has exited. *)
Record world := {
  fetch : Telegram.Message -> string -> exn + (string * string);
  exec : list string -> completed;
  path_exists : string -> bool
}.

(** [os.path.join(a, b)] on POSIX. *)
Definition os_path_join (a b : string) : string :=
  if Py.startswith b "/" then b
  else if negb (Py.truthy a) || Py.endswith a "/"
       then a +:+ b
       else a +:+ "/" +:+ b.

(** ** Probing: [get_mkv_tracks] *)

Module Track.

(** The dictionary built for a track: ['id'] is always set, the other
    three keys only once their line was seen. *)
Record t := {
  id : Z;
  type : option string;
  codec : option string;
  language : option string
}.

End Track.

(** [line.split(":")[1]]; the caller has checked that [line] holds a colon. *)
Definition after_colon (line : string) : string :=
  List.nth 1 (Py.split ":" line) "".

(** The body of the [for line in lines] loop; the state is [tracks] and
    [current_track]. *)
Definition parse_line (st : list Track.t * option Track.t) (line0 : string)
  : list Track.t * option Track.t :=
  let line := Py.strip line0 in
  let '(tracks, current_track) := st in
  if Py.startswith line "+ A track" then
    let tracks' :=
      match current_track with
      | Some t => tracks ++ [t]
      | None => tracks
      end in
    (tracks',
     Some {| Track.id := Z.of_nat (length tracks') + 1; Track.type := None;
             Track.codec := None; Track.language := None |})
  else
    match current_track with
    | Some t =>
        if Py.contains "Track type:" line then
          (tracks, Some {| Track.id := Track.id t;
                           Track.type := Some (Py.lower (Py.strip (after_colon line)));
                           Track.codec := Track.codec t;
                           Track.language := Track.language t |})
        else if Py.contains "Codec ID:" line then
          (tracks, Some {| Track.id := Track.id t;
                           Track.type := Track.type t;
                           Track.codec := Some (Py.strip (after_colon line));
                           Track.language := Track.language t |})
        else if Py.contains "Language:" line then
          (tracks, Some {| Track.id := Track.id t;
                           Track.type := Track.type t;
                           Track.codec := Track.codec t;
                           Track.language := Some (Py.strip (after_colon line)) |})
        else st
    | None => st
    end.

(** The loop and the closing [if current_track: tracks.append(current_track)]. *)
Definition parse_lines (lines : list string) : list Track.t :=
  match List.fold_left parse_line lines ([], None) with
  | (tracks, Some t) => tracks ++ [t]
  | (tracks, None) => tracks
  end.

Definition is_linebreak (c : ascii) : bool :=
  let n := nat_of_ascii c in
  (((10 <=? n) && (n <=? 13)) || ((28 <=? n) && (n <=? 30)))%nat.

(** [str.splitlines()] *)
Fixpoint splitlines (s : string) : list string :=
  match s with
  | EmptyString => []
  | String c s' =>
      if is_linebreak c then
        EmptyString ::
          match s' with
          | String c' s'' =>
              if bool_decide (c = "013"%char) && bool_decide (c' = "010"%char)
              then splitlines s'' else splitlines s'
          | EmptyString => []
          end
      else
        match splitlines s' with
        | x :: xs => String c x :: xs
        | [] => [String c EmptyString]
        end
  end.

Definition get_mkv_tracks (w : world) (file_path : string) : M (list Track.t) :=
  let proc := exec w ["mkvinfo"; file_path] in
  if negb (returncode proc =? 0) then raise ("mkvinfo failed: " +:+ stderr proc)
  else mret (parse_lines (splitlines (stdout proc))).

(** ** Extracting: [extract_tracks] *)

Definition extract_command (file_path : string) (track_ids : list Z) (output_dir : string)
  : list string :=
  ["mkvextract"; file_path; "tracks"] ++
  List.map (fun track_id =>
              str track_id +:+ ":" +:+ os_path_join output_dir ("track_" +:+ str track_id))
           track_ids.

Definition extract_exts : list string := [".mkv"; ".mp4"; ".aac"; ".srt"; ".ass"].

Definition track_output (output_dir : string) (track_id : Z) (ext : string) : string :=
  os_path_join output_dir ("track_" +:+ str track_id +:+ ext).

(** The inner [for ext in ...] loop with its [break]: what it appends to
    [extracted_files]. *)
Fixpoint first_output (w : world) (output_dir : string) (track_id : Z) (exts : list string)
  : list string :=
  match exts with
  | [] => []
  | ext :: rest =>
      if path_exists w (track_output output_dir track_id ext)
      then [track_output output_dir track_id ext]
      else first_output w output_dir track_id rest
  end.

(** The outer [for track_id in track_ids] loop, [extracted_files] as the
    accumulator. *)
Fixpoint collect_outputs (w : world) (output_dir : string) (track_ids : list Z)
    (extracted_files : list string) : list string :=
  match track_ids with
  | [] => extracted_files
  | track_id :: rest =>
      collect_outputs w output_dir rest
        (extracted_files ++ first_output w output_dir track_id extract_exts)
  end.

(** [extract_tracks] once [os.makedirs(output_dir, exist_ok=True)] has
    returned and the child process has been started;
    [Raising.extract_tracks] has both calls. *)
Definition extract_tracks (w : world) (file_path : string) (track_ids : list Z)
    (output_dir : string) : M (list string) :=
  let proc := exec w (extract_command file_path track_ids output_dir) in
  if negb (returncode proc =? 0) then raise ("mkvextract failed: " +:+ stderr proc)
  else mret (collect_outputs w output_dir track_ids []).

(** ** Combining: [mux_files] *)

(** The argument vector built by [mux_files]; the option bag maps option
    names to strings. *)
Definition mux_command (files : list string) (output_file : string)
    (options : gmap string string) : list string :=
  let command := ["mkvmerge"; "-o"; output_file] in
  let command := List.fold_left (fun command file => command ++ [file]) files command in
  match options !! "title" with
  | Some title => if Py.truthy title then command ++ ["--title"; title] else command
  | None => command
  end.

Definition mux_files (w : world) (files : list string) (output_file : string)
    (options : gmap string string) : M string :=
  let proc := exec w (mux_command files output_file options) in
  if negb (returncode proc =? 0) then raise ("mkvmerge failed: " +:+ stderr proc)
  else mret output_file.

(** ** The handlers of [MKVToolNixBot] *)

(** The file name of whichever attachment is set: document, else video,
    else audio, else [None]. *)
Definition message_file_name (message : Telegram.Message) : option string :=
  match Telegram.document message with
  | Some d => Telegram.file_name d
  | None =>
      match Telegram.video message with
      | Some v => Telegram.file_name v
      | None =>
          match Telegram.audio message with
          | Some a => Telegram.file_name a
          | None => None
          end
      end
  end.

(** The [for typ, exts in SUPPORTED_EXTENSIONS.items()] loop with its
    [break]: the type whose list holds the extension first. *)
Fixpoint lookup_type (table : list (string * list string)) (file_ext : string)
  : option string :=
  match table with
  | [] => None
  | (typ, exts) :: rest =>
      if Py.in_list file_ext exts then Some typ else lookup_type rest file_ext
  end.

Definition supported_formats : string :=
  "Supported formats:" +:+ nl +:+
  "- Video: MKV, MP4, AVI, WebM" +:+ nl +:+
  "- Audio: AAC, AC3, DTS, MP3, Opus" +:+ nl +:+
  "- Subtitles: SRT, ASS, SSA, VTT, PGS".

Definition mux_button : list (string * string) := [("Mux (Combine Files)", "mux_files")].
Definition merge_button : list (string * string) := [("Merge (Append Files)", "merge_files")].

(** The rows of [show_action_buttons] for a file list. *)
Definition action_buttons (files : list staged_file) : keyboard :=
  (match files with
   | [f] =>
       (if bool_decide (file_type f = "video")
        then [[("Extract Tracks", "extract_tracks")];
              [("Add/Edit Metadata", "edit_metadata")]]
        else []) ++ [mux_button; merge_button]
   | _ => [mux_button; merge_button]
   end) ++
  [[("Add Another File", "add_another_file"); ("View Added Files", "view_files")];
   [("Remove Last File", "remove_last_file"); ("Cancel", "cancel_operation")]].

Definition show_action_buttons (user_id : Z) : M unit :=
  session ← session_of user_id;
  send (reply_text "📁 Choose an action:" (Some (action_buttons (files session)))).

(** The label and callback data of a track's button; [track['type']] raises
    when the key was never set. *)
Definition track_button (track : Track.t) : M (list (string * string)) :=
  match Track.type track with
  | None => raise "KeyError: 'type'"
  | Some ty =>
      mret [(Py.capitalize ty +:+ " " +:+ str (Track.id track) +:+ ": " +:+
             default "" (Track.codec track) +:+ " " +:+
             default "" (Track.language track),
             "extract_track_" +:+ str (Track.id track))]
  end.

Fixpoint track_buttons (tracks : list Track.t) : M keyboard :=
  match tracks with
  | [] => mret []
  | track :: rest =>
      b ← track_button track;
      bs ← track_buttons rest;
      mret (b :: bs)
  end.

(** The enumeration of [show_added_files], numbered from [i]. *)
Fixpoint files_info (i : Z) (files : list staged_file) : list string :=
  match files with
  | [] => []
  | file :: rest =>
      (str i +:+ ". " +:+ file_name file +:+
       match language file with
       | Some l => if Py.truthy l then " (Language: " +:+ l +:+ ")" else ""
       | None => ""
       end) :: files_info (i + 1) rest
  end.

(** [sep.join(l)] *)
Fixpoint join (sep : string) (l : list string) : string :=
  match l with
  | [] => ""
  | [x] => x
  | x :: rest => x +:+ sep +:+ join sep rest
  end.

Section Handlers.

Variable MAX_FILE_SIZE : Z.
Variable w : world.

Definition handle_start : M unit :=
  send (reply_text
    ("👋 Welcome to MKVToolNix Bot!" +:+ nl +:+ nl +:+
     "Send me an MKV or media file to get started. I can:" +:+ nl +:+
     "- Extract tracks from MKV files" +:+ nl +:+
     "- Mux (combine) multiple files" +:+ nl +:+
     "- Merge (append) multiple files" +:+ nl +:+
     "- Edit metadata (title, language, etc.)" +:+ nl +:+
     "- Add subtitles to videos" +:+ nl +:+ nl +:+
     supported_formats) None).

Definition handle_cancel (user_id : Z) : M unit :=
  s ← user_sessions;
  match s !! user_id with
  | Some _ =>
      del_session user_id;;
      send (reply_text "✅ Current operation cancelled. You can start a new one." None)
  | None => send (reply_text "No active operation to cancel." None)
  end.

Definition handle_reset (user_id : Z) : M unit :=
  s ← user_sessions;
  match s !! user_id with
  | Some _ =>
      del_session user_id;;
      send (reply_text "✅ Session reset. You can start fresh now." None)
  | None => send (reply_text "No active session to reset." None)
  end.

(** [message.document and message.document.file_size > MAX_FILE_SIZE];
    comparing a missing size with an integer raises. *)
Definition too_large (message : Telegram.Message) : M bool :=
  match Telegram.document message with
  | Some d =>
      match Telegram.file_size d with
      | Some n => mret (MAX_FILE_SIZE <? n)
      | None => raise "TypeError"
      end
  | None => mret false
  end.

Definition handle_file_input (message : Telegram.Message) : M unit :=
  let user_id := Telegram.from_user message in
  big ← too_large message;
  if (big : bool) then
    send (reply_text
      ("⚠️ File is too large! Max size is " +:+ str (MAX_FILE_SIZE / 1000000) +:+ "MB.") None)
  else
    match message_file_name message with
    | None | Some EmptyString =>
        send (reply_text "⚠️ Could not determine file name." None)
    | Some file_name =>
        let file_ext := Py.lower (PathLib.suffix file_name) in
        match lookup_type SUPPORTED_EXTENSIONS file_ext with
        | None =>
            send (reply_text
              ("⚠️ Unsupported file type: " +:+ file_ext +:+ nl +:+ nl +:+
               supported_formats) None)
        | Some file_type =>
            s ← user_sessions;
            let session :=
              default {| files := []; current_operation := None; processing := false |}
                      (s !! user_id) in
            set_user_sessions
              (<[user_id :=
                   {| files := files session ++
                               [{| message := message;
                                   file_name := file_name;
                                   file_type := file_type;
                                   file_ext := file_ext;
                                   language := detect_language file_name |}];
                      current_operation := current_operation session;
                      processing := processing session |}]> s);;
            show_action_buttons user_id
        end
    end.

(** [session['current_operation'] = op], on the session stored under
    [user_id]. *)
Definition set_current_operation (user_id : Z) (op : string) : M unit :=
  session ← session_of user_id;
  s ← user_sessions;
  set_user_sessions
    (<[user_id := {| files := files session;
                     current_operation := Some op;
                     processing := processing session |}]> s).

(** [download_file] once [os.makedirs] has returned;
    [Raising.download_file] has the call. *)
Definition download_file (message : Telegram.Message) : M string :=
  let user_id := Telegram.from_user message in
  match message_file_name message with
  | None | Some EmptyString => raise "ValueError: Could not determine file name"
  | Some file_name =>
      let download_path := "downloads/" +:+ str user_id +:+ "/" +:+ file_name in
      send (reply_text
        ("📥 Downloading " +:+ file_name +:+ "..." +:+ nl +:+
         "Progress: 0%" +:+ nl +:+ "Speed: 0 MB/s") None);;
      match Telegram.document message, Telegram.video message, Telegram.audio message with
      | None, None, None => raise "ValueError: Unsupported message type"
      | _, _, _ =>
          match fetch w message download_path with
          | inl e => raise e
          | inr (file, summary) => send (edit_text summary None);; mret file
          end
      end
  end.

Definition handle_extract_tracks (user_id : Z) : M unit :=
  session ← session_of user_id;
  match files session with
  | [f] =>
      if bool_decide (file_type f ≠ "video") then
        send (answer "Please send a single video file first.")
      else
        set_current_operation user_id "extract_tracks";;
        file_path ← download_file (message f);
        tracks ← get_mkv_tracks w file_path;
        buttons ← track_buttons tracks;
        send (edit_text "Select tracks to extract:"
                (Some (buttons ++
                       [[("Extract All", "extract_all_tracks");
                         ("Cancel", "cancel_operation")]])))
  | _ => send (answer "Please send a single video file first.")
  end.

Definition handle_mux_files (user_id : Z) : M unit :=
  session ← session_of user_id;
  if bool_decide (length (files session) < 2)%nat then
    send (answer "Please send at least 2 files to mux.")
  else
    set_current_operation user_id "mux_files";;
    send (edit_text "Configure muxing options:"
            (Some [[("Set Output Title", "set_output_title");
                    ("Set Track Names", "set_track_names")];
                   [("Set Languages", "set_languages");
                    ("Set Default/Forced", "set_default_forced")];
                   [("Start Muxing", "start_muxing");
                    ("Cancel", "cancel_operation")]])).

Definition handle_merge_files (user_id : Z) : M unit :=
  session ← session_of user_id;
  if bool_decide (length (files session) < 2)%nat then
    send (answer "Please send at least 2 files to merge.")
  else
    set_current_operation user_id "merge_files";;
    send (edit_text "Configure merging options:"
            (Some [[("Set Output Title", "set_output_title");
                    ("Set Track Names", "set_track_names")];
                   [("Start Merging", "start_merging");
                    ("Cancel", "cancel_operation")]])).

Definition handle_edit_metadata (user_id : Z) : M unit :=
  session ← session_of user_id;
  match files session with
  | [f] =>
      if bool_decide (file_type f ≠ "video") then
        send (answer "Please send a single video file first.")
      else
        set_current_operation user_id "edit_metadata";;
        send (edit_text "Select metadata to edit:"
                (Some [[("Change Title", "change_title");
                        ("Change Track Names", "change_track_names")];
                       [("Change Languages", "change_languages");
                        ("Set Default/Forced", "set_default_forced")];
                       [("Apply Changes", "apply_metadata_changes");
                        ("Cancel", "cancel_operation")]]))
  | _ => send (answer "Please send a single video file first.")
  end.

Definition show_added_files (user_id : Z) : M unit :=
  session ← session_of user_id;
  send (edit_text
          ("📁 Added files:" +:+ nl +:+ nl +:+ join nl (files_info 1 (files session)))
          (Some [[("Back", "back_to_actions")]])).

Definition remove_last_file (user_id : Z) : M unit :=
  session ← session_of user_id;
  match List.rev (files session) with
  | [] => send (answer "No files to remove.")
  | removed_file :: kept =>
      s ← user_sessions;
      set_user_sessions
        (<[user_id := {| files := List.rev kept;
                         current_operation := current_operation session;
                         processing := processing session |}]> s);;
      send (answer ("Removed: " +:+ file_name removed_file));;
      match List.rev kept with
      | [] =>
          del_session user_id;;
          send (edit_text "All files removed. Send a file to start again." None)
      | _ => show_action_buttons user_id
      end
  end.

(** The [if data == ... elif ...] chain of [handle_callback_query]. *)
Definition dispatch (user_id : Z) (data : string) : M unit :=
  if bool_decide (data = "extract_tracks") then handle_extract_tracks user_id
  else if bool_decide (data = "mux_files") then handle_mux_files user_id
  else if bool_decide (data = "merge_files") then handle_merge_files user_id
  else if bool_decide (data = "edit_metadata") then handle_edit_metadata user_id
  else if bool_decide (data = "add_another_file") then
    send (answer "Please send the next file.")
  else if bool_decide (data = "view_files") then show_added_files user_id
  else if bool_decide (data = "remove_last_file") then remove_last_file user_id
  else if bool_decide (data = "cancel_operation") then
    del_session user_id;;
    send (edit_text "Operation cancelled." None)
  else send (answer "Unknown action.").

Definition handle_callback_query (user_id : Z) (data : string) : M unit :=
  try_except
    (s ← user_sessions;
     match s !! user_id with
     | None => send (answer "Session expired. Please send a file again.")
     | Some _ => dispatch user_id data
     end)
    (fun _ => send (answer "An error occurred. Please try again.")).

(** An update of the transport and the handler registered for it. *)
Inductive event : Type :=
| FileReceived (message : Telegram.Message)
| CommandReceived (user_id : Z) (command : string)
| ButtonPressed (user_id : Z) (data : string).

Definition handle (e : event) : M unit :=
  match e with
  | FileReceived message => handle_file_input message
  | CommandReceived user_id command =>
      if bool_decide (command = "start") then handle_start
      else if bool_decide (command = "cancel") then handle_cancel user_id
      else if bool_decide (command = "reset") then handle_reset user_id
      else mret tt
  | ButtonPressed user_id data => handle_callback_query user_id data
  end.

(** The session store once a handler has run, however it ended. *)
Definition after (e : event) (s : gmap Z session) : gmap Z session :=
  (handle e s).1.1.

(** What the handler sent. *)
Definition sent (e : event) (s : gmap Z session) : list effect :=
  (handle e s).1.2.

End Handlers.

(** The store after a sequence of updates, oldest first, each handled in the
    environment it meets. *)
Definition run (MAX_FILE_SIZE : Z) (es : list (world * event)) (s : gmap Z session)
  : gmap Z session :=
  List.fold_left (fun s we => after MAX_FILE_SIZE we.1 we.2 s) es s.

(** ** The [progress] closure of [download_file] *)

(** The two variables the closure rebinds.  Clock readings are rationals
    here; the closure's faults do not depend on rounding, since a float
    difference is zero exactly when its operands are equal. *)
Record progress_vars := { last_update : Q; downloaded : Z }.

(** The figures of one progress edit. *)
Record progress_report := {
  percent : Q;
  speed : Q;
  size_mb : Q;
  total_mb : Q
}.

Inductive progress_outcome : Type :=
| Silent
| Updated (report : progress_report)
| ZeroDivisionError.

(** [x / y] on Python numbers: a zero divisor raises. *)
Definition py_div (x y : Q) : option Q :=
  if Qeq_bool y 0 then None else Some (x / y)%Q.

(** One call [progress(current, total)] where the event loop is at hand and
    its clock reads [now]; [progress_call] is the call in any thread. *)
Definition progress (start_time now : Q) (vars : progress_vars) (current total : Z)
  : progress_vars * progress_outcome :=
  let vars1 := {| last_update := last_update vars; downloaded := current |} in
  if Qle_bool 1 (now - last_update vars) then
    match py_div (inject_Z current) (now - start_time) with
    | None => (vars1, ZeroDivisionError)
    | Some q =>
        let speed := (q / 1024 / 1024)%Q in
        match py_div (inject_Z current) (inject_Z total) with
        | None => (vars1, ZeroDivisionError)
        | Some r =>
            ({| last_update := now; downloaded := current |},
             Updated {| percent := (r * 100)%Q;
                        speed := speed;
                        size_mb := (inject_Z current / 1024 / 1024)%Q;
                        total_mb := (inject_Z total / 1024 / 1024)%Q |})
        end
    end
  else (vars1, Silent).

(** [downloaded] and [last_update] as [download_file] initialises them. *)
Definition progress_init : progress_vars := {| last_update := 0; downloaded := 0 |}.

(** A sequence of calls, each with its clock reading, up to the first call
    that raises. *)
Fixpoint progress_calls (start_time : Q) (vars : progress_vars)
    (calls : list (Q * Z * Z)) : progress_vars * list progress_outcome :=
  match calls with
  | [] => (vars, [])
  | (now, current, total) :: rest =>
      match progress start_time now vars current total with
      | (vars', ZeroDivisionError) => (vars', [ZeroDivisionError])
      | (vars', o) =>
          let '(vars'', os) := progress_calls start_time vars' rest in
          (vars'', o :: os)
      end
  end.

(** ** Notions used by the statements *)

(** A track-start marker: what the first test of the parsing loop accepts. *)
Definition is_track_start (line : string) : bool :=
  Py.startswith (Py.strip line) "+ A track".

(** The language a single segment stands for, if any. *)
Definition language_of_segment (table : list (string * list string)) (segment : string)
  : option string :=
  fst <$> List.find (fun entry => Py.in_list segment (snd entry)) table.

(** Detection as a scan over the segments, left to right: the first segment
    that is a variant of some language decides. *)
Fixpoint leftmost_language (table : list (string * list string)) (parts : list string)
  : option string :=
  match parts with
  | [] => None
  | segment :: rest =>
      match language_of_segment table segment with
      | Some code => Some code
      | None => leftmost_language table rest
      end
  end.

(** The output kept for a track id: the first candidate, in the order of
    [extract_exts], that exists. *)
Definition chosen_output (w : world) (output_dir : string) (track_id : Z) : option string :=
  List.find (path_exists w) (List.map (track_output output_dir track_id) extract_exts).

(** The title arguments of the merge tool for an option bag. *)
Definition title_args (options : gmap string string) : list string :=
  match options !! "title" with
  | Some title => if Py.truthy title then ["--title"; title] else []
  | None => []
  end.

(** The invocation with the title flag between the output and the inputs. *)
Definition title_first_command (files : list string) (output_file : string)
    (options : gmap string string) : list string :=
  ["mkvmerge"; "-o"; output_file] ++ title_args options ++ files.

(** The command line carries a title flag after its inputs. *)
Definition title_flag_emitted (files : list string) (output_file : string)
    (options : gmap string string) : Prop :=
  exists title, mux_command files output_file options =
                ["mkvmerge"; "-o"; output_file] ++ files ++ ["--title"; title].

(** [session] with [current_operation] set to [op]. *)
Definition with_operation (sess : session) (op : string) : session :=
  {| files := files sess; current_operation := Some op; processing := processing sess |}.

(** [session] with its file list replaced. *)
Definition with_files (sess : session) (fs : list staged_file) : session :=
  {| files := fs; current_operation := current_operation sess; processing := processing sess |}.

(** The session [handle_file_input] creates for a new user. *)
Definition new_session : session :=
  {| files := []; current_operation := None; processing := false |}.

(** The entry [handle_file_input] appends for an accepted file. *)
Definition stage (message : Telegram.Message) (name type : string) : staged_file :=
  {| message := message; file_name := name; file_type := type;
     file_ext := Py.lower (PathLib.suffix name); language := detect_language name |}.

(** The size declared by whichever attachment is set: document, else video,
    else audio. *)
Definition declared_size (message : Telegram.Message) : option Z :=
  match Telegram.document message with
  | Some d => Telegram.file_size d
  | None =>
      match Telegram.video message with
      | Some v => Telegram.file_size v
      | None =>
          match Telegram.audio message with
          | Some a => Telegram.file_size a
          | None => None
          end
      end
  end.

(** A computation that leaves [user_sessions] as it found it. *)
Definition readonly {A} (m : M A) : Prop := forall s, (m s).1.1 = s.

(** A chosen operation comes with at least one staged file. *)
Definition session_ok (σ : gmap Z session) : Prop :=
  forall uid sess, σ !! uid = Some sess -> is_Some (current_operation sess) -> files sess ≠ [].

(** Exactly one file, of type video. *)
Definition single_video (fs : list staged_file) : Prop :=
  exists f, fs = [f] /\ file_type f = "video".


(** The tracks seen so far, the open block included. *)
Definition closed (st : list Track.t * option Track.t) : list Track.t :=
  match st with
  | (tracks, Some t) => tracks ++ [t]
  | (tracks, None) => tracks
  end.

(** Ids [first], [first + 1], ... of [n] consecutive tracks. *)
Definition ids_from (first n : nat) : list Z := List.map Z.of_nat (List.seq first n).

Definition track_blocks (lines : list string) : nat :=
  length (List.filter is_track_start lines).

(** ** Fixtures *)

Module Fixture.

Definition limit : Z := 2000000000.

(** Downloads succeed, every child process exits zero with an empty
    report, and only the subtitle output of track 1 exists. *)
Definition quiet : world :=
  {| fetch := fun _ download_path => inr (download_path, "done");
     exec := fun _ => {| returncode := 0; stdout := ""; stderr := "" |};
     path_exists := fun p => bool_decide (p = "out/track_1.srt") |}.

(** The probing tool prints a report with a stray attribute line and
    three track blocks. *)
Definition stray : list string := ["| + Codec ID: stray"].

Definition blocks : list string :=
  ["  + A track";
   "    + Track type: Video";
   "    + Codec ID: V_MPEG4/ISO/AVC";
   "  + A track";
   "    + Track type: audio";
   "    + Language: hin";
   "  + A track"].

Definition report : string := join nl (stray ++ blocks).

Definition probing : world :=
  {| fetch := fun _ download_path => inr (download_path, "done");
     exec := fun _ => {| returncode := 0; stdout := report; stderr := "" |};
     path_exists := fun _ => false |}.

Definition document (user_id : Z) (name : string) (size : Z) : Telegram.Message :=
  {| Telegram.from_user := user_id;
     Telegram.document := Some {| Telegram.file_name := Some name;
                                  Telegram.file_size := Some size |};
     Telegram.video := None;
     Telegram.audio := None |}.

Definition video (user_id : Z) (name : string) (size : Z) : Telegram.Message :=
  {| Telegram.from_user := user_id;
     Telegram.document := None;
     Telegram.video := Some {| Telegram.file_name := Some name;
                               Telegram.file_size := Some size |};
     Telegram.audio := None |}.

End Fixture.

(** Two files staged and [Mux] chosen. *)
Definition muxing : gmap Z session :=
  run Fixture.limit
    [(Fixture.quiet, FileReceived (Fixture.document 7 "Movie.EN.mkv" 10));
     (Fixture.quiet, FileReceived (Fixture.document 7 "subs.hi.srt" 20));
     (Fixture.quiet, ButtonPressed 7 "mux_files")] ∅.

(** ** Notions used by the further properties *)

(** The user an update belongs to. *)
Definition event_user (e : event) : Z :=
  match e with
  | FileReceived message => Telegram.from_user message
  | CommandReceived user_id _ => user_id
  | ButtonPressed user_id _ => user_id
  end.

(** The values [current_operation] is ever assigned. *)
Definition operations : list string :=
  ["extract_tracks"; "mux_files"; "merge_files"; "edit_metadata"].

(** The callback data [dispatch] has a branch for. *)
Definition handled : list string :=
  ["extract_tracks"; "mux_files"; "merge_files"; "edit_metadata"; "add_another_file";
   "view_files"; "remove_last_file"; "cancel_operation"].

(** The ways one update of user [uid] can change the store: not at all, by
    deleting the user's session, by setting its operation, by dropping its
    last file while some remain, or by appending an accepted file. *)
Inductive store_step (uid : Z) (σ : gmap Z session) : gmap Z session -> Prop :=
| step_same : store_step uid σ σ
| step_deleted : store_step uid σ (delete uid σ)
| step_operation sess op :
    σ !! uid = Some sess -> files sess ≠ [] -> op ∈ operations ->
    store_step uid σ (<[uid := with_operation sess op]> σ)
| step_removed sess kept last :
    σ !! uid = Some sess -> files sess = kept ++ [last] -> kept ≠ [] ->
    store_step uid σ (<[uid := with_files sess kept]> σ)
| step_staged message name type :
    Telegram.from_user message = uid ->
    message_file_name message = Some name -> name ≠ "" ->
    lookup_type SUPPORTED_EXTENSIONS (Py.lower (PathLib.suffix name)) = Some type ->
    store_step uid σ
      (<[uid := with_files (default new_session (σ !! uid))
                  (files (default new_session (σ !! uid)) ++ [stage message name type])]> σ).

(** An entry of a file list as [handle_file_input] builds it for user [uid]. *)
Definition staged_ok (uid : Z) (f : staged_file) : Prop :=
  Telegram.from_user (message f) = uid /\
  message_file_name (message f) = Some (file_name f) /\
  file_name f ≠ "" /\
  file_ext f = Py.lower (PathLib.suffix (file_name f)) /\
  lookup_type SUPPORTED_EXTENSIONS (file_ext f) = Some (file_type f) /\
  language f = detect_language (file_name f).

(** A session as the handlers leave it. *)
Definition session_wf (uid : Z) (sess : session) : Prop :=
  files sess ≠ [] /\
  Forall (staged_ok uid) (files sess) /\
  processing sess = false /\
  (forall op, current_operation sess = Some op -> op ∈ operations).

Definition store_wf (σ : gmap Z session) : Prop :=
  forall uid sess, σ !! uid = Some sess -> session_wf uid sess.

(** The callback data of the buttons of a keyboard. *)
Definition keyboard_data (kb : keyboard) : list string :=
  List.map snd (List.concat kb).

(** The keyboards among the effects. *)
Definition keyboards (out : list effect) : list keyboard :=
  omap (fun e => match e with
                 | reply_text _ kb => kb
                 | edit_text _ kb => kb
                 | answer _ => None
                 end) out.

(** Downloads succeed and every child process exits with status 2. *)
Definition failing_tools : world :=
  {| fetch := fun _ download_path => inr (download_path, "done");
     exec := fun _ => {| returncode := 2; stdout := ""; stderr := "no such file" |};
     path_exists := fun _ => false |}.

(** The path [extract_tracks] hands to the extract tool for a track id. *)
Definition named_output (output_dir : string) (track_id : Z) : string :=
  os_path_join output_dir ("track_" +:+ str track_id).

(** The extract tool exits zero and has written the two files it was told
    to write, [out/track_1] and [out/track_2], and nothing else. *)
Definition written_as_named : world :=
  {| fetch := fun _ download_path => inr (download_path, "done");
     exec := fun _ => {| returncode := 0; stdout := ""; stderr := "" |};
     path_exists := fun p => bool_decide (p ∈ ["out/track_1"; "out/track_2"]) |}.

(** ** More of Python's strings and paths *)

(** The characters of a string. *)
Fixpoint chars (s : string) : list ascii :=
  match s with
  | EmptyString => []
  | String c s' => c :: chars s'
  end.

(** [str.isascii] *)
Definition isascii (s : string) : bool :=
  forallb (fun c => (nat_of_ascii c <? 128)%nat) (chars s).

(** [s.rstrip(c)] for a one-character [c]. *)
Fixpoint rstrip_char (c : ascii) (s : string) : string :=
  match s with
  | EmptyString => EmptyString
  | String a s' =>
      match rstrip_char c s' with
      | EmptyString => if decide (a = c) then EmptyString else String a EmptyString
      | r => String a r
      end
  end.

(** [os.path.dirname(p)] on POSIX: the text up to the last slash, without
    its trailing slashes unless it consists of slashes only. *)
Definition os_path_dirname (p : string) : string :=
  let head := Py.take (Z.to_nat (Py.rfind "/" p + 1)) p in
  match rstrip_char "/" head with
  | EmptyString => head
  | stripped => stripped
  end.

(** ** Calls that may raise *)

(** The environment of one update when its calls may fail:
    - [tools]: the download, the child processes and the file system, as
      above;
    - [transport call]: what awaiting [reply_text], [answer] or [edit_text]
      with that content does: it returns ([None]), or it raises (an
      [RPCError] or a timeout, say); the outputs of a handler are the
      calls that returned, in order;
    - [makedirs path]: what [os.makedirs(path, exist_ok=True)] does: it
      returns or raises;
    - [spawn command]: what starting the child process does: it raises (the
      tool is not installed, say), or the process runs to the exit that
      [tools] gives. *)
Record env := {
  tools : world;
  transport : effect -> option exn;
  makedirs : string -> option exn;
  spawn : list string -> option exn
}.

(** The environment in which every such call returns. *)
Definition returning (w : world) : env :=
  {| tools := w; transport := fun _ => None; makedirs := fun _ => None;
     spawn := fun _ => None |}.

(** The handlers of [MKVToolNixBot] again, line by line as above, with
    every [await] of the transport and every [os.makedirs] able to raise. *)
Module Raising.

Section Handlers.

Variable MAX_FILE_SIZE : Z.
Variable E : env.

Definition send (e : effect) : M unit := fun s =>
  match transport E e with
  | Some x => (s, [], inl x)
  | None => (s, [e], inr tt)
  end.

Definition show_action_buttons (user_id : Z) : M unit :=
  session ← session_of user_id;
  send (reply_text "📁 Choose an action:" (Some (action_buttons (files session)))).

Definition handle_start : M unit :=
  send (reply_text
    ("👋 Welcome to MKVToolNix Bot!" +:+ nl +:+ nl +:+
     "Send me an MKV or media file to get started. I can:" +:+ nl +:+
     "- Extract tracks from MKV files" +:+ nl +:+
     "- Mux (combine) multiple files" +:+ nl +:+
     "- Merge (append) multiple files" +:+ nl +:+
     "- Edit metadata (title, language, etc.)" +:+ nl +:+
     "- Add subtitles to videos" +:+ nl +:+ nl +:+
     supported_formats) None).

Definition handle_cancel (user_id : Z) : M unit :=
  s ← user_sessions;
  match s !! user_id with
  | Some _ =>
      del_session user_id;;
      send (reply_text "✅ Current operation cancelled. You can start a new one." None)
  | None => send (reply_text "No active operation to cancel." None)
  end.

Definition handle_reset (user_id : Z) : M unit :=
  s ← user_sessions;
  match s !! user_id with
  | Some _ =>
      del_session user_id;;
      send (reply_text "✅ Session reset. You can start fresh now." None)
  | None => send (reply_text "No active session to reset." None)
  end.

Definition handle_file_input (message : Telegram.Message) : M unit :=
  let user_id := Telegram.from_user message in
  big ← too_large MAX_FILE_SIZE message;
  if (big : bool) then
    send (reply_text
      ("⚠️ File is too large! Max size is " +:+ str (MAX_FILE_SIZE / 1000000) +:+ "MB.") None)
  else
    match message_file_name message with
    | None | Some EmptyString =>
        send (reply_text "⚠️ Could not determine file name." None)
    | Some file_name =>
        let file_ext := Py.lower (PathLib.suffix file_name) in
        match lookup_type SUPPORTED_EXTENSIONS file_ext with
        | None =>
            send (reply_text
              ("⚠️ Unsupported file type: " +:+ file_ext +:+ nl +:+ nl +:+
               supported_formats) None)
        | Some file_type =>
            s ← user_sessions;
            let session :=
              default {| files := []; current_operation := None; processing := false |}
                      (s !! user_id) in
            set_user_sessions
              (<[user_id :=
                   {| files := files session ++
                               [{| message := message;
                                   file_name := file_name;
                                   file_type := file_type;
                                   file_ext := file_ext;
                                   language := detect_language file_name |}];
                      current_operation := current_operation session;
                      processing := processing session |}]> s);;
            show_action_buttons user_id
        end
    end.

Definition download_file (message : Telegram.Message) : M string :=
  let user_id := Telegram.from_user message in
  match message_file_name message with
  | None | Some EmptyString => raise "ValueError: Could not determine file name"
  | Some file_name =>
      let download_path := "downloads/" +:+ str user_id +:+ "/" +:+ file_name in
      match makedirs E (os_path_dirname download_path) with
      | Some e => raise e
      | None =>
          send (reply_text
            ("📥 Downloading " +:+ file_name +:+ "..." +:+ nl +:+
             "Progress: 0%" +:+ nl +:+ "Speed: 0 MB/s") None);;
          match Telegram.document message, Telegram.video message, Telegram.audio message with
          | None, None, None => raise "ValueError: Unsupported message type"
          | _, _, _ =>
              match fetch (tools E) message download_path with
              | inl e => raise e
              | inr (file, summary) => send (edit_text summary None);; mret file
              end
          end
      end
  end.

Definition get_mkv_tracks (file_path : string) : M (list Track.t) :=
  match spawn E ["mkvinfo"; file_path] with
  | Some e => raise e
  | None => get_mkv_tracks (tools E) file_path
  end.

Definition handle_extract_tracks (user_id : Z) : M unit :=
  session ← session_of user_id;
  match files session with
  | [f] =>
      if bool_decide (file_type f ≠ "video") then
        send (answer "Please send a single video file first.")
      else
        set_current_operation user_id "extract_tracks";;
        file_path ← download_file (message f);
        tracks ← get_mkv_tracks file_path;
        buttons ← track_buttons tracks;
        send (edit_text "Select tracks to extract:"
                (Some (buttons ++
                       [[("Extract All", "extract_all_tracks");
                         ("Cancel", "cancel_operation")]])))
  | _ => send (answer "Please send a single video file first.")
  end.

Definition handle_mux_files (user_id : Z) : M unit :=
  session ← session_of user_id;
  if bool_decide (length (files session) < 2)%nat then
    send (answer "Please send at least 2 files to mux.")
  else
    set_current_operation user_id "mux_files";;
    send (edit_text "Configure muxing options:"
            (Some [[("Set Output Title", "set_output_title");
                    ("Set Track Names", "set_track_names")];
                   [("Set Languages", "set_languages");
                    ("Set Default/Forced", "set_default_forced")];
                   [("Start Muxing", "start_muxing");
                    ("Cancel", "cancel_operation")]])).

Definition handle_merge_files (user_id : Z) : M unit :=
  session ← session_of user_id;
  if bool_decide (length (files session) < 2)%nat then
    send (answer "Please send at least 2 files to merge.")
  else
    set_current_operation user_id "merge_files";;
    send (edit_text "Configure merging options:"
            (Some [[("Set Output Title", "set_output_title");
                    ("Set Track Names", "set_track_names")];
                   [("Start Merging", "start_merging");
                    ("Cancel", "cancel_operation")]])).

Definition handle_edit_metadata (user_id : Z) : M unit :=
  session ← session_of user_id;
  match files session with
  | [f] =>
      if bool_decide (file_type f ≠ "video") then
        send (answer "Please send a single video file first.")
      else
        set_current_operation user_id "edit_metadata";;
        send (edit_text "Select metadata to edit:"
                (Some [[("Change Title", "change_title");
                        ("Change Track Names", "change_track_names")];
                       [("Change Languages", "change_languages");
                        ("Set Default/Forced", "set_default_forced")];
                       [("Apply Changes", "apply_metadata_changes");
                        ("Cancel", "cancel_operation")]]))
  | _ => send (answer "Please send a single video file first.")
  end.

Definition show_added_files (user_id : Z) : M unit :=
  session ← session_of user_id;
  send (edit_text
          ("📁 Added files:" +:+ nl +:+ nl +:+ join nl (files_info 1 (files session)))
          (Some [[("Back", "back_to_actions")]])).

(** [session['files'].pop()] comes before the [answer], and
    [del user_sessions[user_id]] after it. *)
Definition remove_last_file (user_id : Z) : M unit :=
  session ← session_of user_id;
  match List.rev (files session) with
  | [] => send (answer "No files to remove.")
  | removed_file :: kept =>
      s ← user_sessions;
      set_user_sessions
        (<[user_id := {| files := List.rev kept;
                         current_operation := current_operation session;
                         processing := processing session |}]> s);;
      send (answer ("Removed: " +:+ file_name removed_file));;
      match List.rev kept with
      | [] =>
          del_session user_id;;
          send (edit_text "All files removed. Send a file to start again." None)
      | _ => show_action_buttons user_id
      end
  end.

Definition dispatch (user_id : Z) (data : string) : M unit :=
  if bool_decide (data = "extract_tracks") then handle_extract_tracks user_id
  else if bool_decide (data = "mux_files") then handle_mux_files user_id
  else if bool_decide (data = "merge_files") then handle_merge_files user_id
  else if bool_decide (data = "edit_metadata") then handle_edit_metadata user_id
  else if bool_decide (data = "add_another_file") then
    send (answer "Please send the next file.")
  else if bool_decide (data = "view_files") then show_added_files user_id
  else if bool_decide (data = "remove_last_file") then remove_last_file user_id
  else if bool_decide (data = "cancel_operation") then
    del_session user_id;;
    send (edit_text "Operation cancelled." None)
  else send (answer "Unknown action.").

(** The [except Exception] clause answers in turn, and that [answer] may
    raise as well. *)
Definition handle_callback_query (user_id : Z) (data : string) : M unit :=
  try_except
    (s ← user_sessions;
     match s !! user_id with
     | None => send (answer "Session expired. Please send a file again.")
     | Some _ => dispatch user_id data
     end)
    (fun _ => send (answer "An error occurred. Please try again.")).

Definition handle (e : event) : M unit :=
  match e with
  | FileReceived message => handle_file_input message
  | CommandReceived user_id command =>
      if bool_decide (command = "start") then handle_start
      else if bool_decide (command = "cancel") then handle_cancel user_id
      else if bool_decide (command = "reset") then handle_reset user_id
      else mret tt
  | ButtonPressed user_id data => handle_callback_query user_id data
  end.

(** The session store once a handler has run, whether it returned or
    raised. *)
Definition after (e : event) (s : gmap Z session) : gmap Z session :=
  (handle e s).1.1.

(** The calls into the transport that returned. *)
Definition sent (e : event) (s : gmap Z session) : list effect :=
  (handle e s).1.2.

(** [extract_tracks] with its [os.makedirs(output_dir, exist_ok=True)]. *)
Definition extract_tracks (file_path : string) (track_ids : list Z) (output_dir : string)
  : M (list string) :=
  match makedirs E output_dir with
  | Some e => raise e
  | None =>
      match spawn E (extract_command file_path track_ids output_dir) with
      | Some e => raise e
      | None => extract_tracks (tools E) file_path track_ids output_dir
      end
  end.

Definition mux_files (files : list string) (output_file : string)
    (options : gmap string string) : M string :=
  match spawn E (mux_command files output_file options) with
  | Some e => raise e
  | None => mux_files (tools E) files output_file options
  end.

End Handlers.

(** The store after a sequence of updates, oldest first. *)
Definition run (MAX_FILE_SIZE : Z) (es : list (env * event)) (s : gmap Z session)
  : gmap Z session :=
  List.fold_left (fun s ee => after MAX_FILE_SIZE ee.1 ee.2 s) es s.

End Raising.

(** The acknowledgement of [remove_last_file] goes through. *)
Definition removals_answered (E : env) : Prop :=
  forall name, transport E (answer ("Removed: " +:+ name)) = None.

(** What a failed acknowledgement leaves behind: the user's only file was
    popped and the session was not deleted. *)
Definition emptied (E : env) (uid : Z) (σ σ' : gmap Z session) : Prop :=
  exists sess last,
    σ !! uid = Some sess /\ files sess = [last] /\
    is_Some (transport E (answer ("Removed: " +:+ file_name last))) /\
    σ' = <[uid := with_files sess []]> σ.

(** A session as the handlers leave it, the file count apart. *)
Definition session_shape (uid : Z) (sess : session) : Prop :=
  Forall (staged_ok uid) (files sess) /\
  processing sess = false /\
  (forall op, current_operation sess = Some op -> op ∈ operations).

Definition store_shape (σ : gmap Z session) : Prop :=
  forall uid sess, σ !! uid = Some sess -> session_shape uid sess.

(** No [answer] with the text of the dispatcher's last branch. *)
Definition not_unknown (e : effect) : Prop := e ≠ answer "Unknown action.".

(** Everything a computation sends satisfies [P]. *)
Definition sends {A} (P : effect -> Prop) (m : M A) : Prop :=
  forall s, Forall P (m s).1.2.

(** ** The thread of the progress closure *)

(** What [asyncio.get_event_loop()] does where the closure runs: in a
    thread without an event loop it raises [RuntimeError]; otherwise the
    loop's [time()] reads [now]. *)
Inductive loop_clock : Type :=
| no_event_loop
| reads (now : Q).

Inductive call_outcome : Type :=
| RuntimeError
| ran (o : progress_outcome).

(** One call [progress(current, total)]: [downloaded] is assigned before
    the clock is asked for. *)
Definition progress_call (start_time : Q) (clock : loop_clock) (vars : progress_vars)
    (current total : Z) : progress_vars * call_outcome :=
  match clock with
  | no_event_loop =>
      ({| last_update := last_update vars; downloaded := current |}, RuntimeError)
  | reads now =>
      let '(vars', o) := progress start_time now vars current total in (vars', ran o)
  end.

(** ** The grammar of a probe report *)

(** The ASCII characters [str.strip()] removes. *)
Definition blanks : list ascii :=
  [" "; "009"; "010"; "011"; "012"; "013"; "028"; "029"; "030"; "031"]%char.

(** The ASCII characters [str.splitlines()] breaks at. *)
Definition line_breaks : list ascii :=
  ["010"; "011"; "012"; "013"; "028"; "029"; "030"]%char.

(** A track-start marker: the text [+ A track] after any indentation by
    blanks, whatever follows it. *)
Definition track_start_marker (line : string) : Prop :=
  exists indent tail,
    Forall (fun c => c ∈ blanks) (chars indent) /\
    line = indent +:+ "+ A track" +:+ tail.

(** A line of a report holds no line break. *)
Definition single_line (line : string) : Prop :=
  Forall (fun c => c ∉ line_breaks) (chars line).

#[global] Instance single_line_dec line : Decision (single_line line).
Proof. unfold single_line. apply _. Defined.

(** A track block: its marker line and the lines up to the next marker. *)
Record block := { marker : string; attributes : list string }.

Definition block_lines (b : block) : list string := marker b :: attributes b.

(** The lines of a report: those ahead of the first marker, then the
    blocks. *)
Definition report_lines (preamble : list string) (blocks : list block) : list string :=
  preamble ++ List.concat (List.map block_lines blocks).

(** A text and its lines: a line ends at a line break, which is one of the
    characters of [line_breaks], or a carriage return and a newline
    together; the last line may end with the text. *)
Inductive text_lines : string -> list string -> Prop :=
| text_end : text_lines "" []
| text_last line :
    line ≠ "" -> single_line line -> text_lines line [line]
| text_break line c rest lines :
    single_line line -> c ∈ line_breaks ->
    (c = "013"%char -> forall rest', rest ≠ String "010" rest') ->
    text_lines rest lines ->
    text_lines (line +:+ String c rest) (line :: lines)
| text_crlf line rest lines :
    single_line line ->
    text_lines rest lines ->
    text_lines (line +:+ String "013" (String "010" rest)) (line :: lines).

(** The text in which every line is ended by a newline. *)
Definition unlines (lines : list string) : string :=
  List.fold_right (fun line text => line +:+ nl +:+ text) "" lines.

(** ** Further fixtures *)

(** The acknowledgement of a removal times out; every other call returns. *)
Definition unacknowledged : env :=
  {| tools := Fixture.quiet;
     transport := fun e =>
       match e with
       | answer text =>
           if Py.startswith text "Removed: " then Some "TimeoutError" else None
       | _ => None
       end;
     makedirs := fun _ => None;
     spawn := fun _ => None |}.

(** A video is staged and [Extract Tracks] is pressed, all calls returning. *)
Definition extracting : list (env * event) :=
  [(returning Fixture.quiet, FileReceived (Fixture.video 7 "Movie.EN.mkv" 10));
   (returning Fixture.probing, ButtonPressed 7 "extract_tracks")].

(** The download directory cannot be created. *)
Definition read_only_disk : env :=
  {| tools := Fixture.quiet;
     transport := fun _ => None;
     makedirs := fun _ => Some "PermissionError";
     spawn := fun _ => None |}.

(** The tool prints one stray attribute line and three blocks, every line
    ended by a newline. *)
Definition three_blocks : list block :=
  [ {| marker := "  + A track";
       attributes := ["    + Track type: Video"; "    + Codec ID: V_MPEG4/ISO/AVC"] |};
    {| marker := "  + A track";
       attributes := ["    + Track type: audio"; "    + Language: hin"] |};
    {| marker := "  + A track"; attributes := [] |} ].

Definition reporting : world :=
  {| fetch := fun _ download_path => inr (download_path, "done");
     exec := fun _ => {| returncode := 0;
                         stdout := unlines (report_lines Fixture.stray three_blocks);
                         stderr := "" |};
     path_exists := fun _ => false |}.

(** * Properties *)

(** ** Computations over the store *)

Ltac unfold_m :=
  unfold mbind, mret, M_bind, M_ret, bind, ret, session_of, del_session, user_sessions,
    set_user_sessions, send, raise, set_current_operation, show_action_buttons.

Lemma bind_store {A B} (m : M A) (k : A -> M B) (s : gmap Z session) :
  ((m ≫= k) s).1.1 =
  match (m s).2 with
  | inl _ => (m s).1.1
  | inr a => (k a (m s).1.1).1.1
  end.
Proof.
  unfold mbind, M_bind, bind. destruct (m s) as [[s1 out1] [e|a]]; [done |].
  simpl. by destruct (k a s1) as [[s2 out2] r].
Qed.

Lemma readonly_bind {A B} (m : M A) (k : A -> M B) :
  readonly m -> (forall a, readonly (k a)) -> readonly (m ≫= k).
Proof.
  intros Hm Hk s. rewrite bind_store, Hm. destruct (m s).2; [done | apply Hk].
Qed.

Lemma readonly_ret {A} (a : A) : readonly (mret a).
Proof. done. Qed.
Lemma readonly_raise {A} (e : exn) : readonly (@raise A e).
Proof. done. Qed.
Lemma readonly_send (e : effect) : readonly (send e).
Proof. done. Qed.

Lemma readonly_download_file w message : readonly (download_file w message).
Proof.
  unfold download_file.
  destruct (message_file_name message) as [[|c name]|]; try apply readonly_raise.
  apply readonly_bind; [apply readonly_send |]. intros _.
  destruct (Telegram.document message), (Telegram.video message), (Telegram.audio message);
    try apply readonly_raise;
    (destruct (fetch w message _) as [e|[file summary]]; [apply readonly_raise |];
     apply readonly_bind; [apply readonly_send | intros; apply readonly_ret]).
Qed.

Lemma readonly_get_mkv_tracks w file_path : readonly (get_mkv_tracks w file_path).
Proof.
  unfold get_mkv_tracks. destruct (negb _); [apply readonly_raise | apply readonly_ret].
Qed.

Lemma readonly_track_buttons tracks : readonly (track_buttons tracks).
Proof.
  induction tracks as [|track tracks IH]; simpl; [apply readonly_ret |].
  apply readonly_bind.
  - unfold track_button. destruct (Track.type track); [apply readonly_ret | apply readonly_raise].
  - intros b. apply readonly_bind; [done |]. intros. apply readonly_ret.
Qed.

Lemma try_except_store (body : M unit) (handler : exn -> M unit) (s : gmap Z session) :
  (forall e, readonly (handler e)) ->
  (try_except body handler s).1.1 = (body s).1.1.
Proof.
  intros Hh. unfold try_except. destruct (body s) as [[s1 out1] [e|[]]]; [|done].
  specialize (Hh e s1). by destruct (handler e s1) as [[s2 out2] r].
Qed.

Lemma session_of_run uid (σ : gmap Z session) (sess : session) :
  σ !! uid = Some sess -> session_of uid σ = (σ, [], inr sess).
Proof. intros Hs. unfold session_of. unfold_m. by rewrite Hs. Qed.

Lemma session_of_missing uid (σ : gmap Z session) :
  σ !! uid = None -> session_of uid σ = (σ, [], inl "KeyError").
Proof. intros Hs. unfold session_of. unfold_m. by rewrite Hs. Qed.

Lemma del_session_run uid (σ : gmap Z session) (sess : session) :
  σ !! uid = Some sess -> del_session uid σ = (delete uid σ, [], inr tt).
Proof. intros Hs. unfold del_session. unfold_m. by rewrite Hs. Qed.

Lemma set_current_operation_run uid op (σ : gmap Z session) (sess : session) :
  σ !! uid = Some sess ->
  set_current_operation uid op σ = (<[uid := with_operation sess op]> σ, [], inr tt).
Proof. intros Hs. unfold set_current_operation, session_of. unfold_m. by rewrite Hs. Qed.

Lemma show_action_buttons_run uid (σ : gmap Z session) (sess : session) :
  σ !! uid = Some sess ->
  show_action_buttons uid σ =
  (σ, [reply_text "📁 Choose an action:" (Some (action_buttons (files sess)))], inr tt).
Proof. intros Hs. unfold show_action_buttons, session_of. unfold_m. by rewrite Hs. Qed.

Lemma bind_inr {A B} (m : M A) (k : A -> M B) (s s1 : gmap Z session) out1 a :
  m s = (s1, out1, inr a) ->
  (m ≫= k) s = (let '(s2, out2, r) := k a s1 in (s2, out1 ++ out2, r)).
Proof. intros Hm. unfold mbind, M_bind, bind. by rewrite Hm. Qed.

Lemma bind_inl {A B} (m : M A) (k : A -> M B) (s s1 : gmap Z session) out1 e :
  m s = (s1, out1, inl e) -> (m ≫= k) s = (s1, out1, inl e).
Proof. intros Hm. unfold mbind, M_bind, bind. by rewrite Hm. Qed.

Lemma handle_extract_tracks_store w uid (σ : gmap Z session) (sess : session) :
  σ !! uid = Some sess ->
  (handle_extract_tracks w uid σ).1.1 =
  match files sess with
  | [f] => if bool_decide (file_type f = "video")
           then <[uid := with_operation sess "extract_tracks"]> σ else σ
  | _ => σ
  end.
Proof.
  intros Hs. unfold handle_extract_tracks.
  rewrite bind_store, (session_of_run _ _ _ Hs). cbn [fst snd].
  destruct (files sess) as [|f [|f' fs]] eqn:Hfiles; [done | | done].
  destruct (decide (file_type f = "video")) as [Hty|Hty].
  - rewrite (bool_decide_eq_false_2 (file_type f ≠ "video")) by (intros H; by apply H).
    rewrite (bool_decide_eq_true_2 _ Hty).
    rewrite bind_store, (set_current_operation_run _ _ _ _ Hs). cbn [fst snd].
    apply readonly_bind; [apply readonly_download_file |]. intros file_path.
    apply readonly_bind; [apply readonly_get_mkv_tracks |]. intros tracks.
    apply readonly_bind; [apply readonly_track_buttons |]. intros buttons.
    apply readonly_send.
  - rewrite (bool_decide_eq_true_2 (file_type f ≠ "video")) by done.
    by rewrite (bool_decide_eq_false_2 _ Hty).
Qed.

Lemma handle_extract_tracks_reject w uid (σ : gmap Z session) (sess : session) :
  σ !! uid = Some sess ->
  ¬ (exists f, files sess = [f] /\ file_type f = "video") ->
  handle_extract_tracks w uid σ = (σ, [answer "Please send a single video file first."], inr tt).
Proof.
  intros Hs Hno. unfold handle_extract_tracks.
  rewrite (bind_inr _ _ _ _ _ _ (session_of_run _ _ _ Hs)).
  destruct (files sess) as [|f [|f' fs]] eqn:Hfiles; [done | | done].
  rewrite bool_decide_eq_true_2; [done |]. intros Hty. apply Hno. by exists f.
Qed.

Lemma handle_mux_files_run uid (σ : gmap Z session) (sess : session) :
  σ !! uid = Some sess ->
  handle_mux_files uid σ =
  if bool_decide (length (files sess) < 2)%nat
  then (σ, [answer "Please send at least 2 files to mux."], inr tt)
  else (<[uid := with_operation sess "mux_files"]> σ,
        [edit_text "Configure muxing options:"
           (Some [[("Set Output Title", "set_output_title");
                   ("Set Track Names", "set_track_names")];
                  [("Set Languages", "set_languages");
                   ("Set Default/Forced", "set_default_forced")];
                  [("Start Muxing", "start_muxing");
                   ("Cancel", "cancel_operation")]])], inr tt).
Proof.
  intros Hs. unfold handle_mux_files.
  rewrite (bind_inr _ _ _ _ _ _ (session_of_run _ _ _ Hs)).
  case_bool_decide; [done |].
  by rewrite (bind_inr _ _ _ _ _ _ (set_current_operation_run _ _ _ _ Hs)).
Qed.

Lemma handle_merge_files_run uid (σ : gmap Z session) (sess : session) :
  σ !! uid = Some sess ->
  handle_merge_files uid σ =
  if bool_decide (length (files sess) < 2)%nat
  then (σ, [answer "Please send at least 2 files to merge."], inr tt)
  else (<[uid := with_operation sess "merge_files"]> σ,
        [edit_text "Configure merging options:"
           (Some [[("Set Output Title", "set_output_title");
                   ("Set Track Names", "set_track_names")];
                  [("Start Merging", "start_merging");
                   ("Cancel", "cancel_operation")]])], inr tt).
Proof.
  intros Hs. unfold handle_merge_files.
  rewrite (bind_inr _ _ _ _ _ _ (session_of_run _ _ _ Hs)).
  case_bool_decide; [done |].
  by rewrite (bind_inr _ _ _ _ _ _ (set_current_operation_run _ _ _ _ Hs)).
Qed.

Lemma handle_edit_metadata_run uid (σ : gmap Z session) (sess : session) :
  σ !! uid = Some sess ->
  handle_edit_metadata uid σ =
  match files sess with
  | [f] =>
      if bool_decide (file_type f = "video")
      then (<[uid := with_operation sess "edit_metadata"]> σ,
            [edit_text "Select metadata to edit:"
               (Some [[("Change Title", "change_title");
                       ("Change Track Names", "change_track_names")];
                      [("Change Languages", "change_languages");
                       ("Set Default/Forced", "set_default_forced")];
                      [("Apply Changes", "apply_metadata_changes");
                       ("Cancel", "cancel_operation")]])], inr tt)
      else (σ, [answer "Please send a single video file first."], inr tt)
  | _ => (σ, [answer "Please send a single video file first."], inr tt)
  end.
Proof.
  intros Hs. unfold handle_edit_metadata.
  rewrite (bind_inr _ _ _ _ _ _ (session_of_run _ _ _ Hs)).
  destruct (files sess) as [|f [|f' fs]] eqn:Hfiles; [done | | done].
  destruct (decide (file_type f = "video")) as [Hty|Hty].
  - rewrite (bool_decide_eq_false_2 (file_type f ≠ "video")) by (intros H; by apply H).
    rewrite (bool_decide_eq_true_2 _ Hty).
    by rewrite (bind_inr _ _ _ _ _ _ (set_current_operation_run _ _ _ _ Hs)).
  - rewrite (bool_decide_eq_true_2 (file_type f ≠ "video")) by done.
    by rewrite (bool_decide_eq_false_2 _ Hty).
Qed.

Lemma remove_last_file_run uid (σ : gmap Z session) (sess : session) kept last :
  σ !! uid = Some sess ->
  files sess = kept ++ [last] ->
  remove_last_file uid σ =
  match kept with
  | [] => (delete uid σ,
           [answer ("Removed: " +:+ file_name last);
            edit_text "All files removed. Send a file to start again." None], inr tt)
  | _ => (<[uid := with_files sess kept]> σ,
          [answer ("Removed: " +:+ file_name last);
           reply_text "📁 Choose an action:" (Some (action_buttons kept))], inr tt)
  end.
Proof.
  intros Hs Hfiles. unfold remove_last_file.
  rewrite (bind_inr _ _ _ _ _ _ (session_of_run _ _ _ Hs)).
  rewrite Hfiles, rev_app_distr. cbn [List.rev List.app].
  rewrite rev_involutive.
  unfold user_sessions at 1. unfold set_user_sessions, send.
  unfold mbind at 1 2 3, M_bind, bind. cbn [List.app].
  fold (with_files sess kept).
  destruct kept as [|k kept'].
  - rewrite (bind_inr _ _ _ _ _ _ (del_session_run _ _ _ (lookup_insert_eq _ _ _))).
    unfold send. by rewrite delete_insert_eq.
  - by rewrite (show_action_buttons_run _ _ _ (lookup_insert_eq _ _ _)).
Qed.

Lemma remove_last_file_none uid (σ : gmap Z session) (sess : session) :
  σ !! uid = Some sess ->
  files sess = [] ->
  remove_last_file uid σ = (σ, [answer "No files to remove."], inr tt).
Proof.
  intros Hs Hfiles. unfold remove_last_file.
  rewrite (bind_inr _ _ _ _ _ _ (session_of_run _ _ _ Hs)). by rewrite Hfiles.
Qed.

Lemma handle_file_input_stage MAX message (σ : gmap Z session) name type :
  too_large MAX message σ = (σ, [], inr false) ->
  message_file_name message = Some name -> name ≠ "" ->
  lookup_type SUPPORTED_EXTENSIONS (Py.lower (PathLib.suffix name)) = Some type ->
  handle_file_input MAX message σ =
  let sess := default new_session (σ !! Telegram.from_user message) in
  let fs := files sess ++ [stage message name type] in
  (<[Telegram.from_user message := with_files sess fs]> σ,
   [reply_text "📁 Choose an action:" (Some (action_buttons fs))], inr tt).
Proof.
  intros Hbig Hname Hne Htype. unfold handle_file_input.
  rewrite (bind_inr _ _ _ _ _ _ Hbig), Hname.
  destruct name as [|c name]; [done |]. rewrite Htype.
  unfold user_sessions at 1. unfold set_user_sessions.
  unfold mbind at 1 2, M_bind, bind. cbn [List.app].
  fold new_session. fold (stage message (String c name) type).
  by rewrite (show_action_buttons_run _ _ _ (lookup_insert_eq _ _ _)).
Qed.

Lemma try_except_returns (body : M unit) (handler : exn -> M unit) (s s1 : gmap Z session) out :
  body s = (s1, out, inr tt) -> try_except body handler s = (s1, out, inr tt).
Proof. intros Hb. unfold try_except. by rewrite Hb. Qed.

Lemma handle_callback_query_dispatch w uid data (σ : gmap Z session) (sess : session) :
  σ !! uid = Some sess ->
  handle_callback_query w uid data σ =
  try_except (dispatch w uid data)
             (fun _ => send (answer "An error occurred. Please try again.")) σ.
Proof.
  intros Hs. unfold handle_callback_query, try_except.
  unfold user_sessions at 1. unfold mbind at 1, M_bind, bind.
  rewrite Hs.
  by destruct (dispatch w uid data σ) as [[s1 out1] r].
Qed.

Lemma handle_callback_query_expired w uid data (σ : gmap Z session) :
  σ !! uid = None ->
  handle_callback_query w uid data σ =
  (σ, [answer "Session expired. Please send a file again."], inr tt).
Proof.
  intros Hs. unfold handle_callback_query, try_except.
  unfold user_sessions at 1. unfold mbind at 1, M_bind, bind.
  by rewrite Hs.
Qed.

Lemma dispatch_extract w uid : dispatch w uid "extract_tracks" = handle_extract_tracks w uid.
Proof. reflexivity. Qed.
Lemma dispatch_mux w uid : dispatch w uid "mux_files" = handle_mux_files uid.
Proof. reflexivity. Qed.
Lemma dispatch_merge w uid : dispatch w uid "merge_files" = handle_merge_files uid.
Proof. reflexivity. Qed.
Lemma dispatch_edit w uid : dispatch w uid "edit_metadata" = handle_edit_metadata uid.
Proof. reflexivity. Qed.

Lemma readonly_show_added_files uid : readonly (show_added_files uid).
Proof.
  unfold show_added_files. apply readonly_bind; [|intros; apply readonly_send].
  intros s. unfold session_of, user_sessions. unfold mbind, M_bind, bind.
  by destruct (s !! uid).
Qed.

(** C2: for a user with a session, [Extract Tracks] and [Add/Edit Metadata]
    set the current operation when the session holds exactly one file and
    that file is a video, [Mux] and [Merge] when it holds at least two
    files; when the precondition fails the handler answers with its refusal
    and the store is unchanged. *)
Theorem action_selection_preconditions MAX w (σ : gmap Z session) uid (sess : session)
    (Hsession : σ !! uid = Some sess) :
  let press data := handle MAX w (ButtonPressed uid data) σ in
  (¬ single_video (files sess) ->
   press "extract_tracks" =
   (σ, [answer "Please send a single video file first."], inr tt)) /\
  (single_video (files sess) ->
   (press "extract_tracks").1.1 = <[uid := with_operation sess "extract_tracks"]> σ) /\
  (¬ single_video (files sess) ->
   press "edit_metadata" =
   (σ, [answer "Please send a single video file first."], inr tt)) /\
  (single_video (files sess) ->
   (press "edit_metadata").1.1 = <[uid := with_operation sess "edit_metadata"]> σ) /\
  ((length (files sess) < 2)%nat ->
   press "mux_files" = (σ, [answer "Please send at least 2 files to mux."], inr tt)) /\
  ((2 <= length (files sess))%nat ->
   (press "mux_files").1.1 = <[uid := with_operation sess "mux_files"]> σ) /\
  ((length (files sess) < 2)%nat ->
   press "merge_files" = (σ, [answer "Please send at least 2 files to merge."], inr tt)) /\
  ((2 <= length (files sess))%nat ->
   (press "merge_files").1.1 = <[uid := with_operation sess "merge_files"]> σ).
Proof.
  intros press. unfold press, handle.
  assert (forall e, readonly ((fun _ : exn =>
            send (answer "An error occurred. Please try again.")) e)) as Hh
    by (intros e; apply readonly_send).
  repeat split.
  - intros Hno. rewrite (handle_callback_query_dispatch _ _ _ _ _ Hsession), dispatch_extract.
    apply try_except_returns. by apply (handle_extract_tracks_reject _ _ _ sess).
  - intros (f & Hfiles & Hty).
    rewrite (handle_callback_query_dispatch _ _ _ _ _ Hsession), dispatch_extract.
    rewrite (try_except_store _ _ _ Hh), (handle_extract_tracks_store _ _ _ _ Hsession), Hfiles.
    by rewrite (bool_decide_eq_true_2 _ Hty).
  - intros Hno. rewrite (handle_callback_query_dispatch _ _ _ _ _ Hsession), dispatch_edit.
    apply try_except_returns. rewrite (handle_edit_metadata_run _ _ _ Hsession).
    destruct (files sess) as [|f [|f' fs]]; [done | | done].
    rewrite bool_decide_eq_false_2; [done |]. intros Hty. apply Hno. by exists f.
  - intros (f & Hfiles & Hty).
    rewrite (handle_callback_query_dispatch _ _ _ _ _ Hsession), dispatch_edit.
    rewrite (try_except_store _ _ _ Hh), (handle_edit_metadata_run _ _ _ Hsession), Hfiles.
    by rewrite (bool_decide_eq_true_2 _ Hty).
  - intros Hlen. rewrite (handle_callback_query_dispatch _ _ _ _ _ Hsession), dispatch_mux.
    apply try_except_returns. rewrite (handle_mux_files_run _ _ _ Hsession).
    by rewrite (bool_decide_eq_true_2 _ Hlen).
  - intros Hlen. rewrite (handle_callback_query_dispatch _ _ _ _ _ Hsession), dispatch_mux.
    rewrite (try_except_store _ _ _ Hh), (handle_mux_files_run _ _ _ Hsession).
    rewrite bool_decide_eq_false_2; [done | lia].
  - intros Hlen. rewrite (handle_callback_query_dispatch _ _ _ _ _ Hsession), dispatch_merge.
    apply try_except_returns. rewrite (handle_merge_files_run _ _ _ Hsession).
    by rewrite (bool_decide_eq_true_2 _ Hlen).
  - intros Hlen. rewrite (handle_callback_query_dispatch _ _ _ _ _ Hsession), dispatch_merge.
    rewrite (try_except_store _ _ _ Hh), (handle_merge_files_run _ _ _ Hsession).
    rewrite bool_decide_eq_false_2; [done | lia].
Qed.

(** One video staged: muxing is refused, extracting is accepted. *)
Lemma action_selection_fixture :
  let σ := run Fixture.limit
             [(Fixture.quiet, FileReceived (Fixture.document 7 "Movie.EN.mkv" 10))] ∅ in
  let sess := with_files new_session
                [stage (Fixture.document 7 "Movie.EN.mkv" 10) "Movie.EN.mkv" "video"] in
  σ !! 7 = Some sess /\
  handle Fixture.limit Fixture.quiet (ButtonPressed 7 "mux_files") σ =
    (σ, [answer "Please send at least 2 files to mux."], inr tt) /\
  (handle Fixture.limit Fixture.quiet (ButtonPressed 7 "extract_tracks") σ).1.1 =
    <[7 := with_operation sess "extract_tracks"]> σ.
Proof.
  intros σ sess.
  assert (σ !! 7 = Some sess) as Hsession by (vm_compute; reflexivity).
  destruct (action_selection_preconditions Fixture.limit Fixture.quiet σ 7 sess Hsession)
    as (_ & Hextract & _ & _ & Hmux & _).
  split; [exact Hsession |]. split.
  - apply Hmux. vm_compute. lia.
  - apply Hextract. eexists. split; [reflexivity | vm_compute; reflexivity].
Defined.

(** ** Removing a file *)




(** ** Language detection *)

Section LanguageTable.

Variable parts : list string.

Lemma any_variant_in_true (variants : list string) :
  any_variant_in variants parts = true <-> exists v, v ∈ variants /\ v ∈ parts.
Proof.
  induction variants as [|variant rest IH]; simpl.
  - split; [discriminate | intros (v & Hv & _); inversion Hv].
  - unfold Py.in_list. case_bool_decide as Hin.
    + split; [|done]. intros _. exists variant. split; [left | done].
    + rewrite IH. split.
      * intros (v & Hv & Hp). exists v. split; [by right | done].
      * intros (v & Hv & Hp). apply elem_of_cons in Hv as [-> | Hv]; [done |].
        by exists v.
Qed.

Lemma any_variant_in_false (variants : list string) :
  any_variant_in variants parts = false <-> forall v, v ∈ variants -> v ∉ parts.
Proof.
  rewrite <- not_true_iff_false, any_variant_in_true. split.
  - intros Hno v Hv Hp. apply Hno. by exists v.
  - intros Hall (v & Hv & Hp). by apply (Hall v).
Qed.

Lemma first_language_None (table : list (string * list string)) :
  first_language table parts = None <->
  forall code variants v, (code, variants) ∈ table -> v ∈ variants -> v ∉ parts.
Proof.
  induction table as [|[code0 variants0] rest IH]; simpl.
  - split; [|done]. intros _ code variants v Hin. inversion Hin.
  - destruct (any_variant_in variants0 parts) eqn:Hany.
    + split; [discriminate |]. intros Hall. exfalso.
      apply any_variant_in_true in Hany as (v & Hv & Hp).
      apply (Hall code0 variants0 v); [left | done | done].
    + rewrite IH. rewrite any_variant_in_false in Hany. split.
      * intros Hrest code variants v Hin Hv.
        apply elem_of_cons in Hin as [Heq | Hin].
        -- inversion Heq; subst. by apply Hany.
        -- by apply (Hrest code variants).
      * intros Hall code variants v Hin Hv.
        apply (Hall code variants v); [by right | done].
Qed.

Lemma first_language_Some (table : list (string * list string)) (code : string) :
  NoDup table.*1 ->
  first_language table parts = Some code <->
  exists earlier variants later,
    table = earlier ++ (code, variants) :: later /\
    (exists v, v ∈ variants /\ v ∈ parts) /\
    (forall c vs v, (c, vs) ∈ earlier -> v ∈ vs -> v ∉ parts).
Proof.
  induction table as [|[code0 variants0] rest IH]; simpl; intros Hnd.
  - split; [discriminate |]. intros (earlier & ? & ? & Heq & _).
    by destruct earlier.
  - apply NoDup_cons in Hnd as [Hfresh Hnd].
    destruct (any_variant_in variants0 parts) eqn:Hany.
    + split.
      * intros [= <-]. exists [], variants0, rest. split; [done |].
        split; [by apply any_variant_in_true |]. intros c vs v Hin. inversion Hin.
      * intros (earlier & variants & later & Heq & _ & Hno).
        destruct earlier as [|[c0 vs0] earlier]; simpl in Heq.
        -- by inversion Heq.
        -- inversion Heq; subst. exfalso.
           apply any_variant_in_true in Hany as (v & Hv & Hp).
           apply (Hno c0 vs0 v); [left | done | done].
    + rewrite (IH Hnd). rewrite any_variant_in_false in Hany. split.
      * intros (earlier & variants & later & -> & Hmatch & Hno).
        exists ((code0, variants0) :: earlier), variants, later.
        split; [done |]. split; [done |].
        intros c vs v Hin Hv. apply elem_of_cons in Hin as [Heq | Hin].
        -- inversion Heq; subst. by apply Hany.
        -- by apply (Hno c vs).
      * intros (earlier & variants & later & Heq & Hmatch & Hno).
        destruct earlier as [|[c0 vs0] earlier]; simpl in Heq.
        -- inversion Heq; subst. destruct Hmatch as (v & Hv & Hp).
           by destruct (Hany v Hv).
        -- inversion Heq; subst. exists earlier, variants, later.
           split; [done |]. split; [done |].
           intros c vs v Hin Hv. apply (Hno c vs v); [by right | done].
Qed.

End LanguageTable.

Lemma LANGUAGE_CODES_NoDup : NoDup LANGUAGE_CODES.*1.
Proof. apply (bool_decide_unpack _). vm_compute. exact I. Qed.

(** C5, the claim as worded, refuted: in [movie.en.hi.mkv] the leftmost
    segment naming a language is [en], and [detect_language] answers [hi],
    which the table lists first. *)
Lemma detect_language_not_leftmost :
  detect_language "movie.en.hi.mkv" = Some "hi" /\
  leftmost_language LANGUAGE_CODES (language_parts "movie.en.hi.mkv") = Some "en" /\
  detect_language "movie.en.hi.mkv" <>
  leftmost_language LANGUAGE_CODES (language_parts "movie.en.hi.mkv").
Proof.
  assert (detect_language "movie.en.hi.mkv" = Some "hi") as Hcode
    by (vm_compute; reflexivity).
  assert (leftmost_language LANGUAGE_CODES (language_parts "movie.en.hi.mkv") = Some "en")
    as Hleft by (vm_compute; reflexivity).
  split; [exact Hcode |]. split; [exact Hleft |].
  rewrite Hcode, Hleft. discriminate.
Qed.

(** C5, amended: the file name is lower-cased, its stem split on dots, and
    the result is the first language of the table, in the table's order,
    one of whose variants equals a segment, whatever the position of that
    segment; no tag exactly when no segment equals a variant. *)
Theorem detect_language_first_in_table (filename : string) :
  (forall code,
     detect_language filename = Some code <->
     exists earlier variants later,
       LANGUAGE_CODES = earlier ++ (code, variants) :: later /\
       (exists v, v ∈ variants /\ v ∈ language_parts filename) /\
       (forall c vs v, (c, vs) ∈ earlier -> v ∈ vs -> v ∉ language_parts filename)) /\
  (detect_language filename = None <->
   forall code variants v,
     (code, variants) ∈ LANGUAGE_CODES -> v ∈ variants -> v ∉ language_parts filename).
Proof.
  split.
  - intros code. apply first_language_Some, LANGUAGE_CODES_NoDup.
  - apply first_language_None.
Qed.

(** ** Probing *)

Lemma parse_line_start (st : list Track.t * option Track.t) (line : string) :
  is_track_start line = true ->
  closed (parse_line st line) =
  closed st ++ [{| Track.id := Z.of_nat (length (closed st)) + 1; Track.type := None;
                   Track.codec := None; Track.language := None |}].
Proof.
  unfold is_track_start, parse_line. intros ->.
  destruct st as [tracks [t|]]; reflexivity.
Qed.

Lemma parse_line_attribute (st : list Track.t * option Track.t) (line : string) :
  is_track_start line = false ->
  List.map Track.id (closed (parse_line st line)) = List.map Track.id (closed st).
Proof.
  unfold is_track_start, parse_line. intros ->.
  destruct st as [tracks [t|]]; [|reflexivity].
  repeat (match goal with |- context [if ?b then _ else _] => destruct b end);
    simpl; rewrite ?List.map_app; reflexivity.
Qed.

Lemma parse_line_outside (tracks : list Track.t) (line : string) :
  is_track_start line = false ->
  parse_line (tracks, None) line = (tracks, None).
Proof. unfold is_track_start, parse_line. by intros ->. Qed.

Lemma ids_from_snoc (first n : nat) :
  ids_from first (S n) = ids_from first n ++ [Z.of_nat (first + n)].
Proof. unfold ids_from. by rewrite List.seq_S, List.map_app. Qed.

Lemma parse_loop_ids (lines : list string) (st : list Track.t * option Track.t) :
  List.map Track.id (closed st) = ids_from 1 (length (closed st)) ->
  List.map Track.id (closed (List.fold_left parse_line lines st)) =
  ids_from 1 (length (closed st) + track_blocks lines).
Proof.
  revert st. induction lines as [|line lines IH]; intros st Hst; simpl.
  - unfold track_blocks. simpl. by rewrite Nat.add_0_r.
  - unfold track_blocks. simpl. destruct (is_track_start line) eqn:Hline; simpl.
    + rewrite IH.
      * rewrite (parse_line_start _ _ Hline), length_app. simpl.
        f_equal. unfold track_blocks. lia.
      * rewrite (parse_line_start _ _ Hline), List.map_app, length_app, Hst. simpl.
        rewrite Nat.add_1_r, ids_from_snoc. do 2 f_equal. lia.
    + pose proof (parse_line_attribute st line Hline) as Hsame.
      assert (length (closed (parse_line st line)) = length (closed st)) as Hlen.
      { by rewrite <- (length_map Track.id), Hsame, length_map. }
      rewrite IH; [by rewrite Hlen | by rewrite Hsame, Hlen].
Qed.

Lemma parse_loop_outside (pre : list string) :
  Forall (fun line => is_track_start line = false) pre ->
  List.fold_left parse_line pre ([], None) = ([], None).
Proof.
  induction 1 as [|line pre Hline _ IH]; cbn [List.fold_left]; [done |].
  by rewrite (parse_line_outside _ _ Hline).
Qed.

Lemma parse_lines_ids (pre rest : list string) :
  Forall (fun line => is_track_start line = false) pre ->
  List.map Track.id (parse_lines (pre ++ rest)) = ids_from 1 (track_blocks rest) /\
  length (parse_lines (pre ++ rest)) = track_blocks rest /\
  parse_lines (pre ++ rest) = parse_lines rest /\
  parse_lines pre = [].
Proof.
  intros Hpre.
  assert (parse_lines (pre ++ rest) = parse_lines rest) as Hsame.
  { unfold parse_lines. by rewrite List.fold_left_app, (parse_loop_outside _ Hpre). }
  assert (List.map Track.id (parse_lines rest) = ids_from 1 (track_blocks rest)) as Hids.
  { change (parse_lines rest) with (closed (List.fold_left parse_line rest ([], None))).
    by rewrite parse_loop_ids. }
  rewrite Hsame. split; [done |]. split.
  - rewrite <- (length_map Track.id), Hids. unfold ids_from.
    by rewrite length_map, List.length_seq.
  - split; [done |]. unfold parse_lines. by rewrite (parse_loop_outside _ Hpre).
Qed.

Lemma isspace_blanks (c : ascii) : Py.isspace c = bool_decide (c ∈ blanks).
Proof. destruct c as [[] [] [] [] [] [] [] []]; vm_compute; reflexivity. Qed.

Lemma is_linebreak_breaks (c : ascii) : is_linebreak c = bool_decide (c ∈ line_breaks).
Proof. destruct c as [[] [] [] [] [] [] [] []]; vm_compute; reflexivity. Qed.

Lemma append_cons (c : ascii) (s t : string) : String c s +:+ t = String c (s +:+ t).
Proof. reflexivity. Qed.

Lemma append_empty (t : string) : "" +:+ t = t.
Proof. reflexivity. Qed.

Lemma append_assoc (a b c : string) : (a +:+ b) +:+ c = a +:+ (b +:+ c).
Proof. induction a as [|x a IH]; [done |]. by rewrite !append_cons, IH. Qed.

Lemma lstrip_blanks (indent rest : string) :
  Forall (fun c => c ∈ blanks) (chars indent) ->
  Py.lstrip (indent +:+ rest) = Py.lstrip rest.
Proof.
  induction indent as [|c indent IH]; intros Hall; [done |].
  simpl in Hall. apply Forall_cons in Hall as [Hc Hall].
  rewrite append_cons. cbn [Py.lstrip].
  rewrite isspace_blanks, (bool_decide_eq_true_2 _ Hc). by apply IH.
Qed.

Lemma lstrip_indent (line : string) :
  exists indent,
    Forall (fun c => c ∈ blanks) (chars indent) /\ line = indent +:+ Py.lstrip line.
Proof.
  induction line as [|c line (indent & Hall & Hline)]; [by exists "" |].
  cbn [Py.lstrip]. rewrite isspace_blanks. case_bool_decide as Hc.
  - exists (String c indent). split; [by constructor |].
    by rewrite append_cons, <- Hline.
  - by exists "".
Qed.

Lemma startswith_prefix (s p : string) :
  Py.startswith s p = true <-> exists t, s = p +:+ t.
Proof.
  revert s. induction p as [|a p IH]; intros s.
  - split; [intros _; by exists s | by destruct s].
  - destruct s as [|b s]; simpl.
    + split; [done | by intros (t & [=])].
    + destruct (decide (a = b)) as [->|Hne].
      * rewrite IH. split; intros (t & Ht); exists t.
        -- by rewrite append_cons, <- Ht.
        -- rewrite append_cons in Ht. by inversion Ht.
      * split; [done |]. intros (t & Ht). rewrite append_cons in Ht. by inversion Ht.
Qed.

Lemma rstrip_prefix (s : string) : exists t, s = Py.rstrip s +:+ t.
Proof.
  induction s as [|c s (t & Ht)]; [by exists "" |].
  cbn [Py.rstrip]. destruct (Py.rstrip s) as [|r rs] eqn:Hr.
  - destruct (Py.isspace c); [by exists (String c s) | exists s; reflexivity].
  - exists t. by rewrite append_cons, <- Ht.
Qed.

Lemma rstrip_cons (c : ascii) (s : string) :
  Py.isspace c = false \/ Py.rstrip s ≠ "" ->
  Py.rstrip (String c s) = String c (Py.rstrip s).
Proof.
  intros Hc. cbn [Py.rstrip]. destruct (Py.rstrip s) as [|r rs]; [|done].
  destruct Hc as [-> | Hne]; done.
Qed.

Lemma rstrip_marker (tail : string) :
  Py.rstrip ("+ A track" +:+ tail) = "+ A track" +:+ Py.rstrip tail.
Proof.
  change ("+ A track" +:+ tail) with
    (String "+" (String " " (String "A" (String " " (String "t" (String "r" (String "a"
       (String "c" (String "k" tail))))))))).
  change ("+ A track" +:+ Py.rstrip tail) with
    (String "+" (String " " (String "A" (String " " (String "t" (String "r" (String "a"
       (String "c" (String "k" (Py.rstrip tail)))))))))).
  assert (forall c s, Py.isspace c = false ->
                      Py.rstrip (String c s) = String c (Py.rstrip s) /\
                      Py.rstrip (String c s) ≠ "") as Hletter.
  { intros c s Hc. rewrite rstrip_cons by (by left). done. }
  assert (forall c s, Py.rstrip s ≠ "" -> Py.rstrip (String c s) = String c (Py.rstrip s) /\
                                           Py.rstrip (String c s) ≠ "") as Hinner.
  { intros c s Hs. rewrite rstrip_cons by (by right). done. }
  destruct (Hletter "k"%char tail eq_refl) as [-> Hk].
  destruct (Hletter "c"%char (String "k" tail) eq_refl) as [Hc _].
  rewrite (proj1 (Hletter "+"%char _ eq_refl)).
  rewrite (rstrip_cons " ") by (right; by rewrite (proj1 (Hletter "A"%char _ eq_refl))).
  rewrite (proj1 (Hletter "A"%char _ eq_refl)).
  rewrite (rstrip_cons " ") by (right; by rewrite (proj1 (Hletter "t"%char _ eq_refl))).
  rewrite (proj1 (Hletter "t"%char _ eq_refl)), (proj1 (Hletter "r"%char _ eq_refl)),
    (proj1 (Hletter "a"%char _ eq_refl)), (proj1 (Hletter "c"%char _ eq_refl)).
  by rewrite (proj1 (Hletter "k"%char _ eq_refl)).
Qed.

(** The first test of the parsing loop accepts exactly the track-start
    markers. *)
Lemma is_track_start_marker (line : string) :
  is_track_start line = true <-> track_start_marker line.
Proof.
  unfold is_track_start, Py.strip, track_start_marker. split.
  - intros Hstart. apply startswith_prefix in Hstart as (t & Ht).
    destruct (rstrip_prefix (Py.lstrip line)) as (t' & Ht').
    destruct (lstrip_indent line) as (indent & Hall & Hline).
    exists indent, (t +:+ t'). split; [done |].
    rewrite Hline at 1. f_equal. rewrite Ht' at 1. by rewrite Ht, append_assoc.
  - intros (indent & tail & Hall & ->).
    rewrite (lstrip_blanks _ _ Hall).
    assert (Py.lstrip ("+ A track" +:+ tail) = "+ A track" +:+ tail) as -> by reflexivity.
    rewrite rstrip_marker. apply startswith_prefix. by eexists.
Qed.

Lemma is_track_start_not_marker (line : string) :
  is_track_start line = false <-> ¬ track_start_marker line.
Proof.
  rewrite <- is_track_start_marker. by destruct (is_track_start line).
Qed.

Lemma splitlines_line (line rest : string) (after : list string) :
  single_line line ->
  splitlines rest = EmptyString :: after ->
  splitlines (line +:+ rest) = line :: after.
Proof.
  unfold single_line. intros Hall Hrest. induction line as [|c line IH]; [done |].
  simpl in Hall. apply Forall_cons in Hall as [Hc Hall].
  rewrite append_cons. cbn [splitlines].
  rewrite is_linebreak_breaks, (bool_decide_eq_false_2 _ Hc). by rewrite (IH Hall).
Qed.

Lemma splitlines_last (line : string) :
  line ≠ "" -> single_line line -> splitlines line = [line].
Proof.
  unfold single_line. induction line as [|c line IH]; intros Hne Hall; [done |].
  simpl in Hall. apply Forall_cons in Hall as [Hc Hall].
  cbn [splitlines]. rewrite is_linebreak_breaks, (bool_decide_eq_false_2 _ Hc).
  destruct line as [|c' line]; [done |]. by rewrite IH.
Qed.

(** [str.splitlines()] gives the lines of a text. *)
Lemma splitlines_text (text : string) (lines : list string) :
  text_lines text lines -> splitlines text = lines.
Proof.
  induction 1 as [| line Hne Hline | line c rest lines Hline Hc Hcr _ IH
                  | line rest lines Hline _ IH].
  - done.
  - by apply splitlines_last.
  - apply (splitlines_line _ _ _ Hline). cbn [splitlines].
    rewrite is_linebreak_breaks, (bool_decide_eq_true_2 _ Hc). f_equal.
    destruct rest as [|c' rest']; [by rewrite <- IH |].
    destruct (decide (c = "013"%char)) as [->|Hne].
    + destruct (decide (c' = "010"%char)) as [->|Hne']; [by destruct (Hcr eq_refl rest') |].
      by rewrite (bool_decide_eq_false_2 (c' = "010"%char)), andb_false_r.
    + by rewrite (bool_decide_eq_false_2 (c = "013"%char)).
  - apply (splitlines_line _ _ _ Hline). cbn [splitlines]. by rewrite IH.
Qed.

Lemma text_lines_unlines (lines : list string) :
  Forall single_line lines -> text_lines (unlines lines) lines.
Proof.
  induction 1 as [|line lines Hline _ IH]; [constructor |].
  cbn [unlines List.fold_right]. fold (unlines lines).
  change (nl +:+ unlines lines) with (String "010" (unlines lines)).
  apply text_break; [done | | done | done].
  apply (bool_decide_unpack _). vm_compute. exact I.
Qed.

Lemma track_blocks_app (a b : list string) :
  track_blocks (a ++ b) = (track_blocks a + track_blocks b)%nat.
Proof. unfold track_blocks. by rewrite List.filter_app, length_app. Qed.

Lemma track_blocks_none (lines : list string) :
  Forall (fun line => ¬ track_start_marker line) lines -> track_blocks lines = 0%nat.
Proof.
  unfold track_blocks. induction 1 as [|line lines Hline _ IH]; [done |].
  simpl. by rewrite (proj2 (is_track_start_not_marker line) Hline).
Qed.

Lemma track_blocks_blocks (blocks : list block) :
  Forall (fun b => track_start_marker (marker b)) blocks ->
  Forall (fun b => Forall (fun line => ¬ track_start_marker line) (attributes b)) blocks ->
  track_blocks (List.concat (List.map block_lines blocks)) = length blocks.
Proof.
  induction blocks as [|b blocks IH]; intros Hmarkers Hattributes; [done |].
  apply Forall_cons in Hmarkers as [Hmarker Hmarkers].
  apply Forall_cons in Hattributes as [Hattribute Hattributes].
  cbn [List.map List.concat length]. rewrite track_blocks_app, (IH Hmarkers Hattributes).
  unfold block_lines, track_blocks. simpl.
  rewrite (proj2 (is_track_start_marker (marker b)) Hmarker). simpl.
  fold (track_blocks (attributes b)). by rewrite (track_blocks_none _ Hattribute).
Qed.

(** C6: when the probing tool exits zero and the lines of its report are
    the lines ahead of the first marker, attribute lines among them,
    followed by [N] track blocks, each a marker line ([+ A track] after any
    indentation) and the lines up to the next marker, [get_mkv_tracks]
    returns exactly [N] tracks with the ids [1..N] in report order, the
    last block being closed at the end of the input; the lines ahead of the
    first marker yield no track. *)
Theorem probe_ids_are_1_to_N (w : world) (file_path : string) (s : gmap Z session)
    (preamble : list string) (blocks : list block)
    (Hexit : returncode (exec w ["mkvinfo"; file_path]) = 0)
    (Hreport : text_lines (stdout (exec w ["mkvinfo"; file_path]))
                          (report_lines preamble blocks))
    (Hpreamble : Forall (fun line => ¬ track_start_marker line) preamble)
    (Hmarkers : Forall (fun b => track_start_marker (marker b)) blocks)
    (Hattributes :
       Forall (fun b => Forall (fun line => ¬ track_start_marker line) (attributes b))
              blocks) :
  exists tracks,
    get_mkv_tracks w file_path s = (s, [], inr tracks) /\
    List.map Track.id tracks = ids_from 1 (length blocks) /\
    length tracks = length blocks /\
    tracks = parse_lines (List.concat (List.map block_lines blocks)) /\
    parse_lines preamble = [].
Proof.
  assert (Forall (fun line => is_track_start line = false) preamble) as Hpre.
  { eapply Forall_impl; [exact Hpreamble |]. intros line. apply is_track_start_not_marker. }
  exists (parse_lines (report_lines preamble blocks)).
  destruct (parse_lines_ids preamble (List.concat (List.map block_lines blocks)) Hpre)
    as (Hids & Hlen & Hsame & Hnone).
  rewrite (track_blocks_blocks _ Hmarkers Hattributes) in Hids, Hlen.
  split; [|done].
  unfold get_mkv_tracks. by rewrite Hexit, (splitlines_text _ _ Hreport).
Qed.

(** The fixture report: one stray attribute line, then three blocks. *)
Lemma probe_ids_fixture :
  returncode (exec reporting ["mkvinfo"; "movie.mkv"]) = 0 /\
  text_lines (stdout (exec reporting ["mkvinfo"; "movie.mkv"]))
             (report_lines Fixture.stray three_blocks) /\
  exists tracks,
    get_mkv_tracks reporting "movie.mkv" ∅ = (∅, [], inr tracks) /\
    List.map Track.id tracks = [1; 2; 3] /\
    length tracks = 3%nat /\
    tracks = parse_lines (List.concat (List.map block_lines three_blocks)) /\
    parse_lines Fixture.stray = [].
Proof.
  assert (forall lines, Forall (fun line => is_track_start line = false) lines ->
                        Forall (fun line => ¬ track_start_marker line) lines) as Hnot.
  { intros lines Hall. eapply Forall_impl; [exact Hall |].
    intros line. apply is_track_start_not_marker. }
  assert (text_lines (stdout (exec reporting ["mkvinfo"; "movie.mkv"]))
                     (report_lines Fixture.stray three_blocks)) as Hreport.
  { apply text_lines_unlines. apply (bool_decide_unpack _). vm_compute. exact I. }
  assert (Forall (fun line => ¬ track_start_marker line) Fixture.stray) as Hpreamble.
  { apply Hnot. repeat constructor. }
  assert (Forall (fun b => track_start_marker (marker b)) three_blocks) as Hmarkers.
  { repeat constructor; apply is_track_start_marker; vm_compute; reflexivity. }
  assert (Forall (fun b => Forall (fun line => ¬ track_start_marker line) (attributes b))
                 three_blocks) as Hattributes.
  { repeat constructor; apply is_track_start_not_marker; vm_compute; reflexivity. }
  split; [reflexivity |]. split; [exact Hreport |].
  exact (probe_ids_are_1_to_N reporting "movie.mkv" ∅ Fixture.stray three_blocks
           eq_refl Hreport Hpreamble Hmarkers Hattributes).
Defined.

(** X17: a line that begins with [|], as every line below the top level of
    the tree that [mkvinfo] prints does, is no track-start marker, whatever
    follows the bar; so when the tool exits zero and every line of its
    report begins with [|], [+ A track] lines among them, [get_mkv_tracks]
    returns no track. *)
Theorem tree_layout_yields_no_track (w : world) (file_path : string) (s : gmap Z session)
    (lines : list string)
    (Hexit : returncode (exec w ["mkvinfo"; file_path]) = 0)
    (Hreport : text_lines (stdout (exec w ["mkvinfo"; file_path])) lines)
    (Hbars : Forall (fun line => exists rest, line = "|" +:+ rest) lines) :
  Forall (fun line => ¬ track_start_marker line) lines /\
  get_mkv_tracks w file_path s = (s, [], inr []).
Proof.
  assert (Forall (fun line => is_track_start line = false) lines) as Hnone.
  { eapply Forall_impl; [exact Hbars |]. intros line (rest & ->).
    unfold is_track_start, Py.strip.
    change ("|" +:+ rest) with (String "|" rest).
    assert (Py.lstrip (String "|" rest) = String "|" rest) as -> by reflexivity.
    by rewrite rstrip_cons by (by left). }
  split.
  - eapply Forall_impl; [exact Hnone |]. intros line. apply is_track_start_not_marker.
  - unfold get_mkv_tracks. rewrite Hexit, (splitlines_text _ _ Hreport).
    unfold parse_lines. by rewrite (parse_loop_outside _ Hnone).
Qed.

(** Two tracks in the layout of [mkvinfo]. *)
Lemma tree_layout_fixture :
  let lines := ["|+ Tracks"; "| + A track"; "|  + Track type: video";
                "| + A track"; "|  + Track type: audio"] in
  let w := {| fetch := fun _ download_path => inr (download_path, "done");
              exec := fun _ => {| returncode := 0; stdout := unlines lines; stderr := "" |};
              path_exists := fun _ => false |} in
  text_lines (unlines lines) lines /\
  Forall (fun line => exists rest, line = "|" +:+ rest) lines /\
  get_mkv_tracks w "movie.mkv" ∅ = (∅, [], inr []).
Proof.
  intros lines w.
  assert (text_lines (unlines lines) lines) as Hreport.
  { apply text_lines_unlines. apply (bool_decide_unpack _). vm_compute. exact I. }
  assert (Forall (fun line => exists rest, line = "|" +:+ rest) lines) as Hbars.
  { repeat constructor; by eexists. }
  split; [exact Hreport |]. split; [exact Hbars |].
  exact (proj2 (tree_layout_yields_no_track w "movie.mkv" ∅ lines eq_refl Hreport Hbars)).
Defined.

(** ** Extracting *)

Lemma first_output_find (w : world) (output_dir : string) (track_id : Z) (exts : list string) :
  first_output w output_dir track_id exts =
  option_list (List.find (path_exists w) (List.map (track_output output_dir track_id) exts)).
Proof.
  induction exts as [|ext exts IH]; simpl; [done |].
  by destruct (path_exists w (track_output output_dir track_id ext)).
Qed.

Lemma collect_outputs_acc (w : world) (output_dir : string) (track_ids : list Z)
    (extracted_files : list string) :
  collect_outputs w output_dir track_ids extracted_files =
  extracted_files ++ omap (chosen_output w output_dir) track_ids.
Proof.
  revert extracted_files.
  induction track_ids as [|track_id track_ids IH]; intros acc;
    cbn [collect_outputs omap list_omap].
  - by rewrite app_nil_r.
  - rewrite IH, first_output_find, <- app_assoc. f_equal.
    fold (chosen_output w output_dir track_id).
    by destruct (chosen_output w output_dir track_id).
Qed.

(** C7: once the extract child process has exited zero, the result holds,
    for each requested track id in order, the first candidate output that
    exists (in the order [.mkv], [.mp4], [.aac], [.srt], [.ass]); an id with
    no existing output contributes nothing, and nothing is raised. *)
Theorem extract_keeps_first_existing_output (w : world) (file_path : string)
    (track_ids : list Z) (output_dir : string) (s : gmap Z session)
    (Hexit : returncode (exec w (extract_command file_path track_ids output_dir)) = 0) :
  extract_tracks w file_path track_ids output_dir s =
  (s, [], inr (omap (chosen_output w output_dir) track_ids)).
Proof.
  unfold extract_tracks. rewrite Hexit. simpl.
  by rewrite collect_outputs_acc.
Qed.

(** Ids [1] and [2] requested, only an output of track 1 on disk. *)
Lemma extract_partial_fixture :
  returncode (exec Fixture.quiet (extract_command "in.mkv" [1; 2] "out")) = 0 /\
  extract_tracks Fixture.quiet "in.mkv" [1; 2] "out" ∅ = (∅, [], inr ["out/track_1.srt"]).
Proof.
  split; [reflexivity |].
  rewrite (extract_keeps_first_existing_output Fixture.quiet "in.mkv" [1; 2] "out" ∅ eq_refl).
  vm_compute. reflexivity.
Defined.

(** ** Combining *)

Lemma append_each (files command : list string) :
  List.fold_left (fun command file => command ++ [file]) files command = command ++ files.
Proof.
  revert command. induction files as [|file files IH]; intros command; simpl.
  - by rewrite app_nil_r.
  - by rewrite IH, <- app_assoc.
Qed.

Lemma mux_command_eq (files : list string) (output_file : string)
    (options : gmap string string) :
  mux_command files output_file options =
  ["mkvmerge"; "-o"; output_file] ++ files ++ title_args options.
Proof.
  unfold mux_command, title_args. rewrite append_each.
  destruct (options !! "title") as [title|]; [destruct (Py.truthy title) |];
    simpl; by rewrite ?app_nil_r.
Qed.

(** C8, the claim as worded, refuted: with a title set, the flag does not
    sit between the output and the inputs. *)
Lemma mux_command_title_not_first :
  mux_command ["movie.en.mkv"; "subs.hi.srt"] "out.mkv" {["title" := "Movie"]} =
    ["mkvmerge"; "-o"; "out.mkv"; "movie.en.mkv"; "subs.hi.srt"; "--title"; "Movie"] /\
  title_first_command ["movie.en.mkv"; "subs.hi.srt"] "out.mkv" {["title" := "Movie"]} =
    ["mkvmerge"; "-o"; "out.mkv"; "--title"; "Movie"; "movie.en.mkv"; "subs.hi.srt"] /\
  mux_command ["movie.en.mkv"; "subs.hi.srt"] "out.mkv" {["title" := "Movie"]} <>
  title_first_command ["movie.en.mkv"; "subs.hi.srt"] "out.mkv" {["title" := "Movie"]}.
Proof.
  assert (mux_command ["movie.en.mkv"; "subs.hi.srt"] "out.mkv" {["title" := "Movie"]} =
          ["mkvmerge"; "-o"; "out.mkv"; "movie.en.mkv"; "subs.hi.srt"; "--title"; "Movie"])
    as Hcode by (vm_compute; reflexivity).
  assert (title_first_command ["movie.en.mkv"; "subs.hi.srt"] "out.mkv"
            {["title" := "Movie"]} =
          ["mkvmerge"; "-o"; "out.mkv"; "--title"; "Movie"; "movie.en.mkv"; "subs.hi.srt"])
    as Hclaim by (vm_compute; reflexivity).
  split; [exact Hcode |]. split; [exact Hclaim |].
  rewrite Hcode, Hclaim. discriminate.
Qed.

(** C8, amended: the invocation is the merge tool, [-o], the output path,
    the input paths in their order, and last the title flag with the title,
    present only when a non-empty title is set; [mux_files] returns the
    output path when the child exits zero and raises with the captured
    standard error otherwise. *)
Theorem mux_files_command_and_result (w : world) (files : list string)
    (output_file : string) (options : gmap string string) (s : gmap Z session) :
  mux_command files output_file options =
    ["mkvmerge"; "-o"; output_file] ++ files ++ title_args options /\
  mux_files w files output_file options s =
    (s, [],
     let proc := exec w (["mkvmerge"; "-o"; output_file] ++ files ++ title_args options) in
     if returncode proc =? 0 then inr output_file
     else inl ("mkvmerge failed: " +:+ stderr proc)).
Proof.
  split; [apply mux_command_eq |].
  unfold mux_files. rewrite mux_command_eq. simpl.
  by destruct (returncode _ =? 0).
Qed.

(** C10: the title flag is emitted exactly when the bag maps [title] to a
    non-empty string; with the key absent or mapped to the empty string the
    command is the tool, [-o], the output and the inputs alone, so that an
    empty title and no title give the same command. *)
Theorem title_flag_needs_truthy_title (files : list string) (output_file : string)
    (options : gmap string string) :
  (title_flag_emitted files output_file options <->
   exists title, options !! "title" = Some title /\ title <> "") /\
  (options !! "title" = None \/ options !! "title" = Some "" ->
   mux_command files output_file options = ["mkvmerge"; "-o"; output_file] ++ files) /\
  mux_command files output_file (<["title" := ""]> options) =
  mux_command files output_file (delete "title" options).
Proof.
  split; [|split].
  - unfold title_flag_emitted. setoid_rewrite mux_command_eq. unfold title_args. split.
    + intros [title Heq]. simpl in Heq. injection Heq as Heq.
      apply app_inv_head in Heq.
      destruct (options !! "title") as [t|]; [|discriminate].
      destruct t; simpl in Heq; [discriminate |]. eexists. split; [done | discriminate].
    + intros (title & -> & Hne). exists title.
      destruct title; [done | reflexivity].
  - rewrite mux_command_eq. unfold title_args.
    intros [-> | ->]; simpl; by rewrite app_nil_r.
  - rewrite !mux_command_eq. unfold title_args.
    by rewrite lookup_insert_eq, lookup_delete_eq.
Qed.

(** A bag with an empty title, and the same bag without the key. *)
Lemma title_flag_fixture :
  mux_command ["a.mkv"; "b.srt"] "out.mkv" {["title" := ""]} =
    ["mkvmerge"; "-o"; "out.mkv"] ++ ["a.mkv"; "b.srt"] /\
  mux_command ["a.mkv"; "b.srt"] "out.mkv" ∅ =
    ["mkvmerge"; "-o"; "out.mkv"] ++ ["a.mkv"; "b.srt"].
Proof.
  split.
  - apply (title_flag_needs_truthy_title ["a.mkv"; "b.srt"] "out.mkv" {["title" := ""]}).
    right. vm_compute. reflexivity.
  - apply (title_flag_needs_truthy_title ["a.mkv"; "b.srt"] "out.mkv" ∅).
    left. vm_compute. reflexivity.
Defined.

(** ** Progress *)

Lemma progress_zero_total (start_time now : Q) (vars : progress_vars) (current : Z) :
  Qle_bool 1 (now - last_update vars) = true ->
  snd (progress start_time now vars current 0) = ZeroDivisionError.
Proof.
  intros Hdue. unfold progress. rewrite Hdue.
  destruct (py_div (inject_Z current) (now - start_time)); reflexivity.
Qed.

(** C9: the first callback of a download whose total is reported as zero,
    ten seconds into the event loop's clock and five after the start: the
    percentage divides by the total and the call raises. *)
Theorem progress_raises_on_zero_total :
  progress 5 10 progress_init 0 0 = (progress_init, ZeroDivisionError) /\
  progress_calls 5 progress_init [(inject_Z 10, 0, 0); (inject_Z 11, 4096, 0)] =
    (progress_init, [ZeroDivisionError]).
Proof. vm_compute. split; reflexivity. Qed.

(** * Further properties *)

(** ** One update, one step of the store *)

Lemma handle_file_input_cases MAX message (σ : gmap Z session) :
  (handle_file_input MAX message σ).1.1 = σ \/
  exists name type,
    message_file_name message = Some name /\ name ≠ "" /\
    lookup_type SUPPORTED_EXTENSIONS (Py.lower (PathLib.suffix name)) = Some type /\
    (handle_file_input MAX message σ).1.1 =
    <[Telegram.from_user message :=
        with_files (default new_session (σ !! Telegram.from_user message))
          (files (default new_session (σ !! Telegram.from_user message)) ++
           [stage message name type])]> σ.
Proof.
  destruct (too_large MAX message σ) as [[s1 out1] r] eqn:Hbig.
  assert (s1 = σ /\ out1 = []) as [-> ->].
  { unfold too_large in Hbig.
    destruct (Telegram.document message) as [d|]; [destruct (Telegram.file_size d) |];
      by inversion Hbig. }
  destruct r as [e|[]].
  - left. unfold handle_file_input. by rewrite (bind_inl _ _ _ _ _ _ Hbig).
  - left. unfold handle_file_input. by rewrite (bind_inr _ _ _ _ _ _ Hbig).
  - destruct (message_file_name message) as [[|c name]|] eqn:Hname.
    + left. unfold handle_file_input. by rewrite (bind_inr _ _ _ _ _ _ Hbig), Hname.
    + destruct (lookup_type SUPPORTED_EXTENSIONS (Py.lower (PathLib.suffix (String c name))))
        as [type|] eqn:Htype.
      * right. exists (String c name), type.
        by rewrite (handle_file_input_stage _ _ _ _ _ Hbig Hname ltac:(done) Htype).
      * left. unfold handle_file_input.
        by rewrite (bind_inr _ _ _ _ _ _ Hbig), Hname, Htype.
    + left. unfold handle_file_input. by rewrite (bind_inr _ _ _ _ _ _ Hbig), Hname.
Qed.

Lemma handle_file_input_step MAX message (σ : gmap Z session) :
  store_step (Telegram.from_user message) σ (handle_file_input MAX message σ).1.1.
Proof.
  destruct (handle_file_input_cases MAX message σ)
    as [-> | (name & type & Hname & Hne & Htype & ->)]; [constructor |].
  by apply step_staged.
Qed.

Lemma dispatch_step w uid data (σ : gmap Z session) (sess : session) :
  σ !! uid = Some sess -> store_step uid σ (dispatch w uid data σ).1.1.
Proof.
  intros Hs. unfold dispatch.
  repeat case_bool_decide.
  - rewrite (handle_extract_tracks_store _ _ _ _ Hs).
    destruct (files sess) as [|f [|f' fs]] eqn:Hfiles; try constructor.
    case_bool_decide; [|constructor].
    apply step_operation; [done | by rewrite Hfiles | set_solver].
  - rewrite (handle_mux_files_run _ _ _ Hs). case_bool_decide; [constructor |].
    apply step_operation; [done | | set_solver].
    intros Hnil. rewrite Hnil in *. simpl in *. lia.
  - rewrite (handle_merge_files_run _ _ _ Hs). case_bool_decide; [constructor |].
    apply step_operation; [done | | set_solver].
    intros Hnil. rewrite Hnil in *. simpl in *. lia.
  - rewrite (handle_edit_metadata_run _ _ _ Hs).
    destruct (files sess) as [|f [|f' fs]] eqn:Hfiles; try constructor.
    case_bool_decide; [|constructor].
    apply step_operation; [done | by rewrite Hfiles | set_solver].
  - constructor.
  - rewrite readonly_show_added_files. constructor.
  - destruct (files sess) as [|f0 fs0] eqn:Hfiles using rev_ind.
    + rewrite (remove_last_file_none _ _ _ Hs Hfiles). constructor.
    + rewrite (remove_last_file_run _ _ _ _ _ Hs Hfiles).
      destruct fs0 as [|k fs0]; [constructor |].
      by apply (step_removed _ _ _ _ f0).
  - rewrite bind_store, (del_session_run _ _ _ Hs). cbn [fst snd]. constructor.
  - constructor.
Qed.

Lemma handle_step MAX w e (σ : gmap Z session) :
  store_step (event_user e) σ (after MAX w e σ).
Proof.
  unfold after, handle. destruct e as [message | uid command | uid data]; simpl.
  - apply handle_file_input_step.
  - repeat case_bool_decide; try constructor.
    + unfold handle_cancel. rewrite bind_store. cbn [user_sessions fst snd].
      destruct (σ !! uid) as [sess|] eqn:Hs; [|constructor].
      rewrite bind_store, (del_session_run _ _ _ Hs). cbn [fst snd]. constructor.
    + unfold handle_reset. rewrite bind_store. cbn [user_sessions fst snd].
      destruct (σ !! uid) as [sess|] eqn:Hs; [|constructor].
      rewrite bind_store, (del_session_run _ _ _ Hs). cbn [fst snd]. constructor.
  - destruct (σ !! uid) as [sess|] eqn:Hs.
    + rewrite (handle_callback_query_dispatch _ _ _ _ _ Hs), try_except_store.
      * by apply (dispatch_step _ _ _ _ sess).
      * intros e. apply readonly_send.
    + rewrite (handle_callback_query_expired _ _ _ _ Hs). constructor.
Qed.

Lemma store_step_frame uid uid' (σ σ' : gmap Z session) :
  store_step uid σ σ' -> uid' ≠ uid -> σ' !! uid' = σ !! uid'.
Proof.
  intros Hstep Hne. destruct Hstep; [done | ..];
    by rewrite ?lookup_delete_ne, ?lookup_insert_ne by done.
Qed.

(** X1: an update of one user leaves every other user's session as it was,
    whatever the update and however its handler ends. *)
Theorem other_sessions_untouched MAX w e (σ : gmap Z session) uid
    (Hother : uid ≠ event_user e) :
  after MAX w e σ !! uid = σ !! uid.
Proof. exact (store_step_frame _ _ _ _ (handle_step MAX w e σ) Hother). Qed.

(** User 8 presses [Cancel] while user 7 is choosing options. *)
Lemma other_sessions_untouched_fixture :
  (7 : Z) ≠ event_user (ButtonPressed 8 "cancel_operation") /\
  after Fixture.limit Fixture.quiet (ButtonPressed 8 "cancel_operation") muxing !! 7 =
  muxing !! 7.
Proof.
  assert ((7 : Z) ≠ event_user (ButtonPressed 8 "cancel_operation")) as Hother by done.
  split; [exact Hother |].
  exact (other_sessions_untouched Fixture.limit Fixture.quiet _ muxing 7 Hother).
Defined.

(** X2: one update changes a user's file list at its end only: the list
    stays, gains one file at the end, or loses its last file; a session that
    appears starts with a single file. *)
Theorem files_change_at_the_end MAX w e (σ : gmap Z session) uid (sess' : session)
    (Hafter : after MAX w e σ !! uid = Some sess') :
  let old := files (default new_session (σ !! uid)) in
  (is_Some (σ !! uid) /\ files sess' = old) \/
  (exists f, files sess' = old ++ [f]) \/
  (exists f, old = files sess' ++ [f]).
Proof.
  intros old. unfold old. clear old.
  destruct (decide (uid = event_user e)) as [->|Hne].
  - destruct (handle_step MAX w e σ) as
      [ | | sess op Hs Hfiles Hop | sess kept last Hs Hfiles Hkept
        | message name type Huser Hname Hne Htype ].
    + left. rewrite Hafter. by split.
    + by rewrite lookup_delete_eq in Hafter.
    + rewrite lookup_insert_eq in Hafter. inversion Hafter; subst.
      left. rewrite Hs. by split.
    + rewrite lookup_insert_eq in Hafter. inversion Hafter; subst.
      right. right. exists last. by rewrite Hs.
    + rewrite lookup_insert_eq in Hafter. inversion Hafter; subst.
      right. left. by eexists.
  - rewrite (store_step_frame _ _ _ _ (handle_step MAX w e σ) Hne) in Hafter.
    left. rewrite Hafter. by split.
Qed.

(** The first file of user 7 arrives. *)
Lemma files_change_at_the_end_fixture :
  let m := Fixture.document 7 "Movie.EN.mkv" 10 in
  let sess' := with_files new_session [stage m "Movie.EN.mkv" "video"] in
  after Fixture.limit Fixture.quiet (FileReceived m) ∅ !! 7 = Some sess' /\
  ((is_Some ((∅ : gmap Z session) !! 7) /\
    files sess' = files (default new_session ((∅ : gmap Z session) !! 7))) \/
   (exists f, files sess' = files (default new_session ((∅ : gmap Z session) !! 7)) ++ [f]) \/
   (exists f, files (default new_session ((∅ : gmap Z session) !! 7)) = files sess' ++ [f])).
Proof.
  intros m sess'.
  assert (after Fixture.limit Fixture.quiet (FileReceived m) ∅ !! 7 = Some sess') as Hafter
    by (vm_compute; reflexivity).
  split; [exact Hafter |].
  exact (files_change_at_the_end Fixture.limit Fixture.quiet (FileReceived m) ∅ 7 sess' Hafter).
Defined.

(** ** Sessions as the handlers leave them *)

Lemma store_step_wf uid (σ σ' : gmap Z session) :
  store_step uid σ σ' -> store_wf σ -> store_wf σ'.
Proof.
  intros Hstep Hwf uid' sess' Hlook.
  destruct (decide (uid' = uid)) as [->|Hne].
  2: { rewrite (store_step_frame _ _ _ _ Hstep Hne) in Hlook. by apply Hwf. }
  destruct Hstep as
    [ | | sess op Hs Hfiles Hop | sess kept last Hs Hfiles Hkept
      | message name type Huser Hname Hne Htype ].
  - by apply Hwf.
  - by rewrite lookup_delete_eq in Hlook.
  - rewrite lookup_insert_eq in Hlook. inversion Hlook; subst.
    destruct (Hwf _ _ Hs) as (? & ? & ? & ?).
    repeat split; try done. simpl. by intros ? [= <-].
  - rewrite lookup_insert_eq in Hlook. inversion Hlook; subst.
    destruct (Hwf _ _ Hs) as (? & Hall & ? & ?).
    repeat split; try done. simpl. rewrite Hfiles in Hall.
    by apply Forall_app in Hall as [? _].
  - rewrite lookup_insert_eq in Hlook. inversion Hlook; subst.
    assert (session_wf (Telegram.from_user message)
              (default new_session (σ !! Telegram.from_user message)) \/
            σ !! Telegram.from_user message = None) as [Hold | Hnew].
    { destruct (σ !! Telegram.from_user message) eqn:Hs; [left | by right]. by apply Hwf. }
    + destruct Hold as (? & Hall & ? & ?).
      repeat split; try done; simpl.
      * by destruct (files _).
      * apply Forall_app. split; [done |]. by repeat constructor.
    + rewrite Hnew. simpl. repeat split; try done. by repeat constructor.
Qed.

Lemma download_file_run w message (σ : gmap Z session) name :
  message_file_name message = Some name -> name ≠ "" ->
  download_file w message σ =
  let announce :=
    reply_text ("📥 Downloading " +:+ name +:+ "..." +:+ nl +:+
                "Progress: 0%" +:+ nl +:+ "Speed: 0 MB/s") None in
  match fetch w message
          ("downloads/" +:+ str (Telegram.from_user message) +:+ "/" +:+ name) with
  | inl e => (σ, [announce], inl e)
  | inr (file, summary) => (σ, [announce; edit_text summary None], inr file)
  end.
Proof.
  intros Hname Hne. unfold download_file. rewrite Hname.
  destruct name as [|c name]; [done |].
  unfold message_file_name in Hname.
  unfold send at 1. unfold mbind at 1, M_bind, bind.
  destruct (Telegram.document message), (Telegram.video message), (Telegram.audio message);
    try discriminate Hname;
    by destruct (fetch w message _) as [e|[file summary]].
Qed.

(** ** Adding and removing *)




(** ** Cancelling *)

(** X6: [/cancel], [/reset] and the [Cancel] button all leave the user
    without a session, whether one existed or not, and any button the user
    presses next is answered [Session expired] with the store unchanged. *)
Theorem cancel_forgets_session MAX w e (σ : gmap Z session) uid
    (Hcancel : e ∈ [CommandReceived uid "cancel"; CommandReceived uid "reset";
                    ButtonPressed uid "cancel_operation"]) :
  after MAX w e σ = delete uid σ /\
  forall w' data,
    handle MAX w' (ButtonPressed uid data) (after MAX w e σ) =
    (after MAX w e σ, [answer "Session expired. Please send a file again."], inr tt).
Proof.
  assert (after MAX w e σ = delete uid σ) as Hdel.
  { unfold after, handle.
    repeat (apply elem_of_cons in Hcancel as [-> | Hcancel]); [| | | by inversion Hcancel].
    - rewrite bool_decide_eq_false_2 by done. rewrite bool_decide_eq_true_2 by done.
      unfold handle_cancel. rewrite bind_store. cbn [user_sessions fst snd].
      destruct (σ !! uid) as [sess|] eqn:Hs.
      + by rewrite bind_store, (del_session_run _ _ _ Hs).
      + simpl. by rewrite delete_id.
    - rewrite !bool_decide_eq_false_2 by done. rewrite bool_decide_eq_true_2 by done.
      unfold handle_reset. rewrite bind_store. cbn [user_sessions fst snd].
      destruct (σ !! uid) as [sess|] eqn:Hs.
      + by rewrite bind_store, (del_session_run _ _ _ Hs).
      + simpl. by rewrite delete_id.
    - destruct (σ !! uid) as [sess|] eqn:Hs.
      + rewrite (handle_callback_query_dispatch _ _ _ _ _ Hs).
        rewrite try_except_store by (intros e; apply readonly_send).
        change (dispatch w uid "cancel_operation")
          with (del_session uid ≫= (λ _, send (edit_text "Operation cancelled." None))).
        by rewrite bind_store, (del_session_run _ _ _ Hs).
      + rewrite (handle_callback_query_expired _ _ _ _ Hs). simpl. by rewrite delete_id. }
  split; [exact Hdel |]. intros w' data. rewrite Hdel.
  apply handle_callback_query_expired, lookup_delete_eq.
Qed.

Lemma cancel_forgets_session_fixture :
  CommandReceived 7 "cancel" ∈ [CommandReceived 7 "cancel"; CommandReceived 7 "reset";
                                ButtonPressed 7 "cancel_operation"] /\
  after Fixture.limit Fixture.quiet (CommandReceived 7 "cancel") muxing = delete 7 muxing.
Proof.
  assert (CommandReceived 7 "cancel" ∈ [CommandReceived 7 "cancel"; CommandReceived 7 "reset";
                                        ButtonPressed 7 "cancel_operation"]) as Hcancel
    by left.
  split; [exact Hcancel |].
  exact (proj1 (cancel_forgets_session Fixture.limit Fixture.quiet _ muxing 7 Hcancel)).
Defined.

(** ** Buttons *)

Lemma dispatch_unknown w uid data :
  data ∉ handled -> dispatch w uid data = send (answer "Unknown action.").
Proof.
  intros Hdata. unfold dispatch.
  repeat (rewrite bool_decide_eq_false_2;
          [| intros ->; apply Hdata; unfold handled; set_solver]).
  reflexivity.
Qed.

(** X7: for a user with a session, a button whose data is none of the eight
    that [handle_callback_query] tests is answered [Unknown action.] and
    changes nothing. *)
Theorem unhandled_button_changes_nothing MAX w (σ : gmap Z session) uid (sess : session) data
    (Hsession : σ !! uid = Some sess)
    (Hdata : data ∉ handled) :
  handle MAX w (ButtonPressed uid data) σ = (σ, [answer "Unknown action."], inr tt).
Proof.
  unfold handle. rewrite (handle_callback_query_dispatch _ _ _ _ _ Hsession).
  by rewrite (dispatch_unknown _ _ _ Hdata).
Qed.

Lemma unhandled_button_fixture :
  let sess := with_operation
                (with_files new_session
                   [stage (Fixture.document 7 "Movie.EN.mkv" 10) "Movie.EN.mkv" "video";
                    stage (Fixture.document 7 "subs.hi.srt" 20) "subs.hi.srt" "subtitles"])
                "mux_files" in
  muxing !! 7 = Some sess /\
  ("start_muxing" ∉ handled) /\
  handle Fixture.limit Fixture.quiet (ButtonPressed 7 "start_muxing") muxing =
  (muxing, [answer "Unknown action."], inr tt).
Proof.
  intros sess.
  assert (muxing !! 7 = Some sess) as Hsession by (vm_compute; reflexivity).
  assert ("start_muxing" ∉ handled) as Hdata.
  { apply (bool_decide_unpack _). vm_compute. exact I. }
  split; [exact Hsession |]. split; [exact Hdata |].
  exact (unhandled_button_changes_nothing Fixture.limit Fixture.quiet muxing 7 sess
           "start_muxing" Hsession Hdata).
Defined.

Lemma show_added_files_run uid (σ : gmap Z session) (sess : session) :
  σ !! uid = Some sess ->
  show_added_files uid σ =
  (σ, [edit_text ("📁 Added files:" +:+ nl +:+ nl +:+ join nl (files_info 1 (files sess)))
         (Some [[("Back", "back_to_actions")]])], inr tt).
Proof.
  intros Hs. unfold show_added_files.
  by rewrite (bind_inr _ _ _ _ _ _ (session_of_run _ _ _ Hs)).
Qed.

Lemma option_menu_data MAX w (σ : gmap Z session) uid (sess : session) chosen kb data :
  σ !! uid = Some sess ->
  chosen ∈ ["mux_files"; "merge_files"; "edit_metadata"; "view_files"] ->
  kb ∈ keyboards (handle MAX w (ButtonPressed uid chosen) σ).1.2 ->
  data ∈ keyboard_data kb ->
  data = "cancel_operation" \/ data ∉ handled.
Proof.
  intros Hs Hchosen Hkb Hdata. unfold handle in Hkb.
  rewrite (handle_callback_query_dispatch _ _ _ _ _ Hs) in Hkb.
  revert data Hdata. apply Forall_forall.
  repeat (apply elem_of_cons in Hchosen as [-> | Hchosen]); [| | | | by inversion Hchosen].
  - rewrite dispatch_mux in Hkb.
    unfold try_except in Hkb. rewrite (handle_mux_files_run _ _ _ Hs) in Hkb.
    case_bool_decide; cbn [fst snd keyboards omap list_omap] in Hkb; [by inversion Hkb |].
    apply list_elem_of_singleton in Hkb as ->.
    apply (bool_decide_unpack _). vm_compute. exact I.
  - rewrite dispatch_merge in Hkb.
    unfold try_except in Hkb. rewrite (handle_merge_files_run _ _ _ Hs) in Hkb.
    case_bool_decide; cbn [fst snd keyboards omap list_omap] in Hkb; [by inversion Hkb |].
    apply list_elem_of_singleton in Hkb as ->.
    apply (bool_decide_unpack _). vm_compute. exact I.
  - rewrite dispatch_edit in Hkb.
    unfold try_except in Hkb. rewrite (handle_edit_metadata_run _ _ _ Hs) in Hkb.
    destruct (files sess) as [|f [|f' fs]];
      cbn [fst snd keyboards omap list_omap] in Hkb; try by inversion Hkb.
    case_bool_decide; cbn [fst snd keyboards omap list_omap] in Hkb; [| by inversion Hkb].
    apply list_elem_of_singleton in Hkb as ->.
    apply (bool_decide_unpack _). vm_compute. exact I.
  - change (dispatch w uid "view_files") with (show_added_files uid) in Hkb.
    unfold try_except in Hkb. rewrite (show_added_files_run _ _ _ Hs) in Hkb.
    cbn [fst snd keyboards omap list_omap] in Hkb.
    apply list_elem_of_singleton in Hkb as ->.
    apply (bool_decide_unpack _). vm_compute. exact I.
Qed.

(** X8: every button of the menus that [Mux], [Merge], [Add/Edit Metadata]
    and [View Added Files] put on screen, [Cancel] apart, carries data that
    [handle_callback_query] has no branch for: pressing it, at any later
    time while the user has a session, is answered [Unknown action.] and
    changes nothing. *)
Theorem option_menus_lead_nowhere MAX w w' (σ σ' : gmap Z session) uid
    (sess sess' : session) chosen kb data
    (Hsession : σ !! uid = Some sess)
    (Hchosen : chosen ∈ ["mux_files"; "merge_files"; "edit_metadata"; "view_files"])
    (Hmenu : kb ∈ keyboards (handle MAX w (ButtonPressed uid chosen) σ).1.2)
    (Hbutton : data ∈ keyboard_data kb)
    (Hnot_cancel : data ≠ "cancel_operation")
    (Hlater : σ' !! uid = Some sess') :
  handle MAX w' (ButtonPressed uid data) σ' = (σ', [answer "Unknown action."], inr tt).
Proof.
  destruct (option_menu_data MAX w σ uid sess chosen kb data Hsession Hchosen Hmenu Hbutton)
    as [-> | Hdata]; [done |].
  unfold handle. rewrite (handle_callback_query_dispatch _ _ _ _ _ Hlater).
  by rewrite (dispatch_unknown _ _ _ Hdata).
Qed.

(** With two files staged, [Mux] shows its options; [Start Muxing] is one. *)
Lemma option_menus_fixture :
  let σ := run Fixture.limit
             [(Fixture.quiet, FileReceived (Fixture.document 7 "Movie.EN.mkv" 10));
              (Fixture.quiet, FileReceived (Fixture.document 7 "subs.hi.srt" 20))] ∅ in
  let sess := with_files new_session
                [stage (Fixture.document 7 "Movie.EN.mkv" 10) "Movie.EN.mkv" "video";
                 stage (Fixture.document 7 "subs.hi.srt" 20) "subs.hi.srt" "subtitles"] in
  let kb := [[("Set Output Title", "set_output_title");
              ("Set Track Names", "set_track_names")];
             [("Set Languages", "set_languages");
              ("Set Default/Forced", "set_default_forced")];
             [("Start Muxing", "start_muxing"); ("Cancel", "cancel_operation")]] in
  σ !! 7 = Some sess /\
  kb ∈ keyboards (handle Fixture.limit Fixture.quiet (ButtonPressed 7 "mux_files") σ).1.2 /\
  "start_muxing" ∈ keyboard_data kb /\
  muxing !! 7 = Some (with_operation sess "mux_files") /\
  handle Fixture.limit Fixture.quiet (ButtonPressed 7 "start_muxing") muxing =
  (muxing, [answer "Unknown action."], inr tt).
Proof.
  intros σ sess kb.
  assert (σ !! 7 = Some sess) as Hsession by (vm_compute; reflexivity).
  assert ("mux_files" ∈ ["mux_files"; "merge_files"; "edit_metadata"; "view_files"])
    as Hchosen by left.
  assert (kb ∈ keyboards
            (handle Fixture.limit Fixture.quiet (ButtonPressed 7 "mux_files") σ).1.2) as Hmenu.
  { apply (bool_decide_unpack _). vm_compute. exact I. }
  assert ("start_muxing" ∈ keyboard_data kb) as Hbutton.
  { apply (bool_decide_unpack _). vm_compute. exact I. }
  assert ("start_muxing" ≠ "cancel_operation") as Hnot_cancel by discriminate.
  assert (muxing !! 7 = Some (with_operation sess "mux_files")) as Hlater
    by (vm_compute; reflexivity).
  split; [exact Hsession |]. split; [exact Hmenu |]. split; [exact Hbutton |].
  split; [exact Hlater |].
  exact (option_menus_lead_nowhere Fixture.limit Fixture.quiet Fixture.quiet σ muxing 7
           sess (with_operation sess "mux_files") "mux_files" kb "start_muxing"
           Hsession Hchosen Hmenu Hbutton Hnot_cancel Hlater).
Defined.

(** The callback data on the action menu. *)
Lemma action_menu_data (fs : list staged_file) :
  ("extract_tracks" ∈ keyboard_data (action_buttons fs) <-> single_video fs) /\
  ("edit_metadata" ∈ keyboard_data (action_buttons fs) <-> single_video fs) /\
  "mux_files" ∈ keyboard_data (action_buttons fs) /\
  "merge_files" ∈ keyboard_data (action_buttons fs) /\
  (forall data, data ∈ keyboard_data (action_buttons fs) -> data ∈ handled).
Proof.
  assert (single_video fs \/ ¬ single_video fs) as [(f & -> & Hty) | Hno].
  { destruct fs as [|f [|f' fs]]; try (right; by intros (? & [=] & _)).
    destruct (decide (file_type f = "video")) as [Hty|Hty].
    - left. by exists f.
    - right. intros (? & [= <-] & ?). done. }
  - assert (keyboard_data (action_buttons [f]) =
            ["extract_tracks"; "edit_metadata"; "mux_files"; "merge_files";
             "add_another_file"; "view_files"; "remove_last_file"; "cancel_operation"])
      as ->.
    { unfold action_buttons. by rewrite (bool_decide_eq_true_2 _ Hty). }
    assert (single_video [f]) as Hsingle by (by exists f).
    split; [split; [done | intros _; by left] |].
    split; [split; [done | intros _; by right; left] |].
    split; [by do 2 right; left |]. split; [by do 3 right; left |].
    intros data Hin.
    repeat (apply elem_of_cons in Hin as [-> | Hin]); [.. | by inversion Hin];
      apply (bool_decide_unpack _); vm_compute; exact I.
  - assert (keyboard_data (action_buttons fs) =
            ["mux_files"; "merge_files"; "add_another_file"; "view_files";
             "remove_last_file"; "cancel_operation"]) as ->.
    { unfold action_buttons. destruct fs as [|f [|f' fs]]; try done.
      rewrite bool_decide_eq_false_2; [done |]. intros Hty. apply Hno. by exists f. }
    split; [split; [|done] |].
    { intros Hin. exfalso. revert Hin. apply (bool_decide_unpack _). vm_compute. exact I. }
    split; [split; [|done] |].
    { intros Hin. exfalso. revert Hin. apply (bool_decide_unpack _). vm_compute. exact I. }
    split; [by left |]. split; [by right; left |].
    intros data Hin.
    repeat (apply elem_of_cons in Hin as [-> | Hin]); [.. | by inversion Hin];
      apply (bool_decide_unpack _); vm_compute; exact I.
Qed.

(** ** Extracting, as far as the handler goes *)

Lemma track_buttons_run (tracks : list Track.t) (σ : gmap Z session) :
  track_buttons tracks σ =
  (σ, [],
   if bool_decide (Forall (fun t => is_Some (Track.type t)) tracks)
   then inr (List.map
               (fun t => [(Py.capitalize (default "" (Track.type t)) +:+ " " +:+
                           str (Track.id t) +:+ ": " +:+ default "" (Track.codec t) +:+
                           " " +:+ default "" (Track.language t),
                           "extract_track_" +:+ str (Track.id t))]) tracks)
   else inl "KeyError: 'type'").
Proof.
  induction tracks as [|t tracks IH]; [done |].
  cbn [track_buttons].
  destruct (Track.type t) as [ty|] eqn:Hty.
  - assert (track_button t σ =
            (σ, [], inr [(Py.capitalize ty +:+ " " +:+ str (Track.id t) +:+ ": " +:+
                          default "" (Track.codec t) +:+ " " +:+
                          default "" (Track.language t),
                          "extract_track_" +:+ str (Track.id t))])) as Hb.
    { unfold track_button. by rewrite Hty. }
    rewrite (bind_inr _ _ _ _ _ _ Hb).
    case_bool_decide as Hall.
    + rewrite (bind_inr _ _ _ _ _ _ IH).
      rewrite bool_decide_eq_true_2.
      * cbn [List.map]. rewrite Hty. reflexivity.
      * constructor; [by rewrite Hty | done].
    + rewrite (bind_inl _ _ _ _ _ _ IH).
      rewrite bool_decide_eq_false_2; [done |].
      intros Hall'. apply Hall. by inversion Hall'.
  - assert (track_button t σ = (σ, [], inl "KeyError: 'type'")) as Hb.
    { unfold track_button. by rewrite Hty. }
    rewrite (bind_inl _ _ _ _ _ _ Hb).
    rewrite bool_decide_eq_false_2; [done |].
    intros Hall. inversion Hall as [|? ? [? Hsome] ?]; subst. by rewrite Hty in Hsome.
Qed.

(** X10: the track menu is built only when every probed track has a type:
    then there is one button per track, in order, with the callback data
    [extract_track_<id>], none of which [handle_callback_query] has a
    branch for; a single track without a [Track type] line makes the whole
    menu fail with a [KeyError]. *)
Theorem track_buttons_need_types (tracks : list Track.t) (σ : gmap Z session) :
  (Forall (fun t => is_Some (Track.type t)) tracks ->
   exists kb, track_buttons tracks σ = (σ, [], inr kb) /\
              keyboard_data kb =
                List.map (fun t => "extract_track_" +:+ str (Track.id t)) tracks /\
              forall data, data ∈ keyboard_data kb -> data ∉ handled) /\
  (Exists (fun t => Track.type t = None) tracks ->
   track_buttons tracks σ = (σ, [], inl "KeyError: 'type'")).
Proof.
  rewrite track_buttons_run. split.
  - intros Hall. rewrite (bool_decide_eq_true_2 _ Hall). eexists. split; [done |].
    assert (forall ts : list Track.t,
              keyboard_data
                (List.map
                   (fun t => [(Py.capitalize (default "" (Track.type t)) +:+ " " +:+
                               str (Track.id t) +:+ ": " +:+ default "" (Track.codec t) +:+
                               " " +:+ default "" (Track.language t),
                               "extract_track_" +:+ str (Track.id t))]) ts) =
              List.map (fun t => "extract_track_" +:+ str (Track.id t)) ts) as Hdata.
    { induction ts as [|t ts IH]; [done |]. unfold keyboard_data in *. simpl.
      by rewrite IH. }
    rewrite Hdata. split; [done |].
    intros data Hin Hhandled. apply list_elem_of_fmap in Hin as (t & -> & _).
    unfold handled in Hhandled.
    repeat (apply elem_of_cons in Hhandled as [Heq | Hhandled]);
      [.. | by inversion Hhandled]; cbv [String.append] in Heq; discriminate Heq.
  - intros Hex. rewrite bool_decide_eq_false_2; [done |].
    intros Hall. apply Exists_exists in Hex as (t & Hin & Hnone).
    rewrite Forall_forall in Hall. destruct (Hall t Hin) as [ty Hty]. congruence.
Qed.

(** The third block of the fixture report has no [Track type] line. *)
Lemma track_buttons_fixture :
  Exists (fun t => Track.type t = None) (parse_lines Fixture.blocks) /\
  track_buttons (parse_lines Fixture.blocks) ∅ = (∅, [], inl "KeyError: 'type'").
Proof.
  assert (Exists (fun t => Track.type t = None) (parse_lines Fixture.blocks)) as Hex.
  { apply (bool_decide_unpack _). vm_compute. exact I. }
  split; [exact Hex |].
  exact (proj2 (track_buttons_need_types (parse_lines Fixture.blocks) ∅) Hex).
Defined.

(** X11: when the single video of a session is downloaded and the probing
    tool then exits non-zero, pressing [Extract Tracks] still returns
    normally: the user sees the download messages and the fixed text
    [An error occurred. Please try again.], not the tool's diagnostic, and
    the session is left with [extract_tracks] as its current operation. *)
Theorem failed_probe_keeps_operation MAX w (σ : gmap Z session) uid (sess : session)
    (f : staged_file) name file summary
    (Hsession : σ !! uid = Some sess)
    (Hfiles : files sess = [f])
    (Htype : file_type f = "video")
    (Hname : message_file_name (message f) = Some name)
    (Hnonempty : name ≠ "")
    (Hfetch : fetch w (message f)
                ("downloads/" +:+ str (Telegram.from_user (message f)) +:+ "/" +:+ name) =
              inr (file, summary))
    (Hexit : returncode (exec w ["mkvinfo"; file]) ≠ 0) :
  handle MAX w (ButtonPressed uid "extract_tracks") σ =
  (<[uid := with_operation sess "extract_tracks"]> σ,
   [reply_text ("📥 Downloading " +:+ name +:+ "..." +:+ nl +:+
                "Progress: 0%" +:+ nl +:+ "Speed: 0 MB/s") None;
    edit_text summary None;
    answer "An error occurred. Please try again."],
   inr tt).
Proof.
  unfold handle. rewrite (handle_callback_query_dispatch _ _ _ _ _ Hsession), dispatch_extract.
  assert (handle_extract_tracks w uid σ =
          (<[uid := with_operation sess "extract_tracks"]> σ,
           [reply_text ("📥 Downloading " +:+ name +:+ "..." +:+ nl +:+
                        "Progress: 0%" +:+ nl +:+ "Speed: 0 MB/s") None;
            edit_text summary None],
           inl ("mkvinfo failed: " +:+ stderr (exec w ["mkvinfo"; file])))) as Hbody.
  { unfold handle_extract_tracks.
    rewrite (bind_inr _ _ _ _ _ _ (session_of_run _ _ _ Hsession)), Hfiles.
    rewrite (bool_decide_eq_false_2 (file_type f ≠ "video")) by (intros H; by apply H).
    rewrite (bind_inr _ _ _ _ _ _ (set_current_operation_run _ _ _ _ Hsession)).
    assert (download_file w (message f) (<[uid := with_operation sess "extract_tracks"]> σ) =
            (<[uid := with_operation sess "extract_tracks"]> σ,
             [reply_text ("📥 Downloading " +:+ name +:+ "..." +:+ nl +:+
                          "Progress: 0%" +:+ nl +:+ "Speed: 0 MB/s") None;
              edit_text summary None], inr file)) as Hdl.
    { rewrite (download_file_run _ _ _ _ Hname Hnonempty). cbv zeta. by rewrite Hfetch. }
    rewrite (bind_inr _ _ _ _ _ _ Hdl).
    assert (get_mkv_tracks w file (<[uid := with_operation sess "extract_tracks"]> σ) =
            (<[uid := with_operation sess "extract_tracks"]> σ, [],
             inl ("mkvinfo failed: " +:+ stderr (exec w ["mkvinfo"; file])))) as Hprobe.
    { unfold get_mkv_tracks. apply Z.eqb_neq in Hexit. by rewrite Hexit. }
    by rewrite (bind_inl _ _ _ _ _ _ Hprobe). }
  unfold try_except. by rewrite Hbody.
Qed.

(** A video is staged and the probing tool fails. *)
Lemma failed_probe_fixture :
  let m := Fixture.video 7 "Movie.EN.mkv" 10 in
  let f := stage m "Movie.EN.mkv" "video" in
  let sess := with_files new_session [f] in
  let σ := run Fixture.limit [(Fixture.quiet, FileReceived m)] ∅ in
  σ !! 7 = Some sess /\
  returncode (exec failing_tools ["mkvinfo"; "downloads/7/Movie.EN.mkv"]) ≠ 0 /\
  handle Fixture.limit failing_tools (ButtonPressed 7 "extract_tracks") σ =
  (<[7 := with_operation sess "extract_tracks"]> σ,
   [reply_text ("📥 Downloading " +:+ "Movie.EN.mkv" +:+ "..." +:+ nl +:+
                "Progress: 0%" +:+ nl +:+ "Speed: 0 MB/s") None;
    edit_text "done" None;
    answer "An error occurred. Please try again."],
   inr tt).
Proof.
  intros m f sess σ.
  assert (σ !! 7 = Some sess) as Hsession by (vm_compute; reflexivity).
  assert (returncode (exec failing_tools ["mkvinfo"; "downloads/7/Movie.EN.mkv"]) ≠ 0)
    as Hexit by discriminate.
  split; [exact Hsession |]. split; [exact Hexit |].
  apply (failed_probe_keeps_operation Fixture.limit failing_tools σ 7 sess f "Movie.EN.mkv"
           "downloads/7/Movie.EN.mkv" "done" Hsession).
  - reflexivity.
  - reflexivity.
  - reflexivity.
  - discriminate.
  - vm_compute. reflexivity.
  - exact Hexit.
Defined.

(** ** Classification *)

Lemma lookup_type_Some (table : list (string * list string)) (file_ext typ : string) :
  lookup_type table file_ext = Some typ ->
  exists exts, (typ, exts) ∈ table /\ file_ext ∈ exts.
Proof.
  induction table as [|[typ0 exts0] rest IH]; simpl; [discriminate |].
  unfold Py.in_list. case_bool_decide as Hin.
  - intros [= <-]. exists exts0. split; [left | done].
  - intros Hrest. destruct (IH Hrest) as (exts & Htab & Hext).
    exists exts. split; [by right | done].
Qed.

Lemma lookup_type_None (table : list (string * list string)) (file_ext : string) :
  lookup_type table file_ext = None <->
  forall typ exts, (typ, exts) ∈ table -> file_ext ∉ exts.
Proof.
  induction table as [|[typ0 exts0] rest IH]; simpl.
  - split; [|done]. intros _ typ exts Hin. inversion Hin.
  - unfold Py.in_list. case_bool_decide as Hin.
    + split; [discriminate |]. intros Hall. exfalso.
      apply (Hall typ0 exts0); [left | done].
    + rewrite IH. split.
      * intros Hrest typ exts Htab. apply elem_of_cons in Htab as [[= -> ->] | Htab]; [done |].
        by apply (Hrest typ).
      * intros Hall typ exts Htab. apply (Hall typ). by right.
Qed.

(** X12: a file extension is given the type in whose list it stands, and no
    type when it stands in none: the three lists share no extension, so the
    order in which the table is scanned decides nothing. *)
Theorem file_type_is_list_membership (file_ext : string) :
  (forall typ,
     lookup_type SUPPORTED_EXTENSIONS file_ext = Some typ <->
     exists exts, (typ, exts) ∈ SUPPORTED_EXTENSIONS /\ file_ext ∈ exts) /\
  (lookup_type SUPPORTED_EXTENSIONS file_ext = None <->
   forall typ exts, (typ, exts) ∈ SUPPORTED_EXTENSIONS -> file_ext ∉ exts).
Proof.
  split; [|apply lookup_type_None].
  intros typ. split; [apply lookup_type_Some |].
  intros (exts & Htab & Hext). unfold SUPPORTED_EXTENSIONS in Htab.
  repeat (apply elem_of_cons in Htab as [[= -> ->] | Htab]); [.. | by inversion Htab];
    repeat (apply elem_of_cons in Hext as [-> | Hext]);
    try (by inversion Hext); vm_compute; reflexivity.
Qed.

(** ** The attribute values of the probe report *)

Lemma split_no_sep (sep : ascii) (s : string) :
  Py.contains (String sep "") s = false -> Py.split sep s = [s].
Proof.
  induction s as [|c s IH]; [done |].
  cbn [Py.contains Py.startswith Py.split].
  destruct (decide (sep = c)) as [->|Hne].
  - by destruct s.
  - destruct (decide (c = sep)) as [->|_]; [done |].
    simpl. intros Hs. by rewrite (IH Hs).
Qed.

Lemma split_at_sep (sep : ascii) (s rest : string) :
  Py.contains (String sep "") s = false ->
  Py.split sep (s +:+ String sep rest) = s :: Py.split sep rest.
Proof.
  induction s as [|c s IH].
  - intros _. change ("" +:+ String sep rest) with (String sep rest).
    cbn [Py.split]. by destruct (decide (sep = sep)).
  - cbn [Py.contains Py.startswith].
    change (String c s +:+ String sep rest) with (String c (s +:+ String sep rest)).
    cbn [Py.split].
    destruct (decide (sep = c)) as [->|Hne]; [by destruct s |].
    destruct (decide (c = sep)) as [->|_]; [done |]. simpl. intros Hs.
    by rewrite (IH Hs).
Qed.

(** X13: of a report line [key:value] only what stands between the first
    and the second colon is taken as the value: a value that itself holds a
    colon is cut there, and a line that ends at its colon gives the empty
    value. *)
Theorem attribute_value_ends_at_colon (key value rest : string)
    (Hkey : Py.contains ":" key = false)
    (Hvalue : Py.contains ":" value = false) :
  after_colon (key +:+ ":" +:+ value) = value /\
  after_colon (key +:+ ":" +:+ value +:+ ":" +:+ rest) = value /\
  after_colon (key +:+ ":") = "".
Proof.
  unfold after_colon.
  assert (forall x, ":" +:+ x = String ":"%char x) as Hcolon by done.
  rewrite !Hcolon.
  split; [|split].
  - rewrite (split_at_sep _ _ _ Hkey). simpl. by rewrite (split_no_sep _ _ Hvalue).
  - rewrite (split_at_sep _ _ _ Hkey). simpl.
    by rewrite (split_at_sep _ _ _ Hvalue).
  - by rewrite (split_at_sep _ _ _ Hkey).
Qed.

Lemma attribute_value_fixture :
  Py.contains ":" "+ Codec ID" = false /\
  Py.contains ":" " A_AAC/MPEG4" = false /\
  after_colon ("+ Codec ID" +:+ ":" +:+ " A_AAC/MPEG4" +:+ ":" +:+ "LC") = " A_AAC/MPEG4".
Proof.
  assert (Py.contains ":" "+ Codec ID" = false) as Hkey by (vm_compute; reflexivity).
  assert (Py.contains ":" " A_AAC/MPEG4" = false) as Hvalue by (vm_compute; reflexivity).
  split; [exact Hkey |]. split; [exact Hvalue |].
  exact (proj1 (proj2 (attribute_value_ends_at_colon "+ Codec ID" " A_AAC/MPEG4" "LC"
                         Hkey Hvalue))).
Defined.

(** ** Progress *)

(** A call where the clock can be read. *)
Lemma progress_cases (start_time now : Q) (vars : progress_vars) (current total : Z) :
  (Qle_bool 1 (now - last_update vars) = true ->
   (snd (progress start_time now vars current total) = ZeroDivisionError <->
    total = 0 \/ (now - start_time == 0)%Q)) /\
  (Qle_bool 1 (now - last_update vars) = false ->
   progress start_time now vars current total =
   ({| last_update := last_update vars; downloaded := current |}, Silent)) /\
  downloaded (fst (progress start_time now vars current total)) = current.
Proof.
  unfold progress, py_div.
  split; [|split].
  - intros ->.
    destruct (Qeq_bool (now - start_time) 0) eqn:Hclock.
    + simpl. split; [|done]. intros _. right. by apply Qeq_bool_iff.
    + assert (¬ (now - start_time == 0)%Q) as Hne.
      { intros Heq. apply Qeq_bool_iff in Heq. congruence. }
      destruct (Qeq_bool (inject_Z total) 0) eqn:Htotal; simpl.
      * split; [|done]. intros _. left.
        apply Qeq_bool_iff in Htotal. unfold Qeq in Htotal. simpl in Htotal. lia.
      * split; [discriminate |]. intros [-> | Heq]; [|done].
        by vm_compute in Htotal.
  - by intros ->.
  - destruct (Qle_bool 1 (now - last_update vars)); [|done].
    destruct (Qeq_bool (now - start_time) 0); [done |].
    by destruct (Qeq_bool (inject_Z total) 0).
Qed.

(** X14: a call of the progress closure records [current] as [downloaded]
    and then asks for the event loop.  In a thread without one it raises
    [RuntimeError], whatever its arguments.  Otherwise a call that is due (a
    second or more after the last update) raises [ZeroDivisionError]
    exactly when the total is zero or the clock still reads the start time,
    and a call that is not due returns without an update and keeps
    [last_update]. *)
Theorem progress_raises_iff (start_time : Q) (clock : loop_clock) (vars : progress_vars)
    (current total : Z) :
  let call := progress_call start_time clock vars current total in
  (clock = no_event_loop ->
   call = ({| last_update := last_update vars; downloaded := current |}, RuntimeError)) /\
  (forall now, clock = reads now ->
     (Qle_bool 1 (now - last_update vars) = true ->
      (snd call = ran ZeroDivisionError <-> total = 0 \/ (now - start_time == 0)%Q)) /\
     (Qle_bool 1 (now - last_update vars) = false ->
      call = ({| last_update := last_update vars; downloaded := current |}, ran Silent))) /\
  downloaded (fst call) = current.
Proof.
  intros call. unfold call. clear call. split; [by intros -> |]. split.
  - intros now ->. unfold progress_call.
    destruct (progress_cases start_time now vars current total) as (Hdue & Hearly & _).
    destruct (progress start_time now vars current total) as [vars' o]. simpl in *.
    split.
    + intros Hle. rewrite <- (Hdue Hle). split; [by intros [= ->] | by intros ->].
    + intros Hle. by pose proof (Hearly Hle) as [= -> ->].
  - destruct clock as [|now]; [done |]. unfold progress_call.
    destruct (progress_cases start_time now vars current total) as (_ & _ & Hdown).
    by destruct (progress start_time now vars current total) as [vars' o].
Qed.

(** The first call of a download, where the closure runs without an event
    loop and where it runs on the loop that has not advanced. *)
Lemma progress_raises_fixture :
  progress_call 10 no_event_loop progress_init 4096 8192 =
    ({| last_update := 0; downloaded := 4096 |}, RuntimeError) /\
  Qle_bool 1 (10 - last_update progress_init) = true /\
  (snd (progress_call 10 (reads 10) progress_init 4096 8192) = ran ZeroDivisionError <->
   8192 = 0 \/ (10 - 10 == 0)%Q).
Proof.
  assert (Qle_bool 1 (10 - last_update progress_init) = true) as Hdue
    by (vm_compute; reflexivity).
  split;
    [exact (proj1 (progress_raises_iff 10 no_event_loop progress_init 4096 8192) eq_refl) |].
  split; [exact Hdue |].
  destruct (progress_raises_iff 10 (reads 10) progress_init 4096 8192) as (_ & Hreads & _).
  exact (proj1 (Hreads 10%Q eq_refl) Hdue).
Defined.

(** ** What the extract tool writes and what is looked for *)

Lemma append_inv_head (a b1 b2 : string) : a +:+ b1 = a +:+ b2 -> b1 = b2.
Proof.
  induction a as [|c a IH]; [done |].
  change (String c a +:+ b1) with (String c (a +:+ b1)).
  change (String c a +:+ b2) with (String c (a +:+ b2)).
  intros [= Heq]. by apply IH.
Qed.

Lemma os_path_join_inj (a b1 b2 : string) :
  Py.startswith b1 "/" = false -> Py.startswith b2 "/" = false ->
  os_path_join a b1 = os_path_join a b2 -> b1 = b2.
Proof.
  unfold os_path_join. intros -> ->.
  destruct (negb (Py.truthy a) || Py.endswith a "/").
  - apply append_inv_head.
  - intros Heq. apply append_inv_head in Heq. by apply (append_inv_head "/").
Qed.

Lemma rfind_found (c : ascii) (a b : string) : 0 <= Py.rfind c (a +:+ String c b).
Proof.
  induction a as [|x a IH].
  - change ("" +:+ String c b) with (String c b). cbn [Py.rfind].
    destruct (0 <=? Py.rfind c b) eqn:Hr; [apply Z.leb_le in Hr; lia |].
    by destruct (decide (c = c)).
  - change (String x a +:+ String c b) with (String x (a +:+ String c b)).
    cbn [Py.rfind]. apply Z.leb_le in IH as Hr. rewrite Hr. lia.
Qed.

Lemma digits_no_dot (d : Decimal.uint) :
  Py.rfind "." (NilEmpty.string_of_uint d) = -1.
Proof. induction d; cbn [NilEmpty.string_of_uint Py.rfind]; rewrite ?IHd; reflexivity. Qed.

Lemma str_no_dot (z : Z) : Py.rfind "." (str z) = -1.
Proof.
  unfold str, NilZero.string_of_int, NilZero.string_of_uint.
  destruct (Z.to_int z) as [d|d]; destruct d;
    try reflexivity; cbn [Py.rfind]; rewrite ?digits_no_dot;
    cbn [NilEmpty.string_of_uint Py.rfind]; rewrite ?digits_no_dot; reflexivity.
Qed.

Lemma candidate_is_not_named (output_dir : string) (track_id track_id' : Z) (ext : string) :
  ext ∈ extract_exts ->
  track_output output_dir track_id ext ≠ named_output output_dir track_id'.
Proof.
  intros Hext Heq. unfold track_output, named_output in Heq.
  apply os_path_join_inj in Heq; [| reflexivity | reflexivity].
  apply (append_inv_head "track_") in Heq.
  pose proof (str_no_dot track_id') as Hdot. rewrite <- Heq in Hdot.
  assert (exists e, ext = String "."%char e) as [e ->].
  { unfold extract_exts in Hext.
    repeat (apply elem_of_cons in Hext as [-> | Hext]); try (by eexists).
    by inversion Hext. }
  pose proof (rfind_found "." (str track_id) e). lia.
Qed.

(** X15: the extract tool is told to write [<dir>/track_<id>], while the
    files looked for afterwards are [<dir>/track_<id>] with one of five
    extensions, and no such name is one the tool was given.  So when the
    tool exits zero and only files it was told to write exist, the result
    is the empty list. *)
Theorem named_outputs_are_never_found (w : world) (file_path : string) (track_ids : list Z)
    (output_dir : string) (s : gmap Z session)
    (Hexit : returncode (exec w (extract_command file_path track_ids output_dir)) = 0)
    (Honly : forall p, path_exists w p = true ->
                       p ∈ List.map (named_output output_dir) track_ids) :
  extract_command file_path track_ids output_dir =
    ["mkvextract"; file_path; "tracks"] ++
    List.map (fun track_id => str track_id +:+ ":" +:+ named_output output_dir track_id)
             track_ids /\
  extract_tracks w file_path track_ids output_dir s = (s, [], inr []).
Proof.
  split; [done |].
  assert (forall track_id, chosen_output w output_dir track_id = None) as Hnone.
  { intros track_id. unfold chosen_output.
    destruct (List.find _ _) as [p|] eqn:Hfind; [exfalso | done].
    apply List.find_some in Hfind as [Hin Hexists].
    apply List.in_map_iff in Hin as (ext & <- & Hext).
    apply list_elem_of_In in Hext.
    specialize (Honly _ Hexists). apply list_elem_of_fmap in Honly as (track_id' & Heq & _).
    by apply (candidate_is_not_named _ _ _ _ Hext) in Heq. }
  assert (forall ids : list Z, omap (chosen_output w output_dir) ids = []) as Hall.
  { induction ids as [|track_id ids IH]; [done |].
    cbn [omap list_omap]. by rewrite Hnone. }
  unfold extract_tracks. rewrite Hexit. simpl.
  by rewrite collect_outputs_acc, Hall.
Qed.

(** Both tracks were written, under the names the command gave them. *)
Lemma named_outputs_fixture :
  returncode (exec written_as_named (extract_command "in.mkv" [1; 2] "out")) = 0 /\
  (forall p, path_exists written_as_named p = true ->
             p ∈ List.map (named_output "out") [1; 2]) /\
  extract_tracks written_as_named "in.mkv" [1; 2] "out" ∅ = (∅, [], inr []).
Proof.
  assert (returncode (exec written_as_named (extract_command "in.mkv" [1; 2] "out")) = 0)
    as Hexit by reflexivity.
  assert (forall p, path_exists written_as_named p = true ->
                    p ∈ List.map (named_output "out") [1; 2]) as Honly.
  { intros p Hp. apply bool_decide_eq_true_1 in Hp.
    assert (List.map (named_output "out") [1; 2] = ["out/track_1"; "out/track_2"]) as ->
      by (vm_compute; reflexivity).
    exact Hp. }
  split; [exact Hexit |]. split; [exact Honly |].
  exact (proj2 (named_outputs_are_never_found written_as_named "in.mkv" [1; 2] "out" ∅
                  Hexit Honly)).
Defined.

(** ** Letter case *)

Lemma lower_char_dot (c : ascii) : Py.lower_char c = "."%char <-> c = "."%char.
Proof.
  destruct c as [[] [] [] [] [] [] [] []]; split; intros H;
    vm_compute in H |- *; try discriminate H; reflexivity.
Qed.

Lemma lower_char_slash (c : ascii) : Py.lower_char c = "/"%char <-> c = "/"%char.
Proof.
  destruct c as [[] [] [] [] [] [] [] []]; split; intros H;
    vm_compute in H |- *; try discriminate H; reflexivity.
Qed.

Lemma lower_char_idem (c : ascii) : Py.lower_char (Py.lower_char c) = Py.lower_char c.
Proof. destruct c as [[] [] [] [] [] [] [] []]; vm_compute; reflexivity. Qed.

Lemma lower_idem (s : string) : Py.lower (Py.lower s) = Py.lower s.
Proof. induction s as [|c s IH]; [done |]. simpl. by rewrite lower_char_idem, IH. Qed.

Section Separator.

Variable sep : ascii.
Hypothesis Hsep : forall c, Py.lower_char c = sep <-> c = sep.

Lemma split_lower (s : string) :
  Py.split sep (Py.lower s) = List.map Py.lower (Py.split sep s).
Proof.
  induction s as [|c s IH]; [done |].
  cbn [Py.lower Py.split].
  destruct (decide (c = sep)) as [Hc|Hc];
    destruct (decide (Py.lower_char c = sep)) as [Hl|Hl].
  - by rewrite IH.
  - destruct Hl. by apply Hsep.
  - destruct Hc. by apply Hsep.
  - rewrite IH. by destruct (Py.split sep s).
Qed.

Lemma rfind_lower (s : string) : Py.rfind sep (Py.lower s) = Py.rfind sep s.
Proof.
  induction s as [|c s IH]; [done |].
  cbn [Py.lower Py.rfind]. rewrite IH.
  destruct (0 <=? Py.rfind sep s); [done |].
  destruct (decide (c = sep)) as [Hc|Hc];
    destruct (decide (Py.lower_char c = sep)) as [Hl|Hl]; try done.
  - destruct Hl. by apply Hsep.
  - destruct Hc. by apply Hsep.
Qed.

End Separator.

Lemma len_lower (s : string) : Py.len (Py.lower s) = Py.len s.
Proof. induction s as [|c s IH]; [done |]. cbn [Py.lower Py.len]. by rewrite IH. Qed.

Lemma drop_lower (n : nat) (s : string) : Py.drop n (Py.lower s) = Py.lower (Py.drop n s).
Proof. revert s. induction n as [|n IH]; intros [|c s]; try done. apply IH. Qed.

Lemma take_lower (n : nat) (s : string) : Py.take n (Py.lower s) = Py.lower (Py.take n s).
Proof.
  revert s. induction n as [|n IH]; intros [|c s]; try done.
  cbn [Py.lower Py.take]. by rewrite IH.
Qed.

Lemma lower_is_empty (s : string) : Py.lower s = "" <-> s = "".
Proof. by destruct s. Qed.

Lemma lower_is_dot (s : string) : Py.lower s = "." <-> s = ".".
Proof.
  destruct s as [|c [|c' s]]; simpl.
  - split; intros [=].
  - split.
    + intros [= Hc]. apply (proj1 (lower_char_dot c)) in Hc. by rewrite Hc.
    + intros [= ->]. reflexivity.
  - split; intros [=].
Qed.

Lemma filter_lower (l : list string) :
  List.filter (fun x => negb (bool_decide (x = "")) && negb (bool_decide (x = ".")))
              (List.map Py.lower l) =
  List.map Py.lower
    (List.filter (fun x => negb (bool_decide (x = "")) && negb (bool_decide (x = "."))) l).
Proof.
  induction l as [|x l IH]; [done |].
  cbn [List.map List.filter].
  assert (bool_decide (Py.lower x = "") = bool_decide (x = "")) as ->
    by (apply bool_decide_ext, lower_is_empty).
  assert (bool_decide (Py.lower x = ".") = bool_decide (x = ".")) as ->
    by (apply bool_decide_ext, lower_is_dot).
  destruct (negb (bool_decide (x = "")) && negb (bool_decide (x = ".")));
    cbn [List.map]; by rewrite IH.
Qed.

Lemma last_lower (l : list string) :
  List.last (List.map Py.lower l) "" = Py.lower (List.last l "").
Proof.
  induction l as [|x [|y l] IH]; [done | done |].
  exact IH.
Qed.

Lemma name_lower (p : string) : PathLib.name (Py.lower p) = Py.lower (PathLib.name p).
Proof.
  unfold PathLib.name.
  by rewrite (split_lower _ lower_char_slash), filter_lower, last_lower.
Qed.

Lemma suffix_lower (p : string) : PathLib.suffix (Py.lower p) = Py.lower (PathLib.suffix p).
Proof.
  unfold PathLib.suffix. cbv zeta.
  rewrite name_lower, (rfind_lower _ lower_char_dot), len_lower.
  destruct (_ && _); [apply drop_lower | done].
Qed.

Lemma stem_lower (p : string) : PathLib.stem (Py.lower p) = Py.lower (PathLib.stem p).
Proof.
  unfold PathLib.stem. cbv zeta.
  rewrite name_lower, (rfind_lower _ lower_char_dot), len_lower.
  destruct (_ && _); [apply take_lower | done].
Qed.

(** X16: the type and the language given to a file do not depend on the
    case of the ASCII letters of its name: the extension looked up and the
    language detected for a name are those of the lower-cased name. *)
Theorem staging_ignores_case (name : string) :
  Py.lower (PathLib.suffix name) = PathLib.suffix (Py.lower name) /\
  lookup_type SUPPORTED_EXTENSIONS (Py.lower (PathLib.suffix (Py.lower name))) =
    lookup_type SUPPORTED_EXTENSIONS (Py.lower (PathLib.suffix name)) /\
  detect_language (Py.lower name) = detect_language name.
Proof.
  split; [by rewrite suffix_lower |]. split.
  - by rewrite suffix_lower, lower_idem.
  - unfold detect_language, language_parts. by rewrite lower_idem.
Qed.

(** * The handlers when calls raise *)

Lemma raising_handle_returning MAX w e (σ : gmap Z session) :
  Raising.handle MAX (returning w) e σ = handle MAX w e σ.
Proof. reflexivity. Qed.

Lemma raising_tools_returning w :
  Raising.get_mkv_tracks (returning w) = get_mkv_tracks w /\
  Raising.extract_tracks (returning w) = extract_tracks w /\
  Raising.mux_files (returning w) = mux_files w.
Proof. done. Qed.

Lemma raising_run_returning MAX (es : list (world * event)) (σ : gmap Z session) :
  Raising.run MAX (List.map (fun we => (returning we.1, we.2)) es) σ = run MAX es σ.
Proof.
  revert σ. induction es as [|[w e] es IH]; intros σ; [done |]. exact (IH _).
Qed.

Lemma raising_readonly_send E e : readonly (Raising.send E e).
Proof. intros s. unfold Raising.send. by destruct (transport E e). Qed.

Lemma readonly_session_of uid : readonly (session_of uid).
Proof.
  intros s. unfold session_of, user_sessions. unfold mbind, M_bind, bind.
  by destruct (s !! uid).
Qed.

Lemma raising_readonly_show_action_buttons E uid :
  readonly (Raising.show_action_buttons E uid).
Proof.
  unfold Raising.show_action_buttons.
  apply readonly_bind; [apply readonly_session_of | intros; apply raising_readonly_send].
Qed.

Lemma raising_readonly_show_added_files E uid : readonly (Raising.show_added_files E uid).
Proof.
  unfold Raising.show_added_files.
  apply readonly_bind; [apply readonly_session_of | intros; apply raising_readonly_send].
Qed.

Lemma raising_readonly_download_file E message : readonly (Raising.download_file E message).
Proof.
  unfold Raising.download_file.
  destruct (message_file_name message) as [[|c name]|]; try apply readonly_raise.
  destruct (makedirs E _); [apply readonly_raise |].
  apply readonly_bind; [apply raising_readonly_send |]. intros _.
  destruct (Telegram.document message), (Telegram.video message), (Telegram.audio message);
    try apply readonly_raise;
    (destruct (fetch (tools E) message _) as [e|[file summary]]; [apply readonly_raise |];
     apply readonly_bind; [apply raising_readonly_send | intros; apply readonly_ret]).
Qed.

Lemma raising_readonly_get_mkv_tracks E file_path :
  readonly (Raising.get_mkv_tracks E file_path).
Proof.
  unfold Raising.get_mkv_tracks.
  destruct (spawn E _); [apply readonly_raise | apply readonly_get_mkv_tracks].
Qed.

Lemma raising_handle_extract_tracks_store E uid (σ : gmap Z session) (sess : session) :
  σ !! uid = Some sess ->
  (Raising.handle_extract_tracks E uid σ).1.1 =
  match files sess with
  | [f] => if bool_decide (file_type f = "video")
           then <[uid := with_operation sess "extract_tracks"]> σ else σ
  | _ => σ
  end.
Proof.
  intros Hs. unfold Raising.handle_extract_tracks.
  rewrite bind_store, (session_of_run _ _ _ Hs). cbn [fst snd].
  destruct (files sess) as [|f [|f' fs]] eqn:Hfiles;
    [apply raising_readonly_send | | apply raising_readonly_send].
  destruct (decide (file_type f = "video")) as [Hty|Hty].
  - rewrite (bool_decide_eq_false_2 (file_type f ≠ "video")) by (intros H; by apply H).
    rewrite (bool_decide_eq_true_2 _ Hty).
    rewrite bind_store, (set_current_operation_run _ _ _ _ Hs). cbn [fst snd].
    apply readonly_bind; [apply raising_readonly_download_file |]. intros file_path.
    apply readonly_bind; [apply raising_readonly_get_mkv_tracks |]. intros tracks.
    apply readonly_bind; [apply readonly_track_buttons |]. intros buttons.
    apply raising_readonly_send.
  - rewrite (bool_decide_eq_true_2 (file_type f ≠ "video")) by done.
    rewrite (bool_decide_eq_false_2 _ Hty). apply raising_readonly_send.
Qed.

Lemma raising_handle_mux_files_store E uid (σ : gmap Z session) (sess : session) :
  σ !! uid = Some sess ->
  (Raising.handle_mux_files E uid σ).1.1 =
  if bool_decide (length (files sess) < 2)%nat then σ
  else <[uid := with_operation sess "mux_files"]> σ.
Proof.
  intros Hs. unfold Raising.handle_mux_files.
  rewrite bind_store, (session_of_run _ _ _ Hs). cbn [fst snd].
  case_bool_decide; [apply raising_readonly_send |].
  rewrite bind_store, (set_current_operation_run _ _ _ _ Hs). cbn [fst snd].
  apply raising_readonly_send.
Qed.

Lemma raising_handle_merge_files_store E uid (σ : gmap Z session) (sess : session) :
  σ !! uid = Some sess ->
  (Raising.handle_merge_files E uid σ).1.1 =
  if bool_decide (length (files sess) < 2)%nat then σ
  else <[uid := with_operation sess "merge_files"]> σ.
Proof.
  intros Hs. unfold Raising.handle_merge_files.
  rewrite bind_store, (session_of_run _ _ _ Hs). cbn [fst snd].
  case_bool_decide; [apply raising_readonly_send |].
  rewrite bind_store, (set_current_operation_run _ _ _ _ Hs). cbn [fst snd].
  apply raising_readonly_send.
Qed.

Lemma raising_handle_edit_metadata_store E uid (σ : gmap Z session) (sess : session) :
  σ !! uid = Some sess ->
  (Raising.handle_edit_metadata E uid σ).1.1 =
  match files sess with
  | [f] => if bool_decide (file_type f = "video")
           then <[uid := with_operation sess "edit_metadata"]> σ else σ
  | _ => σ
  end.
Proof.
  intros Hs. unfold Raising.handle_edit_metadata.
  rewrite bind_store, (session_of_run _ _ _ Hs). cbn [fst snd].
  destruct (files sess) as [|f [|f' fs]] eqn:Hfiles;
    [apply raising_readonly_send | | apply raising_readonly_send].
  destruct (decide (file_type f = "video")) as [Hty|Hty].
  - rewrite (bool_decide_eq_false_2 (file_type f ≠ "video")) by (intros H; by apply H).
    rewrite (bool_decide_eq_true_2 _ Hty).
    rewrite bind_store, (set_current_operation_run _ _ _ _ Hs). cbn [fst snd].
    apply raising_readonly_send.
  - rewrite (bool_decide_eq_true_2 (file_type f ≠ "video")) by done.
    rewrite (bool_decide_eq_false_2 _ Hty). apply raising_readonly_send.
Qed.

Lemma raising_remove_last_file_store E uid (σ : gmap Z session) (sess : session) kept last :
  σ !! uid = Some sess ->
  files sess = kept ++ [last] ->
  (Raising.remove_last_file E uid σ).1.1 =
  match transport E (answer ("Removed: " +:+ file_name last)), kept with
  | None, [] => delete uid σ
  | _, _ => <[uid := with_files sess kept]> σ
  end.
Proof.
  intros Hs Hfiles. unfold Raising.remove_last_file.
  rewrite bind_store, (session_of_run _ _ _ Hs). cbn [fst snd].
  rewrite Hfiles, rev_app_distr. cbn [List.rev List.app].
  rewrite rev_involutive.
  rewrite bind_store. cbn [user_sessions fst snd].
  rewrite bind_store. cbn [set_user_sessions fst snd].
  fold (with_files sess kept).
  rewrite bind_store, raising_readonly_send. unfold Raising.send at 1.
  destruct (transport E (answer ("Removed: " +:+ file_name last))) as [e|]; cbn [fst snd].
  - by destruct kept.
  - destruct kept as [|k kept'].
    + rewrite bind_store, (del_session_run _ _ _ (lookup_insert_eq _ _ _)). cbn [fst snd].
      rewrite raising_readonly_send. by rewrite delete_insert_eq.
    + apply raising_readonly_show_action_buttons.
Qed.

Lemma raising_remove_last_file_none E uid (σ : gmap Z session) (sess : session) :
  σ !! uid = Some sess ->
  files sess = [] ->
  (Raising.remove_last_file E uid σ).1.1 = σ.
Proof.
  intros Hs Hfiles. unfold Raising.remove_last_file.
  rewrite bind_store, (session_of_run _ _ _ Hs). cbn [fst snd].
  rewrite Hfiles. apply raising_readonly_send.
Qed.

Lemma too_large_quiet MAX message (σ : gmap Z session) :
  (too_large MAX message σ).1 = (σ, []).
Proof.
  unfold too_large.
  destruct (Telegram.document message) as [d|]; [destruct (Telegram.file_size d) |]; done.
Qed.

Lemma raising_handle_file_input_cases MAX E message (σ : gmap Z session) :
  (Raising.handle_file_input MAX E message σ).1.1 = σ \/
  exists name type,
    message_file_name message = Some name /\ name ≠ "" /\
    lookup_type SUPPORTED_EXTENSIONS (Py.lower (PathLib.suffix name)) = Some type /\
    (Raising.handle_file_input MAX E message σ).1.1 =
    <[Telegram.from_user message :=
        with_files (default new_session (σ !! Telegram.from_user message))
          (files (default new_session (σ !! Telegram.from_user message)) ++
           [stage message name type])]> σ.
Proof.
  unfold Raising.handle_file_input. rewrite bind_store.
  pose proof (too_large_quiet MAX message σ) as Hq.
  destruct (too_large MAX message σ) as [[s1 out1] r]. simpl in Hq. inversion Hq; subst.
  cbn [fst snd]. destruct r as [e|[]]; [by left | left; apply raising_readonly_send |].
  destruct (message_file_name message) as [[|c name]|] eqn:Hname;
    [left; apply raising_readonly_send | | left; apply raising_readonly_send].
  destruct (lookup_type SUPPORTED_EXTENSIONS (Py.lower (PathLib.suffix (String c name))))
    as [type|] eqn:Htype; [| left; apply raising_readonly_send].
  right. exists (String c name), type. split; [done |]. split; [done |]. split; [done |].
  rewrite bind_store. cbn [user_sessions fst snd].
  rewrite bind_store. cbn [set_user_sessions fst snd].
  by rewrite raising_readonly_show_action_buttons.
Qed.

Lemma raising_dispatch_step E uid data (σ : gmap Z session) (sess : session) :
  σ !! uid = Some sess ->
  store_step uid σ (Raising.dispatch E uid data σ).1.1 \/
  emptied E uid σ (Raising.dispatch E uid data σ).1.1.
Proof.
  intros Hs. unfold Raising.dispatch.
  repeat case_bool_decide.
  - left. rewrite (raising_handle_extract_tracks_store _ _ _ _ Hs).
    destruct (files sess) as [|f [|f' fs]] eqn:Hfiles; try constructor.
    case_bool_decide; [|constructor].
    apply step_operation; [done | by rewrite Hfiles | set_solver].
  - left. rewrite (raising_handle_mux_files_store _ _ _ _ Hs).
    case_bool_decide; [constructor |].
    apply step_operation; [done | | set_solver].
    intros Hnil. rewrite Hnil in *. simpl in *. lia.
  - left. rewrite (raising_handle_merge_files_store _ _ _ _ Hs).
    case_bool_decide; [constructor |].
    apply step_operation; [done | | set_solver].
    intros Hnil. rewrite Hnil in *. simpl in *. lia.
  - left. rewrite (raising_handle_edit_metadata_store _ _ _ _ Hs).
    destruct (files sess) as [|f [|f' fs]] eqn:Hfiles; try constructor.
    case_bool_decide; [|constructor].
    apply step_operation; [done | by rewrite Hfiles | set_solver].
  - left. rewrite raising_readonly_send. constructor.
  - left. rewrite raising_readonly_show_added_files. constructor.
  - destruct (files sess) as [|f0 fs0] eqn:Hfiles using rev_ind.
    + left. rewrite (raising_remove_last_file_none _ _ _ _ Hs Hfiles). constructor.
    + rewrite (raising_remove_last_file_store _ _ _ _ _ _ Hs Hfiles).
      destruct (transport E (answer ("Removed: " +:+ file_name f0))) as [e|] eqn:Hsend.
      * destruct fs0 as [|k fs0].
        -- right. exists sess, f0. rewrite Hsend. by eauto.
        -- left. by apply (step_removed _ _ _ _ f0).
      * left. destruct fs0 as [|k fs0]; [constructor |].
        by apply (step_removed _ _ _ _ f0).
  - left. rewrite bind_store, (del_session_run _ _ _ Hs). cbn [fst snd].
    rewrite raising_readonly_send. constructor.
  - left. rewrite raising_readonly_send. constructor.
Qed.

Lemma raising_handle_callback_query_store E uid data (σ : gmap Z session) :
  (Raising.handle_callback_query E uid data σ).1.1 =
  match σ !! uid with
  | Some _ => (Raising.dispatch E uid data σ).1.1
  | None => σ
  end.
Proof.
  unfold Raising.handle_callback_query.
  rewrite try_except_store by (intros e; apply raising_readonly_send).
  rewrite bind_store. cbn [user_sessions fst snd].
  destruct (σ !! uid); [done | apply raising_readonly_send].
Qed.

Lemma raising_handle_step MAX E e (σ : gmap Z session) :
  store_step (event_user e) σ (Raising.after MAX E e σ) \/
  emptied E (event_user e) σ (Raising.after MAX E e σ).
Proof.
  unfold Raising.after, Raising.handle.
  destruct e as [message | uid command | uid data]; simpl.
  - left. destruct (raising_handle_file_input_cases MAX E message σ)
      as [-> | (name & type & Hname & Hne & Htype & ->)]; [constructor |].
    by apply step_staged.
  - left. repeat case_bool_decide.
    + unfold Raising.handle_start. rewrite raising_readonly_send. constructor.
    + unfold Raising.handle_cancel. rewrite bind_store. cbn [user_sessions fst snd].
      destruct (σ !! uid) as [sess|] eqn:Hs.
      * rewrite bind_store, (del_session_run _ _ _ Hs). cbn [fst snd].
        rewrite raising_readonly_send. constructor.
      * rewrite raising_readonly_send. constructor.
    + unfold Raising.handle_reset. rewrite bind_store. cbn [user_sessions fst snd].
      destruct (σ !! uid) as [sess|] eqn:Hs.
      * rewrite bind_store, (del_session_run _ _ _ Hs). cbn [fst snd].
        rewrite raising_readonly_send. constructor.
      * rewrite raising_readonly_send. constructor.
    + constructor.
  - rewrite raising_handle_callback_query_store.
    destruct (σ !! uid) as [sess|] eqn:Hs; [| left; constructor].
    by apply (raising_dispatch_step _ _ _ _ sess).
Qed.

Lemma emptied_frame E uid uid' (σ σ' : gmap Z session) :
  emptied E uid σ σ' -> uid' ≠ uid -> σ' !! uid' = σ !! uid'.
Proof.
  intros (sess & last & _ & _ & _ & ->) Hne. by rewrite lookup_insert_ne.
Qed.

Lemma store_step_shape uid (σ σ' : gmap Z session) :
  store_step uid σ σ' -> store_shape σ -> store_shape σ'.
Proof.
  intros Hstep Hwf uid' sess' Hlook.
  destruct (decide (uid' = uid)) as [->|Hne].
  2: { rewrite (store_step_frame _ _ _ _ Hstep Hne) in Hlook. by apply Hwf. }
  destruct Hstep as
    [ | | sess op Hs Hfiles Hop | sess kept last Hs Hfiles Hkept
      | message name type Huser Hname Hne Htype ].
  - by apply Hwf.
  - by rewrite lookup_delete_eq in Hlook.
  - rewrite lookup_insert_eq in Hlook. inversion Hlook; subst.
    destruct (Hwf _ _ Hs) as (? & ? & ?).
    repeat split; try done. simpl. by intros ? [= <-].
  - rewrite lookup_insert_eq in Hlook. inversion Hlook; subst.
    destruct (Hwf _ _ Hs) as (Hall & ? & ?).
    repeat split; try done. simpl. rewrite Hfiles in Hall.
    by apply Forall_app in Hall as [? _].
  - rewrite lookup_insert_eq in Hlook. inversion Hlook; subst.
    assert (staged_ok (Telegram.from_user message) (stage message name type)) as Hnew
      by done.
    destruct (σ !! Telegram.from_user message) as [sess|] eqn:Hs.
    + destruct (Hwf _ _ Hs) as (Hall & ? & ?).
      repeat split; try done; simpl.
      apply Forall_app. split; [done |]. by repeat constructor.
    + simpl. repeat split; try done. by repeat constructor.
Qed.

Lemma emptied_shape E uid (σ σ' : gmap Z session) :
  emptied E uid σ σ' -> store_shape σ -> store_shape σ'.
Proof.
  intros (sess & last & Hs & Hfiles & _ & ->) Hwf uid' sess' Hlook.
  destruct (decide (uid' = uid)) as [->|Hne].
  - rewrite lookup_insert_eq in Hlook. inversion Hlook; subst.
    destruct (Hwf _ _ Hs) as (_ & ? & ?). by repeat split.
  - rewrite lookup_insert_ne in Hlook by done. by apply Hwf.
Qed.

Lemma raising_run_shape MAX es : store_shape (Raising.run MAX es ∅).
Proof.
  assert (forall σ : gmap Z session, store_shape σ -> store_shape (Raising.run MAX es σ))
    as Hrun.
  { induction es as [|[E e] es IH]; intros σ Hwf; [done |].
    apply IH. destruct (raising_handle_step MAX E e σ) as [Hstep | Hstep].
    - exact (store_step_shape _ _ _ Hstep Hwf).
    - exact (emptied_shape _ _ _ _ Hstep Hwf). }
  apply Hrun. intros uid sess Hlook. by rewrite lookup_empty in Hlook.
Qed.

Lemma raising_run_wf MAX (es : list (env * event)) :
  Forall (fun ee => removals_answered ee.1) es -> store_wf (Raising.run MAX es ∅).
Proof.
  assert (forall σ : gmap Z session,
            Forall (fun ee => removals_answered ee.1) es ->
            store_wf σ -> store_wf (Raising.run MAX es σ)) as Hrun.
  { induction es as [|[E e] es IH]; intros σ Hall Hwf; [done |].
    apply Forall_cons in Hall as [Hanswered Hall].
    apply IH; [done |].
    destruct (raising_handle_step MAX E e σ) as [Hstep | Hstep].
    - exact (store_step_wf _ _ _ Hstep Hwf).
    - destruct Hstep as (sess & last & _ & _ & [x Hx] & _).
      simpl in Hanswered. by rewrite Hanswered in Hx. }
  intros Hall. apply Hrun; [done |].
  intros uid sess Hlook. by rewrite lookup_empty in Hlook.
Qed.

Lemma raising_run_snoc MAX (es : list (env * event)) E e (σ : gmap Z session) :
  Raising.run MAX (es ++ [(E, e)]) σ = Raising.after MAX E e (Raising.run MAX es σ).
Proof. unfold Raising.run. by rewrite List.fold_left_app. Qed.

Lemma raising_handle_callback_query_dispatch E uid data (σ : gmap Z session) (sess : session) :
  σ !! uid = Some sess ->
  Raising.handle_callback_query E uid data σ =
  try_except (Raising.dispatch E uid data)
             (fun _ => Raising.send E (answer "An error occurred. Please try again.")) σ.
Proof.
  intros Hs. unfold Raising.handle_callback_query, try_except.
  unfold user_sessions at 1. unfold mbind at 1, M_bind, bind.
  rewrite Hs.
  by destruct (Raising.dispatch E uid data σ) as [[s1 out1] r].
Qed.

Lemma raising_remove_last_file_raises E uid (σ : gmap Z session) (sess : session) kept last x :
  σ !! uid = Some sess ->
  files sess = kept ++ [last] ->
  transport E (answer ("Removed: " +:+ file_name last)) = Some x ->
  Raising.remove_last_file E uid σ = (<[uid := with_files sess kept]> σ, [], inl x).
Proof.
  intros Hs Hfiles Hx. unfold Raising.remove_last_file.
  rewrite (bind_inr _ _ _ _ _ _ (session_of_run _ _ _ Hs)).
  rewrite Hfiles, rev_app_distr. cbn [List.rev List.app].
  rewrite rev_involutive.
  unfold user_sessions at 1. unfold set_user_sessions.
  unfold mbind at 1 2, M_bind, bind. cbn [List.app].
  fold (with_files sess kept).
  unfold mbind at 1, M_bind, bind. unfold Raising.send at 1. by rewrite Hx.
Qed.

(** C1: the invariant fails in the program.  Let a session hold one file and
    a chosen operation, as it does after a video was staged and [Extract
    Tracks] pressed.  When [Remove Last File] is pressed and the [answer]
    that acknowledges the removal raises, the file has been popped already
    and the deletion of the session is never reached: the [except] clause
    of [handle_callback_query] swallows the exception, and the store is left
    with a session whose operation is set and whose file list is empty.
    The handler returns normally when its apology goes through. *)
Theorem failed_acknowledgement_empties_session MAX (es : list (env * event)) E uid
    (sess : session) last op x
    (Hsession : Raising.run MAX es ∅ !! uid = Some sess)
    (Hfiles : files sess = [last])
    (Hop : current_operation sess = Some op)
    (Hraise : transport E (answer ("Removed: " +:+ file_name last)) = Some x) :
  let σ := Raising.run MAX es ∅ in
  let σ' := Raising.run MAX (es ++ [(E, ButtonPressed uid "remove_last_file")]) ∅ in
  let apology := answer "An error occurred. Please try again." in
  σ' = <[uid := with_files sess []]> σ /\
  ¬ session_ok σ' /\
  Raising.handle MAX E (ButtonPressed uid "remove_last_file") σ =
  match transport E apology with
  | None => (σ', [apology], inr tt)
  | Some y => (σ', [], inl y)
  end.
Proof.
  intros σ σ' apology. subst σ σ'.
  set (σ := Raising.run MAX es ∅) in *.
  assert (Raising.handle MAX E (ButtonPressed uid "remove_last_file") σ =
          match transport E apology with
          | None => (<[uid := with_files sess []]> σ, [apology], inr tt)
          | Some y => (<[uid := with_files sess []]> σ, [], inl y)
          end) as Hhandle.
  { unfold Raising.handle.
    rewrite (raising_handle_callback_query_dispatch _ _ _ _ _ Hsession).
    unfold try_except.
    change (Raising.dispatch E uid "remove_last_file" σ)
      with (Raising.remove_last_file E uid σ).
    rewrite (raising_remove_last_file_raises E uid σ sess [] last x Hsession Hfiles Hraise).
    unfold Raising.send. fold apology. by destruct (transport E apology). }
  assert (Raising.run MAX (es ++ [(E, ButtonPressed uid "remove_last_file")]) ∅ =
          <[uid := with_files sess []]> σ) as Hstore.
  { rewrite raising_run_snoc. unfold Raising.after. fold σ. rewrite Hhandle.
    by destruct (transport E apology). }
  rewrite Hstore. split; [done |]. split; [| done].
  intros Hok. apply (Hok uid (with_files sess [])); [| by simpl; rewrite Hop |done].
  by rewrite lookup_insert_eq.
Qed.

(** A video is staged, [Extract Tracks] is pressed, and the acknowledgement
    of [Remove Last File] times out. *)
Lemma failed_acknowledgement_fixture :
  let video := stage (Fixture.video 7 "Movie.EN.mkv" 10) "Movie.EN.mkv" "video" in
  let sess := with_operation (with_files new_session [video]) "extract_tracks" in
  let σ' := Raising.run Fixture.limit
              (extracting ++ [(unacknowledged, ButtonPressed 7 "remove_last_file")]) ∅ in
  Raising.run Fixture.limit extracting ∅ !! 7 = Some sess /\
  transport unacknowledged (answer ("Removed: " +:+ file_name video)) = Some "TimeoutError" /\
  σ' !! 7 = Some {| files := []; current_operation := Some "extract_tracks";
                    processing := false |} /\
  ¬ session_ok σ' /\
  Raising.handle Fixture.limit unacknowledged (ButtonPressed 7 "remove_last_file")
    (Raising.run Fixture.limit extracting ∅) =
  (σ', [answer "An error occurred. Please try again."], inr tt).
Proof.
  intros video sess σ'.
  assert (Raising.run Fixture.limit extracting ∅ !! 7 = Some sess) as Hsession
    by (vm_compute; reflexivity).
  assert (transport unacknowledged (answer ("Removed: " +:+ file_name video)) =
          Some "TimeoutError") as Hraise by (vm_compute; reflexivity).
  split; [exact Hsession |]. split; [exact Hraise |].
  destruct (failed_acknowledgement_empties_session Fixture.limit extracting unacknowledged 7
              sess video "extract_tracks" "TimeoutError" Hsession eq_refl eq_refl Hraise)
    as (Hstore & Hbroken & Hhandle).
  split; [| split; [exact Hbroken | exact Hhandle]].
  fold σ' in Hstore. rewrite Hstore. by rewrite lookup_insert_eq.
Defined.

(** With every acknowledgement of a removal going through, whatever else
    raises, a chosen operation comes with at least one staged file. *)
Lemma raising_run_ok MAX (es : list (env * event)) :
  Forall (fun ee => removals_answered ee.1) es -> session_ok (Raising.run MAX es ∅).
Proof.
  intros Hall uid sess Hlook _. by destruct (raising_run_wf MAX es Hall uid sess Hlook).
Qed.

(** ** Sessions as the handlers leave them *)

(** X3: every session that exists after any sequence of updates, whatever
    raised while they were handled, has [processing] false and no operation
    or one of the four the handlers assign; and it holds at least one file
    unless the acknowledgement of a [Remove Last File] has raised in one of
    the updates. *)
Theorem reachable_session_shape MAX (es : list (env * event)) uid (sess : session)
    (Hsession : Raising.run MAX es ∅ !! uid = Some sess) :
  processing sess = false /\
  (current_operation sess = None \/
   exists op, current_operation sess = Some op /\ op ∈ operations) /\
  (Forall (fun ee => removals_answered ee.1) es -> files sess ≠ []).
Proof.
  destruct (raising_run_shape MAX es uid sess Hsession) as (_ & Hproc & Hop).
  split; [done |]. split.
  - destruct (current_operation sess) as [op|]; [right | by left].
    exists op. split; [done | by apply Hop].
  - intros Hall. by destruct (raising_run_wf MAX es Hall uid sess Hsession).
Qed.

(** The session left behind by the acknowledgement that timed out. *)
Lemma reachable_session_shape_fixture :
  let es := extracting ++ [(unacknowledged, ButtonPressed 7 "remove_last_file")] in
  let sess := {| files := []; current_operation := Some "extract_tracks";
                 processing := false |} in
  Raising.run Fixture.limit es ∅ !! 7 = Some sess /\
  processing sess = false /\
  (current_operation sess = None \/
   exists op, current_operation sess = Some op /\ op ∈ operations) /\
  (Forall (fun ee => removals_answered ee.1) es -> files sess ≠ []).
Proof.
  intros es sess.
  assert (Raising.run Fixture.limit es ∅ !! 7 = Some sess) as Hsession
    by (vm_compute; reflexivity).
  split; [exact Hsession |].
  exact (reachable_session_shape Fixture.limit es 7 sess Hsession).
Defined.

Lemma raising_send_raises E e (s : gmap Z session) x :
  transport E e = Some x -> Raising.send E e s = (s, [], inl x).
Proof. intros Hx. unfold Raising.send. by rewrite Hx. Qed.

Lemma raising_send_returns E e (s : gmap Z session) :
  transport E e = None -> Raising.send E e s = (s, [e], inr tt).
Proof. intros Hx. unfold Raising.send. by rewrite Hx. Qed.

Lemma raising_download_file_run E message (σ : gmap Z session) name :
  message_file_name message = Some name -> name ≠ "" ->
  Raising.download_file E message σ =
  let download_path := "downloads/" +:+ str (Telegram.from_user message) +:+ "/" +:+ name in
  let announce :=
    reply_text ("📥 Downloading " +:+ name +:+ "..." +:+ nl +:+
                "Progress: 0%" +:+ nl +:+ "Speed: 0 MB/s") None in
  match makedirs E (os_path_dirname download_path) with
  | Some x => (σ, [], inl x)
  | None =>
      match transport E announce with
      | Some x => (σ, [], inl x)
      | None =>
          match fetch (tools E) message download_path with
          | inl x => (σ, [announce], inl x)
          | inr (file, summary) =>
              match transport E (edit_text summary None) with
              | Some x => (σ, [announce], inl x)
              | None => (σ, [announce; edit_text summary None], inr file)
              end
          end
      end
  end.
Proof.
  intros Hname Hne. unfold Raising.download_file. rewrite Hname.
  destruct name as [|c name]; [done |]. cbv zeta.
  destruct (makedirs E _) as [x|]; [done |].
  unfold message_file_name in Hname.
  destruct (transport E (reply_text _ None)) as [x|] eqn:Hannounce.
  { by rewrite (bind_inl _ _ _ _ _ _ (raising_send_raises _ _ _ _ Hannounce)). }
  rewrite (bind_inr _ _ _ _ _ _ (raising_send_returns _ _ _ Hannounce)).
  destruct (Telegram.document message), (Telegram.video message), (Telegram.audio message);
    try discriminate Hname;
    (destruct (fetch (tools E) message _) as [x|[file summary]]; [done |];
     destruct (transport E (edit_text summary None)) as [x|] eqn:Hedit;
     [ by rewrite (bind_inl _ _ _ _ _ _ (raising_send_raises _ _ _ _ Hedit))
     | by rewrite (bind_inr _ _ _ _ _ _ (raising_send_returns _ _ _ Hedit)) ]).
Qed.

(** X4: every file of a session that exists after any sequence of updates,
    whatever raised while they were handled, is as [handle_file_input]
    staged it for that user: its message is from the session's user and
    carries its non-empty name, its extension is the lower-cased suffix of
    the name and belongs to its type, its language is the detected one.  So
    [download_file] on it never raises for a missing name or an unsupported
    message: it raises what [os.makedirs] raises, before anything is sent;
    else what the announcement raises; else what the download raises; else
    what the closing edit raises; else it returns the path. *)
Theorem reachable_files_are_staged MAX (es : list (env * event)) uid (sess : session)
    (f : staged_file) E
    (Hsession : Raising.run MAX es ∅ !! uid = Some sess)
    (Hfile : f ∈ files sess) :
  staged_ok uid f /\
  forall σ : gmap Z session,
    Raising.download_file E (message f) σ =
    let download_path := "downloads/" +:+ str uid +:+ "/" +:+ file_name f in
    let announce :=
      reply_text ("📥 Downloading " +:+ file_name f +:+ "..." +:+ nl +:+
                  "Progress: 0%" +:+ nl +:+ "Speed: 0 MB/s") None in
    match makedirs E (os_path_dirname download_path) with
    | Some x => (σ, [], inl x)
    | None =>
        match transport E announce with
        | Some x => (σ, [], inl x)
        | None =>
            match fetch (tools E) (message f) download_path with
            | inl x => (σ, [announce], inl x)
            | inr (file, summary) =>
                match transport E (edit_text summary None) with
                | Some x => (σ, [announce], inl x)
                | None => (σ, [announce; edit_text summary None], inr file)
                end
            end
        end
    end.
Proof.
  destruct (raising_run_shape MAX es uid sess Hsession) as (Hall & _).
  rewrite Forall_forall in Hall. pose proof (Hall f Hfile) as Hok.
  split; [exact Hok |]. intros σ.
  destruct Hok as (Huser & Hname & Hne & _).
  rewrite (raising_download_file_run _ _ _ _ Hname Hne). by rewrite Huser.
Qed.

(** The staged video is downloaded where the directory cannot be made. *)
Lemma reachable_files_are_staged_fixture :
  let video := stage (Fixture.video 7 "Movie.EN.mkv" 10) "Movie.EN.mkv" "video" in
  let sess := with_operation (with_files new_session [video]) "extract_tracks" in
  Raising.run Fixture.limit extracting ∅ !! 7 = Some sess /\
  video ∈ files sess /\
  staged_ok 7 video /\
  Raising.download_file read_only_disk (message video) ∅ = (∅, [], inl "PermissionError").
Proof.
  intros video sess.
  assert (Raising.run Fixture.limit extracting ∅ !! 7 = Some sess) as Hsession
    by (vm_compute; reflexivity).
  assert (video ∈ files sess) as Hfile by left.
  split; [exact Hsession |]. split; [exact Hfile |].
  destruct (reachable_files_are_staged Fixture.limit extracting 7 sess video read_only_disk
              Hsession Hfile) as (Hok & Hdownload).
  split; [exact Hok |]. by rewrite Hdownload.
Defined.

(** ** Staging a file *)

(** C3: the size test reads [message.document] only.  A video or an audio
    attachment (no document) whose declared size is over the limit, with an
    ASCII name and a supported extension, is not refused: it is appended to
    the sender's session, created when absent, and the action menu is
    sent. *)
Theorem oversized_attachment_is_staged MAX E (message : Telegram.Message)
    (σ : gmap Z session) name n type
    (Hattachment : Telegram.document message = None)
    (Hsize : declared_size message = Some n)
    (Hover : MAX < n)
    (Hname : message_file_name message = Some name)
    (Hnonempty : name ≠ "")
    (Hascii : isascii name = true)
    (Htype : lookup_type SUPPORTED_EXTENSIONS (Py.lower (PathLib.suffix name)) = Some type) :
  let sess := default new_session (σ !! Telegram.from_user message) in
  let fs := files sess ++ [stage message name type] in
  let σ' := <[Telegram.from_user message := with_files sess fs]> σ in
  let menu := reply_text "📁 Choose an action:" (Some (action_buttons fs)) in
  Raising.handle MAX E (FileReceived message) σ =
  match transport E menu with
  | None => (σ', [menu], inr tt)
  | Some x => (σ', [], inl x)
  end.
Proof.
  intros sess fs σ' menu. unfold Raising.handle, Raising.handle_file_input.
  assert (too_large MAX message σ = (σ, [], inr false)) as Hbig
    by (unfold too_large; by rewrite Hattachment).
  rewrite (bind_inr _ _ _ _ _ _ Hbig), Hname.
  destruct name as [|c name]; [done |]. rewrite Htype.
  unfold user_sessions at 1. unfold set_user_sessions.
  unfold mbind at 1 2, M_bind, bind. cbn [List.app].
  fold new_session. fold (stage message (String c name) type). fold sess. fold fs. fold σ'.
  unfold Raising.show_action_buttons.
  rewrite (bind_inr _ _ _ _ _ _ (session_of_run _ _ _ (lookup_insert_eq _ _ _))).
  unfold Raising.send. cbn [files with_files]. fold menu.
  by destruct (transport E menu).
Qed.

(** A video of 3 GB arrives where the limit is 2 GB. *)
Lemma oversized_attachment_fixture :
  let message := Fixture.video 7 "Movie.mkv" 3000000000 in
  let σ' : gmap Z session :=
    {[ 7 := with_files new_session [stage message "Movie.mkv" "video"] ]} in
  Telegram.document message = None /\
  declared_size message = Some 3000000000 /\
  Fixture.limit < 3000000000 /\
  Raising.handle Fixture.limit (returning Fixture.quiet) (FileReceived message) ∅ =
  (σ', [reply_text "📁 Choose an action:"
          (Some (action_buttons [stage message "Movie.mkv" "video"]))], inr tt).
Proof.
  intros message σ'.
  assert (Fixture.limit < 3000000000) as Hover by (vm_compute; reflexivity).
  split; [reflexivity |]. split; [reflexivity |]. split; [exact Hover |].
  rewrite (oversized_attachment_is_staged Fixture.limit (returning Fixture.quiet) message ∅
             "Movie.mkv" 3000000000 "video" eq_refl eq_refl Hover eq_refl).
  - vm_compute. reflexivity.
  - discriminate.
  - vm_compute. reflexivity.
  - vm_compute. reflexivity.
Defined.

(** The same size on a document is refused. *)
Lemma oversized_document_is_refused MAX E (message : Telegram.Message) (σ : gmap Z session)
    d n :
  Telegram.document message = Some d ->
  Telegram.file_size d = Some n ->
  MAX < n ->
  let refusal :=
    reply_text ("⚠️ File is too large! Max size is " +:+ str (MAX / 1000000) +:+ "MB.") None in
  Raising.handle MAX E (FileReceived message) σ =
  match transport E refusal with
  | None => (σ, [refusal], inr tt)
  | Some x => (σ, [], inl x)
  end.
Proof.
  intros Hdocument Hsize Hover refusal. unfold Raising.handle, Raising.handle_file_input.
  assert (too_large MAX message σ = (σ, [], inr true)) as Hbig.
  { unfold too_large. rewrite Hdocument, Hsize. by rewrite (proj2 (Z.ltb_lt MAX n) Hover). }
  rewrite (bind_inr _ _ _ _ _ _ Hbig). unfold Raising.send. fold refusal.
  by destruct (transport E refusal).
Qed.

(** ** What is sent *)

Lemma bind_sent {A B} (m : M A) (k : A -> M B) (s : gmap Z session) :
  ((m ≫= k) s).1.2 =
  match (m s).2 with
  | inl _ => (m s).1.2
  | inr a => (m s).1.2 ++ (k a (m s).1.1).1.2
  end.
Proof.
  unfold mbind, M_bind, bind. destruct (m s) as [[s1 out1] [e|a]]; [done |].
  simpl. by destruct (k a s1) as [[s2 out2] r].
Qed.

Lemma sends_bind {A B} P (m : M A) (k : A -> M B) :
  sends P m -> (forall a, sends P (k a)) -> sends P (m ≫= k).
Proof.
  intros Hm Hk s. rewrite bind_sent. specialize (Hm s).
  destruct (m s).2; [done |]. apply Forall_app. split; [done | apply Hk].
Qed.

Lemma sends_nothing {A} P (m : M A) : (forall s, (m s).1.2 = []) -> sends P m.
Proof. intros Hm s. by rewrite Hm. Qed.

Lemma sends_session_of P uid : sends P (session_of uid).
Proof.
  apply sends_nothing. intros s. unfold session_of, user_sessions.
  unfold mbind, M_bind, bind. by destruct (s !! uid).
Qed.

Lemma sends_del_session P uid : sends P (del_session uid).
Proof.
  apply sends_nothing. intros s. unfold del_session, user_sessions.
  unfold mbind, M_bind, bind. by destruct (s !! uid).
Qed.

Lemma sends_set_current_operation P uid op : sends P (set_current_operation uid op).
Proof.
  apply sends_nothing. intros s. unfold set_current_operation, session_of, user_sessions.
  unfold mbind, M_bind, bind. by destruct (s !! uid).
Qed.

Lemma sends_track_buttons P tracks : sends P (track_buttons tracks).
Proof.
  induction tracks as [|track tracks IH]; simpl; [by apply sends_nothing |].
  apply sends_bind.
  - apply sends_nothing. intros s. unfold track_button. by destruct (Track.type track).
  - intros b. apply sends_bind; [done |]. intros bs. by apply sends_nothing.
Qed.

Lemma sends_raising_send (P : effect -> Prop) E e : P e -> sends P (Raising.send E e).
Proof.
  intros He s. unfold Raising.send. destruct (transport E e); simpl; by repeat constructor.
Qed.

Lemma sends_try_except P (body : M unit) (handler : exn -> M unit) :
  sends P body -> (forall e, sends P (handler e)) -> sends P (try_except body handler).
Proof.
  intros Hb Hh s. unfold try_except. specialize (Hb s).
  destruct (body s) as [[s1 out1] [e|[]]]; [|done].
  specialize (Hh e s1). destruct (handler e s1) as [[s2 out2] r].
  apply Forall_app. by split.
Qed.

Lemma removed_not_unknown name : not_unknown (answer ("Removed: " +:+ name)).
Proof. by intros [=]. Qed.

Lemma raising_dispatch_sends E uid data :
  data ∈ handled -> sends not_unknown (Raising.dispatch E uid data).
Proof.
  intros Hin.
  assert (sends not_unknown (Raising.show_action_buttons E uid)) as Hmenu.
  { unfold Raising.show_action_buttons.
    apply sends_bind; [apply sends_session_of |]. intros sess.
    by apply sends_raising_send. }
  unfold handled in Hin.
  repeat (apply elem_of_cons in Hin as [-> | Hin]); [.. | by inversion Hin].
  - change (Raising.dispatch E uid "extract_tracks") with (Raising.handle_extract_tracks E uid).
    unfold Raising.handle_extract_tracks.
    apply sends_bind; [apply sends_session_of |]. intros sess.
    destruct (files sess) as [|f [|f' fs]]; try by apply sends_raising_send.
    case_bool_decide; [by apply sends_raising_send |].
    apply sends_bind; [apply sends_set_current_operation |]. intros _.
    apply sends_bind.
    { unfold Raising.download_file.
      destruct (message_file_name (message f)) as [[|c name]|]; try by apply sends_nothing.
      destruct (makedirs E _); [by apply sends_nothing |].
      apply sends_bind; [by apply sends_raising_send |]. intros _.
      destruct (Telegram.document (message f)), (Telegram.video (message f)),
        (Telegram.audio (message f));
        try (by apply sends_nothing);
        (destruct (fetch (tools E) (message f) _) as [x|[file summary]];
         [by apply sends_nothing |];
         apply sends_bind; [by apply sends_raising_send | intros; by apply sends_nothing]). }
    intros file_path. apply sends_bind.
    { apply sends_nothing. intros s. unfold Raising.get_mkv_tracks, get_mkv_tracks.
      destruct (spawn E _); [done |]. by destruct (negb _). }
    intros tracks. apply sends_bind; [apply sends_track_buttons |]. intros buttons.
    by apply sends_raising_send.
  - change (Raising.dispatch E uid "mux_files") with (Raising.handle_mux_files E uid).
    unfold Raising.handle_mux_files.
    apply sends_bind; [apply sends_session_of |]. intros sess.
    case_bool_decide; [by apply sends_raising_send |].
    apply sends_bind; [apply sends_set_current_operation |]. intros _.
    by apply sends_raising_send.
  - change (Raising.dispatch E uid "merge_files") with (Raising.handle_merge_files E uid).
    unfold Raising.handle_merge_files.
    apply sends_bind; [apply sends_session_of |]. intros sess.
    case_bool_decide; [by apply sends_raising_send |].
    apply sends_bind; [apply sends_set_current_operation |]. intros _.
    by apply sends_raising_send.
  - change (Raising.dispatch E uid "edit_metadata") with (Raising.handle_edit_metadata E uid).
    unfold Raising.handle_edit_metadata.
    apply sends_bind; [apply sends_session_of |]. intros sess.
    destruct (files sess) as [|f [|f' fs]]; try by apply sends_raising_send.
    case_bool_decide; [by apply sends_raising_send |].
    apply sends_bind; [apply sends_set_current_operation |]. intros _.
    by apply sends_raising_send.
  - change (Raising.dispatch E uid "add_another_file")
      with (Raising.send E (answer "Please send the next file.")).
    by apply sends_raising_send.
  - change (Raising.dispatch E uid "view_files") with (Raising.show_added_files E uid).
    unfold Raising.show_added_files.
    apply sends_bind; [apply sends_session_of |]. intros sess.
    by apply sends_raising_send.
  - change (Raising.dispatch E uid "remove_last_file") with (Raising.remove_last_file E uid).
    unfold Raising.remove_last_file.
    apply sends_bind; [apply sends_session_of |]. intros sess.
    destruct (List.rev (files sess)) as [|removed kept]; [by apply sends_raising_send |].
    apply sends_bind; [by apply sends_nothing |]. intros s.
    apply sends_bind; [by apply sends_nothing |]. intros _.
    apply sends_bind; [apply sends_raising_send, removed_not_unknown |]. intros _.
    destruct (List.rev kept); [| exact Hmenu].
    apply sends_bind; [apply sends_del_session |]. intros _.
    by apply sends_raising_send.
  - change (Raising.dispatch E uid "cancel_operation")
      with (del_session uid;; Raising.send E (edit_text "Operation cancelled." None)).
    apply sends_bind; [apply sends_del_session |]. intros _.
    by apply sends_raising_send.
Qed.

Lemma raising_press_sends MAX E uid data (σ : gmap Z session) :
  data ∈ handled ->
  answer "Unknown action." ∉ Raising.sent MAX E (ButtonPressed uid data) σ.
Proof.
  intros Hin Hsent.
  assert (sends not_unknown (Raising.handle_callback_query E uid data)) as Hsends.
  { unfold Raising.handle_callback_query. apply sends_try_except.
    - apply sends_bind; [by apply sends_nothing |]. intros s.
      destruct (s !! uid); [by apply raising_dispatch_sends | by apply sends_raising_send].
    - intros e. by apply sends_raising_send. }
  specialize (Hsends σ). rewrite Forall_forall in Hsends.
  by apply (Hsends _ Hsent).
Qed.

(** ** Buttons and the dispatcher *)

(** X9: the action menu offers [Extract Tracks] and [Add/Edit Metadata]
    exactly when the list is a single video; it offers [Mux] and [Merge]
    for every list; and every button of the menu has a branch in
    [handle_callback_query]: pressing it is never answered
    [Unknown action.], whatever the store and whatever raises. *)
Theorem action_menu_and_preconditions (fs : list staged_file) :
  ("extract_tracks" ∈ keyboard_data (action_buttons fs) <-> single_video fs) /\
  ("edit_metadata" ∈ keyboard_data (action_buttons fs) <-> single_video fs) /\
  "mux_files" ∈ keyboard_data (action_buttons fs) /\
  "merge_files" ∈ keyboard_data (action_buttons fs) /\
  (forall data MAX E uid (σ : gmap Z session),
     data ∈ keyboard_data (action_buttons fs) ->
     answer "Unknown action." ∉ Raising.sent MAX E (ButtonPressed uid data) σ).
Proof.
  destruct (action_menu_data fs) as (Hextract & Hedit & Hmux & Hmerge & Hhandled).
  repeat (split; [done |]).
  intros data MAX E uid σ Hin. apply raising_press_sends. by apply Hhandled.
Qed.
